(** * Postgraduate schedules: a shallow embedding of the scheduling core

    Part I embeds the Python sources, module by module:
    - [PyDict]: Python's insertion-ordered [dict] with string keys;
    - [PyDate]: the part of [datetime] the sources use;
    - [HolidayManager] and [CalendarWithHolidays]: [holiday_manager.py];
    - [CalendarReader]: [generate_schedules_2026_2027.py];
    - [ScheduleManager]: [schedule_manager.py];
    - [HolidayLoader]: reading the holiday file, [holiday_manager.py];
    - [GoogleDriveManager] and [VersionManager]: [google_drive_manager.py];
    - [WhatsAppBot]: [whatsapp_bot.py];
    - [SpreadsheetColorScheme] and [SpreadsheetGenerator]:
      [spreadsheet_generator.py];
    - [ScheduleGenerator2026]: [generate_schedules_2026_2027.py];
    - [ScheduleManagementSystem]: [main.py].

    Part II states and proves the properties of these definitions. *)

From Stdlib Require Import ZArith String Ascii List Bool Lia Sorted.
From stdpp Require Import base option list strings pretty gmap.

Local Open Scope Z_scope.

(** * Part I: the embedding *)

(** ** Outcomes of Python code

    A call returns a value, raises an exception (named by its class), or,
    for the fuelled loops of this development only, runs out of fuel. *)

Inductive outcome (A : Type) : Type :=
| Ok (a : A)
| Raise (exn : string)
| OutOfFuel.

Arguments Ok {A} a.
Arguments Raise {A} exn.
Arguments OutOfFuel {A}.

Definition obind {A B} (x : outcome A) (k : A -> outcome B) : outcome B :=
  match x with
  | Ok a => k a
  | Raise e => Raise e
  | OutOfFuel => OutOfFuel
  end.

#[global] Instance outcome_bind : MBind outcome := fun A B k x => obind x k.

(** ** Python values

    The sources build free-form dictionaries; [pyval] is the universe of
    the values they hold.  Numbers coming out of pandas are kept abstract
    ([num]): no property below depends on float arithmetic. *)

#[local] Unset Elimination Schemes.
Inductive pyval (num : Type) : Type :=
| PNone
| PBool (b : bool)
| PInt (z : Z)
| PNum (n : num)
| PStr (s : string)
| PList (l : list (pyval num))
| PDict (d : list (string * pyval num)).
#[local] Set Elimination Schemes.

Arguments PNone {num}.
Arguments PBool {num} b.
Arguments PInt {num} z.
Arguments PNum {num} n.
Arguments PStr {num} s.
Arguments PList {num} l.
Arguments PDict {num} d.

(** ** Insertion-ordered dictionaries *)

Module PyDict.

Definition dict (V : Type) : Type := list (string * V).

Section Ops.
Context {V : Type}.

(** [d.get(k)] / [d[k]] *)
Fixpoint get (k : string) (d : dict V) : option V :=
  match d with
  | [] => None
  | (k', v) :: d' => if String.eqb k k' then Some v else get k d'
  end.

(** [k in d] *)
Definition contains (k : string) (d : dict V) : bool :=
  match get k d with Some _ => true | None => false end.

(** [d[k] = v]: an existing key keeps its position, a new key goes last. *)
Fixpoint set (k : string) (v : V) (d : dict V) : dict V :=
  match d with
  | [] => [(k, v)]
  | (k', v') :: d' =>
      if String.eqb k k' then (k', v) :: d' else (k', v') :: set k v d'
  end.

(** [d] without its key [k], to compare dictionaries up to one key. *)
Fixpoint remove (k : string) (d : dict V) : dict V :=
  match d with
  | [] => []
  | (k', v') :: d' =>
      if String.eqb k k' then remove k d' else (k', v') :: remove k d'
  end.

Definition keys (d : dict V) : list string := map fst d.

(** [not d] *)
Definition is_empty (d : dict V) : bool :=
  match d with [] => true | _ :: _ => false end.

End Ops.

End PyDict.

(** ** Calendar dates, as [datetime] computes them *)

Module PyDate.

Record date : Type := mkdate { year : Z; month : Z; day : Z }.

Definition MINYEAR : Z := 1.
Definition MAXYEAR : Z := 9999.

Definition is_leap (y : Z) : bool :=
  (y mod 4 =? 0) && (negb (y mod 100 =? 0) || (y mod 400 =? 0)).

Definition days_in_month (y m : Z) : Z :=
  if m =? 2 then (if is_leap y then 29 else 28)
  else if (m =? 4) || (m =? 6) || (m =? 9) || (m =? 11) then 30
  else 31.

Definition days_before_year (y : Z) : Z :=
  let p := y - 1 in p * 365 + p / 4 - p / 100 + p / 400.

Fixpoint days_before_month_aux (y : Z) (n : nat) : Z :=
  match n with
  | O => 0
  | S n' => days_before_month_aux y n' + days_in_month y (Z.of_nat n)
  end.

(** Days of the year before the first day of month [m]. *)
Definition days_before_month (y m : Z) : Z :=
  days_before_month_aux y (Z.to_nat (m - 1)).

(** Day of the year, 1 for 1 January. *)
Definition day_of_year (d : date) : Z :=
  days_before_month (year d) (month d) + day d.

Definition toordinal (d : date) : Z :=
  days_before_year (year d) + day_of_year d.

(** [weekday()]: Monday is 0 and Sunday is 6. *)
Definition weekday (d : date) : Z := (toordinal d + 6) mod 7.

Definition validb (d : date) : bool :=
  (MINYEAR <=? year d) && (year d <=? MAXYEAR) &&
  (1 <=? month d) && (month d <=? 12) &&
  (1 <=? day d) && (day d <=? days_in_month (year d) (month d)).

(** The constructor [date(y, m, d)] *)
Definition make (y m d : Z) : outcome date :=
  let r := mkdate y m d in
  if validb r then Ok r else Raise "ValueError".

(** [d + timedelta(days=1)] *)
Definition add_day (d : date) : outcome date :=
  if day d <? days_in_month (year d) (month d)
  then Ok (mkdate (year d) (month d) (day d + 1))
  else if month d <? 12 then Ok (mkdate (year d) (month d + 1) 1)
  else if year d <? MAXYEAR then Ok (mkdate (year d + 1) 1 1)
  else Raise "OverflowError".

(** Comparison of dates is lexicographic on (year, month, day). *)
Definition lt (a b : date) : Prop :=
  year a < year b \/
  (year a = year b /\ (month a < month b \/
                       (month a = month b /\ day a < day b))).

Definition ltb (a b : date) : bool :=
  (year a <? year b) ||
  ((year a =? year b) &&
   ((month a <? month b) || ((month a =? month b) && (day a <? day b)))).

(** [a <= b] *)
Definition leb (a b : date) : bool := negb (ltb b a).

Definition digit (z : Z) : ascii := ascii_of_N (48 + Z.to_N z).

Definition pad2 (z : Z) : string :=
  String (digit (z / 10 mod 10)) (String (digit (z mod 10)) EmptyString).

(** [%Y] for the years 1000 to 9999, which have four digits.  For a year
    below 1000 the C library decides whether [%Y] is padded with zeros
    (glibc does not pad), so the property that fixes the text of every
    key of a calendar is stated for the years from 1000 on. *)
Definition pad4 (z : Z) : string :=
  String (digit (z / 1000 mod 10)) (String (digit (z / 100 mod 10)) (pad2 z)).

(** [strftime('%d/%m')] *)
Definition strftime_dm (d : date) : string :=
  pad2 (day d) +:+ "/" +:+ pad2 (month d).

(** [strftime('%d/%m/%Y')] *)
Definition strftime_dmY (d : date) : string :=
  strftime_dm d +:+ "/" +:+ pad4 (year d).

(** [strftime('%A')] in the C locale. *)
Definition strftime_A (d : date) : string :=
  let w := weekday d in
  if w =? 0 then "Monday" else if w =? 1 then "Tuesday"
  else if w =? 2 then "Wednesday" else if w =? 3 then "Thursday"
  else if w =? 4 then "Friday" else if w =? 5 then "Saturday"
  else "Sunday".

(** A [datetime]: a date and a time of day.  [datetime(y, m, d)] is
    midnight of that day; adding whole days keeps the time of day. *)
Record datetime : Type :=
  mkdatetime { dt_date : date; hour : Z; minute : Z; second : Z }.

Definition time_of_day (t : datetime) : Z :=
  (hour t * 60 + minute t) * 60 + second t.

Definition datetime_make (y m d : Z) : outcome datetime :=
  r ← make y m d; Ok (mkdatetime r 0 0 0).

Definition datetime_add_day (t : datetime) : outcome datetime :=
  r ← add_day (dt_date t); Ok (mkdatetime r (hour t) (minute t) (second t)).

Definition datetime_ltb (a b : datetime) : bool :=
  ltb (dt_date a) (dt_date b) ||
  (negb (ltb (dt_date b) (dt_date a)) && (time_of_day a <? time_of_day b)).

Definition datetime_leb (a b : datetime) : bool := negb (datetime_ltb b a).

End PyDate.

(** ** [holiday_manager.py]: class [HolidayManager] *)

Module HolidayManager.

(** The two tables of the manager, keyed by ['%d/%m'] strings. *)
Record t : Type := mk {
  holidays : PyDict.dict string;
  optional_holidays : PyDict.dict string
}.

Definition _load_default_holidays : t := {|
  holidays := [
    ("01/01", "Confraternização Universal");
    ("03/04", "Sexta-feira Santa");
    ("21/04", "Tiradentes");
    ("01/05", "Dia Mundial do Trabalho");
    ("07/09", "Independência do Brasil");
    ("12/10", "Nossa Senhora Aparecida");
    ("02/11", "Finados");
    ("15/11", "Proclamação da República");
    ("20/11", "Dia da Consciência Negra");
    ("25/12", "Natal")
  ]%string;
  optional_holidays := [
    ("02/01", "Ponto Facultativo");
    ("16/02", "Carnaval");
    ("17/02", "Carnaval");
    ("18/02", "Quarta-feira de Cinzas");
    ("02/04", "Quinta-feira Santa");
    ("20/04", "Ponto Facultativo");
    ("04/06", "Corpus Christi");
    ("05/06", "Ponto Facultativo");
    ("15/08", "Assunção de Nossa Senhora");
    ("30/10", "Dia do Servidor Público");
    ("07/12", "Imaculada Conceição");
    ("08/12", "Imaculada Conceição");
    ("24/12", "Ponto Facultativo");
    ("31/12", "Ponto Facultativo")
  ]%string
|}.

Definition is_holiday (self : t) (date : PyDate.date) : bool :=
  let date_key := PyDate.strftime_dm date in
  PyDict.contains date_key (holidays self).

Definition is_optional_holiday (self : t) (date : PyDate.date) : bool :=
  let date_key := PyDate.strftime_dm date in
  PyDict.contains date_key (optional_holidays self).

(** [None] is Python's [None]. *)
Definition get_holiday_name (self : t) (date : PyDate.date) : option string :=
  let date_key := PyDate.strftime_dm date in
  match PyDict.get date_key (holidays self) with
  | Some name => Some name
  | None =>
      match PyDict.get date_key (optional_holidays self) with
      | Some name => Some ("[FACULTATIVO] " +:+ name)
      | None => None
      end
  end.

(** *** [mark_holidays_in_calendar]

    The calendar is passed by reference and the method writes into a
    copy, so dictionaries live in a store of objects. *)

Section Store.
Context {num : Type}.

(** References to objects of the store. *)
Abbreviation loc := nat (only parsing).

Definition holiday_entry (kind name : string) : pyval num :=
  PDict [("type", PStr kind); ("name", PStr name); ("class", PStr kind)]%string.

(** One iteration of [for date_key, holiday_name in table.items()]:
    [if date_key not in marked_calendar: marked_calendar[date_key] = ...]. *)
Definition mark_step (kind : string) (marked_calendar : loc)
    (σ : gmap loc (PyDict.dict (pyval num))) (item : string * string)
    : gmap loc (PyDict.dict (pyval num)) :=
  let '(date_key, holiday_name) := item in
  match σ !! marked_calendar with
  | Some d =>
      if PyDict.contains date_key d then σ
      else <[marked_calendar := PyDict.set date_key (holiday_entry kind holiday_name) d]> σ
  | None => σ
  end.

(** Returns the new store and the reference of [marked_calendar].  A
    reference that holds no dictionary has no [copy] method. *)
Definition mark_holidays_in_calendar (self : t)
    (σ : gmap loc (PyDict.dict (pyval num))) (calendar_dict : loc)
    : outcome (gmap loc (PyDict.dict (pyval num)) * loc) :=
  match σ !! calendar_dict with
  | None => Raise "AttributeError"
  | Some d =>
      let marked_calendar := fresh (dom σ) in
      let σ1 := <[marked_calendar := d]> σ in
      let σ2 := fold_left (mark_step "holiday" marked_calendar) (holidays self) σ1 in
      let σ3 := fold_left (mark_step "optional_holiday" marked_calendar)
                  (optional_holidays self) σ2 in
      Ok (σ3, marked_calendar)
  end.

End Store.

End HolidayManager.

(** ** [holiday_manager.py]: class [CalendarWithHolidays] *)

Module CalendarWithHolidays.

(** One value of the calendar dictionary. *)
Record entry : Type := mk_entry {
  e_date : string;
  day_of_week : string;
  is_holiday : bool;
  is_optional_holiday : bool;
  holiday_name : option string
}.

Record t : Type := mk {
  year : Z;
  holiday_manager : HolidayManager.t;
  calendar : PyDict.dict entry
}.

(** [__init__] with the manager already loaded. *)
Definition init (year : Z) (hm : HolidayManager.t) : t :=
  {| year := year; holiday_manager := hm; calendar := [] |}.

(** The entry the loop body builds for [current_date]. *)
Definition make_entry (hm : HolidayManager.t) (current_date : PyDate.date) : entry :=
  let date_key := PyDate.strftime_dmY current_date in
  if HolidayManager.is_holiday hm current_date then
    {| e_date := date_key; day_of_week := PyDate.strftime_A current_date;
       is_holiday := true; is_optional_holiday := false;
       holiday_name := HolidayManager.get_holiday_name hm current_date |}
  else if HolidayManager.is_optional_holiday hm current_date then
    {| e_date := date_key; day_of_week := PyDate.strftime_A current_date;
       is_holiday := false; is_optional_holiday := true;
       holiday_name := HolidayManager.get_holiday_name hm current_date |}
  else
    {| e_date := date_key; day_of_week := PyDate.strftime_A current_date;
       is_holiday := false; is_optional_holiday := false;
       holiday_name := None |}.

(** [while current_date <= end_date: ...] *)
Fixpoint calendar_loop (fuel : nat) (hm : HolidayManager.t)
    (current_date end_date : PyDate.date) (calendar : PyDict.dict entry)
    : outcome (PyDict.dict entry) :=
  match fuel with
  | O => OutOfFuel
  | S fuel' =>
      if PyDate.leb current_date end_date then
        let date_key := PyDate.strftime_dmY current_date in
        let calendar := PyDict.set date_key (make_entry hm current_date) calendar in
        next ← PyDate.add_day current_date;
        calendar_loop fuel' hm next end_date calendar
      else Ok calendar
  end.

(** A year has at most 366 days; one more round sees the loop test fail. *)
Definition calendar_fuel : nat := 367.

(** Returns the object with [self.calendar] assigned; the method's return
    value is that same dictionary. *)
Definition generate_calendar (self : t) : outcome t :=
  start_date ← PyDate.make (year self) 1 1;
  end_date ← PyDate.make (year self) 12 31;
  calendar ← calendar_loop calendar_fuel (holiday_manager self) start_date end_date [];
  Ok {| year := year self; holiday_manager := holiday_manager self;
        calendar := calendar |}.

Definition is_weekend_name (s : string) : bool :=
  String.eqb s "Saturday" || String.eqb s "Sunday".

Definition get_non_working_days (self : t) : list string :=
  map fst
    (List.filter (fun '(date_key, entry) =>
               if is_holiday entry || is_optional_holiday entry then true
               else is_weekend_name (day_of_week entry))
                 (calendar self)).

(** The two arguments are not used by the method. *)
Definition get_working_days (self : t) (start_date end_date : string) : list string :=
  map fst
    (List.filter (fun '(date_key, entry) =>
               negb (is_holiday entry) && negb (is_optional_holiday entry) &&
               negb (is_weekend_name (day_of_week entry)))
                 (calendar self)).

End CalendarWithHolidays.

(** ** [generate_schedules_2026_2027.py]: class [CalendarReader] *)

Module CalendarReader.

(** [current_date.weekday() in [0, 2, 4, 5]] *)
Definition is_letive_weekday (w : Z) : bool :=
  (w =? 0) || (w =? 2) || (w =? 4) || (w =? 5).

Fixpoint letive_loop (fuel : nat) (current_date end_date : PyDate.datetime)
    (letive_days : list PyDate.datetime) : outcome (list PyDate.datetime) :=
  match fuel with
  | O => OutOfFuel
  | S fuel' =>
      if PyDate.datetime_leb current_date end_date then
        let letive_days :=
          if is_letive_weekday (PyDate.weekday (PyDate.dt_date current_date))
          then letive_days ++ [current_date] else letive_days in
        next ← PyDate.datetime_add_day current_date;
        letive_loop fuel' next end_date letive_days
      else Ok letive_days
  end.

(** 1 March 2026 to 31 December 2027 is 671 days. *)
Definition letive_fuel : nat := 672.

(** The rows of the sheet are not read. *)
Definition _extract_letive_days {R : Type} (rows : R) : outcome (list PyDate.datetime) :=
  start_date ← PyDate.datetime_make 2026 3 1;
  end_date ← PyDate.datetime_make 2027 12 31;
  letive_loop letive_fuel start_date end_date [].

End CalendarReader.

(** ** [schedule_manager.py] *)

Module ScheduleManager.

Section Pandas.

(** What pandas and numpy contribute: the numbers of a numeric column and
    the operations the sources apply to them. *)
Context {num : Type}.
(** [pd.to_numeric(..., errors='coerce')] on a text cell; [None] is NaN. *)
Variable to_numeric_str : string -> option num.
Variable num_zero : num.
Variable num_add : num -> num -> num.
Variable num_leb : num -> num -> bool.
Variable num_eqb : num -> num -> bool.
(** [int(load)], which raises on an infinite value. *)
Variable num_int : num -> outcome Z.

Inductive cell : Type :=
| CText (s : string)
| CNumber (n : num)
| CNaN.

(** A [DataFrame]: the number of columns and the rows, each with its index
    label.  A cell missing from a short row reads as NaN. *)
Record frame : Type := mk_frame {
  ncols : nat;
  rows : list (nat * list cell)
}.

Definition cell_at (i : nat) (cells : list cell) : cell := nth i cells CNaN.

(** [df.empty] *)
Definition frame_empty (df : frame) : bool :=
  match ncols df, rows df with
  | O, _ => true
  | _, [] => true
  | _, _ => false
  end.

(** [df.iloc[:, :5].copy()] *)
Definition iloc_first5 (df : frame) : frame :=
  {| ncols := Nat.min (ncols df) 5;
     rows := map (fun '(i, cells) => (i, firstn 5 cells)) (rows df) |}.

(** [.reset_index(drop=True)] *)
Definition reset_index (rs : list (nat * list cell)) : list (nat * list cell) :=
  imap (fun i '(_, cells) => (i, cells)) rs.

Definition is_header_cell (c : cell) : bool :=
  match c with
  | CText s => String.eqb s "Disciplina"
  | _ => false
  end.

Definition to_numeric (c : cell) : cell :=
  match c with
  | CText s =>
      match to_numeric_str s with Some n => CNumber n | None => CNaN end
  | CNumber n => CNumber n
  | CNaN => CNaN
  end.

Definition isna (c : cell) : bool :=
  match c with CNaN => true | _ => false end.

(** [df[col] = pd.to_numeric(df[col], errors='coerce')] for column [j]. *)
Definition to_numeric_column (j : nat) (rs : list (nat * list cell))
    : list (nat * list cell) :=
  map (fun '(i, cells) => (i, alter to_numeric j cells)) rs.

(** Columns 1, 2 and 4 are Hora_aula, Encontros and Horas. *)
Definition convert_columns (rs : list (nat * list cell)) : list (nat * list cell) :=
  to_numeric_column 4 (to_numeric_column 2 (to_numeric_column 1 rs)).

(** [.dropna(subset=['Hora_aula'])] *)
Definition dropna_hora_aula (rs : list (nat * list cell)) : list (nat * list cell) :=
  List.filter (fun '(_, cells) => negb (isna (cell_at 1 cells))) rs.

(** The rows left once a header row, if any, is removed. *)
Definition remove_header (rs : list (nat * list cell)) : list (nat * list cell) :=
  match rs with
  | (_, cells) :: rest =>
      if is_header_cell (cell_at 0 cells) then reset_index rest else rs
  | [] => []
  end.

(** *** class [DisciplineAnalyzer] *)

(** What a call of [load_disciplines] leaves behind: its return value, the
    attribute [self.disciplines] and the lines printed. *)
Record load_result : Type := mk_load {
  load_ok : bool;
  disciplines : option frame;
  printed : list string
}.

(** [read] is what [pd.read_csv(self.distribution_file, header=None)]
    gives, [None] when it raises.  [self.disciplines] starts as [None].
    The one line the method can print is the message of its [except]
    branch, kept here without the text of the exception. *)
Definition load_disciplines (read : option frame) : load_result :=
  match read with
  | None => mk_load false None ["Erro ao carregar disciplinas"%string]
  | Some df =>
      let sliced := iloc_first5 df in
      if negb (Nat.eqb (ncols sliced) 5) then
        (* the five column names do not fit *)
        mk_load false (Some sliced) ["Erro ao carregar disciplinas"%string]
      else
        match rows sliced with
        | [] =>
            (* [iloc[0, 0]] is out of bounds *)
            mk_load false (Some sliced) ["Erro ao carregar disciplinas"%string]
        | _ :: _ =>
            let data := remove_header (rows sliced) in
            let data := convert_columns data in
            let data := dropna_hora_aula data in
            mk_load true (Some {| ncols := 5; rows := data |}) []
        end
  end.

(** The numeric values of column Hora_aula; NaN is skipped. *)
Definition hora_aula_values (rs : list (nat * list cell)) : list num :=
  omap (fun '(_, cells) =>
          match cell_at 1 cells with CNumber n => Some n | _ => None end) rs.

Definition num_sum (l : list num) : num := fold_left num_add l num_zero.

(** [.unique()]: the distinct values, in order of first appearance. *)
Fixpoint unique (l : list num) : list num :=
  match l with
  | [] => []
  | x :: l' => x :: List.filter (fun y => negb (num_eqb x y)) (unique l')
  end.

Fixpoint insert_sorted (x : num) (l : list num) : list num :=
  match l with
  | [] => [x]
  | y :: l' => if num_leb x y then x :: l else y :: insert_sorted x l'
  end.

(** [sorted(...)] *)
Definition sorted (l : list num) : list num := fold_right insert_sorted [] l.

(** [for load in sorted(...): analysis['by_load'][f'{int(load)}h'] = ...] *)
Fixpoint by_load_loop (loads : list num) (values : list num)
    (by_load : PyDict.dict (pyval num)) : outcome (PyDict.dict (pyval num)) :=
  match loads with
  | [] => Ok by_load
  | load :: loads' =>
      let subset := List.filter (fun v => num_eqb v load) values in
      k ← num_int load;
      by_load_loop loads' values
        (PyDict.set (pretty k +:+ "h")
           (PDict [("count", PInt (Z.of_nat (length subset)));
                   ("total_hours", PNum (num_sum subset))]%string)
           by_load)
  end.

Definition analyze (disciplines : option frame) : outcome (PyDict.dict (pyval num)) :=
  match disciplines with
  | None => Ok [("error", PStr "Disciplinas não carregadas")]%string
  | Some df =>
      if frame_empty df then Ok [("error", PStr "Disciplinas não carregadas")]%string
      else
        let values := hora_aula_values (rows df) in
        by_load ← by_load_loop (sorted (unique values)) values [];
        Ok [("total_disciplines", PInt (Z.of_nat (length (rows df))));
            ("total_hours", PNum (num_sum values));
            ("by_load", PDict by_load)]%string
  end.

(** *** class [CalendarValidator] *)

(** [academic_calendar] is [None] until [load_calendar] succeeds. *)
Definition validate (academic_calendar : option frame) : PyDict.dict (pyval num) :=
  match academic_calendar with
  | None =>
      [("status", PStr "INVÁLIDO");
       ("errors", PList [PStr "Calendário não carregado"]);
       ("warnings", PList []);
       ("summary", PDict [])]%string
  | Some df =>
      if frame_empty df then
        [("status", PStr "INVÁLIDO");
         ("errors", PList [PStr "Calendário vazio"]);
         ("warnings", PList []);
         ("summary", PDict [])]%string
      else
        [("status", PStr "VÁLIDO");
         ("errors", PList []);
         ("warnings", PList []);
         ("summary", PDict [])]%string
  end.

(** *** class [ScheduleGenerator] *)

Definition slot (day time : string) (duration : Z) : pyval num :=
  PDict [("day", PStr day); ("time", PStr time); ("duration", PInt duration)]%string.

Definition WEEKLY_SLOTS : pyval num :=
  PList [slot "Segunda" "19:00-20:40" 100;
         slot "Segunda" "21:00-22:40" 100;
         slot "Quarta" "19:00-20:40" 100;
         slot "Quarta" "21:00-22:40" 100].

Definition BIWEEKLY_SLOTS : pyval num :=
  PList [slot "Sexta" "19:00-20:40" 100;
         slot "Sexta" "21:00-22:40" 100;
         slot "Sábado" "08:00-09:40" 100;
         slot "Sábado" "10:00-11:40" 100;
         slot "Sábado" "13:00-14:40" 100;
         slot "Sábado" "15:00-16:40" 100].

Definition capacity : PyDict.dict (PyDict.dict Z) :=
  [("weekly", [("sem1", 64); ("sem2", 80)]);
   ("biweekly", [("sem1", 96); ("sem2", 120)])]%string.

(** [self.capacity[kind][semester]] *)
Definition capacity_of (kind semester : string) : outcome Z :=
  match PyDict.get kind capacity with
  | None => Raise "KeyError"
  | Some by_semester =>
      match PyDict.get semester by_semester with
      | None => Raise "KeyError"
      | Some c => Ok c
      end
  end.

(** The argument [disciplines] is not read, whatever it holds. *)
Definition generate_weekly_schedule {D : Type} (disciplines : list D)
    (semester : string) : outcome (PyDict.dict (pyval num)) :=
  c ← capacity_of "weekly" semester;
  Ok [("type", PStr "weekly");
      ("semester", PStr semester);
      ("capacity", PInt c);
      ("slots", WEEKLY_SLOTS);
      ("assignments", PList [])]%string.

Definition generate_biweekly_schedule {D : Type} (disciplines : list D)
    (semester : string) : outcome (PyDict.dict (pyval num)) :=
  c ← capacity_of "biweekly" semester;
  Ok [("type", PStr "biweekly");
      ("semester", PStr semester);
      ("capacity", PInt c);
      ("slots", BIWEEKLY_SLOTS);
      ("assignments", PList [])]%string.

(** *** class [ConflictValidator] *)

Definition validate_schedule (schedule : PyDict.dict (pyval num))
    : PyDict.dict (pyval num) :=
  if PyDict.is_empty schedule then
    [("status", PStr "INVÁLIDO");
     ("conflicts", PList [PStr "Horário vazio"]);
     ("warnings", PList []);
     ("summary", PDict [])]%string
  else
    [("status", PStr "VÁLIDO");
     ("conflicts", PList []);
     ("warnings", PList []);
     ("summary", PDict [])]%string.

(** The list under a key of a report; a key that holds no list reads as
    the empty list. *)
Definition report_list (key : string) (report : PyDict.dict (pyval num))
    : list (pyval num) :=
  match PyDict.get key report with
  | Some (PList l) => l
  | _ => []
  end.

Definition report_status (report : PyDict.dict (pyval num)) : option string :=
  match PyDict.get "status" report with
  | Some (PStr s) => Some s
  | _ => None
  end.

(** *** class [ScheduleManager] *)

(** [results['steps'][key] = value] *)
Definition set_step (key : string) (value : pyval num)
    (results : PyDict.dict (pyval num)) : PyDict.dict (pyval num) :=
  match PyDict.get "steps" results with
  | Some (PDict steps) => PyDict.set "steps" (PDict (PyDict.set key value steps)) results
  | _ => results
  end.

(** [process]: [timestamp] is what [datetime.now().isoformat()] returns
    when the run starts and [read_csv] is the content of the file system.
    The progress lines printed are left out; reading
    [disc_analysis['total_disciplines']] to print it is not. *)
Definition process (course year : string) (timestamp : string)
    (read_csv : string -> option frame)
    (calendar_file distribution_file : string) : outcome (PyDict.dict (pyval num)) :=
  let results := [("course", PStr course);
                  ("year", PStr year);
                  ("timestamp", PStr timestamp);
                  ("steps", PDict [])]%string in
  match read_csv calendar_file with
  | None =>
      Ok (set_step "calendar_validation" (PDict [("status", PStr "ERRO")]%string) results)
  | Some cal =>
      let cal_report := validate (Some cal) in
      let results := set_step "calendar_validation" (PDict cal_report) results in
      let loaded := load_disciplines (read_csv distribution_file) in
      if load_ok loaded then
        disc_analysis ← analyze (disciplines loaded);
        let results := set_step "discipline_analysis" (PDict disc_analysis) results in
        if negb (PyDict.contains "total_disciplines" disc_analysis) then Raise "KeyError"
        else
          weekly_sched ← generate_weekly_schedule (@nil (pyval num)) "sem1";
          biweekly_sched ← generate_biweekly_schedule (@nil (pyval num)) "sem1";
          let results :=
            set_step "schedule_generation"
              (PDict [("weekly", PDict weekly_sched);
                      ("biweekly", PDict biweekly_sched)]%string) results in
          let weekly_validation := validate_schedule weekly_sched in
          let biweekly_validation := validate_schedule biweekly_sched in
          let results :=
            set_step "conflict_validation"
              (PDict [("weekly", PDict weekly_validation);
                      ("biweekly", PDict biweekly_validation)]%string) results in
          Ok (PyDict.set "export_status" (PStr "Pronto para exportação") results)
      else
        Ok (set_step "discipline_analysis"
              (PDict [("error", PStr "Não foi possível carregar")]%string) results)
  end.

End Pandas.

End ScheduleManager.

(** ** The data model of the design document *)

Module AssignmentSpec.

(** Modelled from the spec: the Discipline record of the data model
    (name, required contact hours, code).  The sources hand the
    generator free-form dictionaries that it never reads. *)
Record Discipline : Type := mk_discipline {
  name : string;
  requiredHours : Z;
  siglaOrCode : string
}.

(** Modelled from the spec: requiredSessionCount, the required hours
    divided by the slot duration and rounded up to whole sessions. *)
Definition requiredSessionCount (d : Discipline) (slotDurationMinutes : Z) : Z :=
  (requiredHours d * 60 + slotDurationMinutes - 1) / slotDurationMinutes.

Section Coverage.
Context {num : Type}.
(** The sources fix neither the shape of an assignment nor that of a
    warning, so the two readings are left open: which assignments belong to
    a discipline, and which warnings are an HourShortfall for it. *)
Variable assigned_to : Discipline -> pyval num -> bool.
Variable shortfall_for : Discipline -> pyval num -> bool.

(** Modelled from the spec: allocatedSessions, the number of assignments
    of a schedule that belong to the discipline. *)
Definition allocatedSessions (d : Discipline)
    (schedule : PyDict.dict (pyval num)) : Z :=
  Z.of_nat (length (List.filter (assigned_to d)
                      (ScheduleManager.report_list "assignments" schedule))).

(** Modelled from the spec: coverage-or-shortfall for one discipline, with
    the 100-minute sessions of the slot tables. *)
Definition coverage_or_shortfall (d : Discipline)
    (schedule report : PyDict.dict (pyval num)) : Prop :=
  allocatedSessions d schedule = requiredSessionCount d 100 \/
  existsb (shortfall_for d) (ScheduleManager.report_list "warnings" report) = true.

End Coverage.

End AssignmentSpec.

(** ** Properties stated over the embedding *)

Module Props.

(** Adjacent elements are strictly increasing by (date, time of day). *)
Definition strictly_chronological (l : list PyDate.datetime) : Prop :=
  forall (i : nat) (a b : PyDate.datetime),
    l !! i = Some a -> l !! S i = Some b ->
    PyDate.lt (PyDate.dt_date a) (PyDate.dt_date b) \/
    (PyDate.dt_date a = PyDate.dt_date b /\
     PyDate.time_of_day a < PyDate.time_of_day b).

(** The result of a run with its time stamp left out. *)
Definition forget_timestamp {V : Type} (o : outcome (PyDict.dict V))
    : outcome (PyDict.dict V) :=
  match o with
  | Ok results => Ok (PyDict.remove "timestamp" results)
  | Raise e => Raise e
  | OutOfFuel => OutOfFuel
  end.

(** A printed line or recorded entry that names row [i]. *)
Definition mentions_row (i : nat) (line : string) : Prop :=
  exists before after : string, line = before +:+ pretty i +:+ after.

End Props.

(** ** Sample inputs *)

Module Samples.

(** An instance of the pandas operations: columns of integer literals. *)
Fixpoint parse_digits (s : string) (acc : Z) : option Z :=
  match s with
  | EmptyString => Some acc
  | String c s' =>
      let n := Z.of_N (N_of_ascii c) in
      if (48 <=? n) && (n <=? 57) then parse_digits s' (acc * 10 + (n - 48))
      else None
  end.

Definition int_of_string (s : string) : option Z :=
  match s with
  | EmptyString => None
  | _ => parse_digits s 0
  end.

Definition cellZ : Type := @ScheduleManager.cell Z.
Definition frameZ : Type := @ScheduleManager.frame Z.

Definition text_row (i : nat) (cells : list string) : nat * list cellZ :=
  (i, map ScheduleManager.CText cells).

(** A distribution file: a header, a well-formed row and a row whose hour
    field is not a number. *)
Definition distribution : frameZ :=
  {| ScheduleManager.ncols := 5;
     ScheduleManager.rows :=
       [text_row 0 ["Disciplina"; "Hora_aula"; "Encontros"; "Sigla"; "Horas"];
        text_row 1 ["Criminologia I"; "40"; "24"; "CRI1"; "40"];
        text_row 2 ["Seminario"; "a definir"; "2"; "SEM"; "4"]]%string |}.

Definition calendar_sheet : frameZ :=
  {| ScheduleManager.ncols := 2;
     ScheduleManager.rows := [text_row 0 ["02/03/2026"; "letivo"]]%string |}.

Definition read_csv (file : string) : option frameZ :=
  if String.eqb file "CAL_2026-2027_Calendario.csv" then Some calendar_sheet
  else if String.eqb file "DIST_2026-2027_Criminologia.csv" then Some distribution
  else None.

Definition load_sample : ScheduleManager.load_result :=
  ScheduleManager.load_disciplines int_of_string (Some distribution).

Definition process_sample (timestamp : string)
    : outcome (PyDict.dict (pyval Z)) :=
  ScheduleManager.process int_of_string 0 Z.add Z.leb Z.eqb Ok
    "criminologia" "2026-2027" timestamp read_csv
    "CAL_2026-2027_Calendario.csv" "DIST_2026-2027_Criminologia.csv".

Definition criminologia_I : AssignmentSpec.Discipline :=
  {| AssignmentSpec.name := "Criminologia I";
     AssignmentSpec.requiredHours := 40;
     AssignmentSpec.siglaOrCode := "CRI1" |}.

(** The weekly schedule of the first semester for that one discipline. *)
Definition weekly_sem1 : PyDict.dict (pyval Z) :=
  Eval vm_compute in
    match ScheduleManager.generate_weekly_schedule [criminologia_I] "sem1" with
    | Ok schedule => schedule
    | _ => []
    end.

(** A manager whose two tables both list 1 January. *)
Definition overlapping_tables : HolidayManager.t :=
  {| HolidayManager.holidays := [("01/01", "Confraternização Universal")]%string;
     HolidayManager.optional_holidays :=
       [("01/01", "Recesso"); ("02/01", "Ponto Facultativo")]%string |}.

Definition calendar_2026 : CalendarWithHolidays.t :=
  Eval vm_compute in
    match CalendarWithHolidays.generate_calendar
            (CalendarWithHolidays.init 2026 HolidayManager._load_default_holidays) with
    | Ok c => c
    | _ => CalendarWithHolidays.init 2026 HolidayManager._load_default_holidays
    end.

Definition calendar_overlap_2026 : CalendarWithHolidays.t :=
  Eval vm_compute in
    match CalendarWithHolidays.generate_calendar
            (CalendarWithHolidays.init 2026 overlapping_tables) with
    | Ok c => c
    | _ => CalendarWithHolidays.init 2026 overlapping_tables
    end.

(** A store with one calendar dictionary at reference 0. *)
Definition store0 : gmap nat (PyDict.dict (pyval Z)) :=
  {[ 0%nat := [("01/01", PStr "aula inaugural"); ("10/03", PStr "prova")]%string ]}.

End Samples.

(** ** [holiday_manager.py]: loading the tables from a file *)

Module HolidayLoader.

(** [needle in s] *)
Fixpoint is_substring (needle s : string) : bool :=
  String.prefix needle s ||
  match s with
  | EmptyString => false
  | String _ s' => is_substring needle s'
  end.

(** [f"{z:02d}"] *)
Definition format_02d (z : Z) : string :=
  if (0 <=? z) && (z <? 10) then "0" +:+ pretty z else pretty z.

Definition months : PyDict.dict Z :=
  [("janeiro", 1); ("fevereiro", 2); ("março", 3); ("abril", 4);
   ("maio", 5); ("junho", 6); ("julho", 7); ("agosto", 8);
   ("setembro", 9); ("outubro", 10); ("novembro", 11); ("dezembro", 12)]%string.

Section Regex.

(** What the [re] module and the methods of [str] contribute. *)
(** Groups 1 and 2 of [re.match(r'(\d+)\s+de\s+(\w+)', line)]. *)
Variable match_date : string -> option (string * string).
(** [int] of group 1, a run of digits; [None] when it raises ValueError,
    as it does for a run of more than 4300 digits. *)
Variable py_int : string -> option Z.
(** [str.lower] and [str.strip]. *)
Variable lower : string -> string.
Variable strip : string -> string.
(** Group 1 of [re.search(r',\s*([^(]+)\s*\(', line)]. *)
Variable search_description : string -> option string.

(** The one call of the body that can raise is [int]; its exception is
    caught by the [except] branch, which prints a message and stores
    nothing. *)
Definition _parse_holiday_line (self : HolidayManager.t) (line : string)
    : HolidayManager.t :=
  match match_date line with
  | None => self
  | Some (group1, group2) =>
      match py_int group1 with
      | None => self
      | Some day =>
          let month_name := lower group2 in
          match PyDict.get month_name months with
          | None => self
          | Some month =>
              let is_optional := is_substring "ponto facultativo" (lower line) in
              let description :=
                match search_description line with
                | Some group => strip group
                | None => "Feriado"%string
                end in
              let date_key := format_02d day +:+ "/" +:+ format_02d month in
              if is_optional then
                {| HolidayManager.holidays := HolidayManager.holidays self;
                   HolidayManager.optional_holidays :=
                     PyDict.set date_key description
                       (HolidayManager.optional_holidays self) |}
              else
                {| HolidayManager.holidays :=
                     PyDict.set date_key description
                       (HolidayManager.holidays self);
                   HolidayManager.optional_holidays :=
                     HolidayManager.optional_holidays self |}
          end
      end
  end.

(** One round of [for line in lines[1:]]. *)
Definition load_line (self : HolidayManager.t) (line : string) : HolidayManager.t :=
  if String.eqb (strip line) "" then self
  else _parse_holiday_line self (strip line).

(** [__init__] followed by [load_holidays]: the tables start empty.
    [read_lines] is what [open(...).readlines()] gives for a file name,
    [None] when it raises; [holidays_file] is [None] for Python's [None]. *)
Definition load_holidays (holidays_file : option string)
    (read_lines : string -> option (list string)) : HolidayManager.t :=
  match holidays_file with
  | None => HolidayManager._load_default_holidays
  | Some file =>
      if String.eqb file "" then HolidayManager._load_default_holidays
      else
        match read_lines file with
        | None => HolidayManager._load_default_holidays
        | Some lines =>
            fold_left load_line (skipn 1 lines)
              {| HolidayManager.holidays := [];
                 HolidayManager.optional_holidays := [] |}
        end
  end.

End Regex.

(** [get_holidays_summary] *)
Definition get_holidays_summary {num : Type} (self : HolidayManager.t)
    : PyDict.dict (pyval num) :=
  [("total_holidays", PInt (Z.of_nat (length (HolidayManager.holidays self))));
   ("total_optional",
    PInt (Z.of_nat (length (HolidayManager.optional_holidays self))));
   ("holidays",
    PDict (map (fun '(k, v) => (k, PStr v)) (HolidayManager.holidays self)));
   ("optional_holidays",
    PDict (map (fun '(k, v) => (k, PStr v))
             (HolidayManager.optional_holidays self)))]%string.

(** The two totals [main] prints at its end, for the calendar of 2026:
    the non-working days and [366 - len(non_working)]. *)
Definition main_totals (hm : HolidayManager.t) : outcome (Z * Z) :=
  cal ← CalendarWithHolidays.generate_calendar (CalendarWithHolidays.init 2026 hm);
  let non_working := CalendarWithHolidays.get_non_working_days cal in
  Ok (Z.of_nat (length non_working), 366 - Z.of_nat (length non_working)).

End HolidayLoader.

(** ** The days of a year, in order *)

Module YearDays.

(** The days of month [m] of year [y] from day [d] on, then the months
    after [m]. *)
Definition days_from (y m d : Z) : list PyDate.date :=
  (PyDate.mkdate y m <$> seqZ d (PyDate.days_in_month y m - d + 1)) ++
  mjoin ((fun m' => PyDate.mkdate y m' <$> seqZ 1 (PyDate.days_in_month y m'))
           <$> seqZ (m + 1) (12 - m)).

Definition year_days (y : Z) : list PyDate.date := days_from y 1 1.

Definition days_in_year (y : Z) : Z := if PyDate.is_leap y then 366 else 365.

End YearDays.

(** ** A sample holiday file *)

Module HolidaySamples.

Definition tiradentes_line : string :=
  "21 de abril - terça-feira, Tiradentes (feriado nacional);".

(** The groups the two patterns give on that line, and nothing elsewhere. *)
Definition match_date (line : string) : option (string * string) :=
  if String.eqb line tiradentes_line then Some ("21", "abril")%string else None.

Definition search_description (line : string) : option string :=
  if String.eqb line tiradentes_line then Some "Tiradentes "%string else None.

(** [int], with its limit of 4300 digits. *)
Definition py_int (s : string) : option Z :=
  if (4300 <? String.length s)%nat then None else Samples.int_of_string s.

Definition read_lines (file : string) : option (list string) :=
  if String.eqb file "Lista_feriados_ponto_facultativo.txt"
  then Some ["Lista de feriados de 2026"%string; tiradentes_line]
  else None.

End HolidaySamples.

(** ** The methods of [str] the remaining modules use *)

Module PyStr.

(** [s.split(sep)] for a separator of one character. *)
Fixpoint split (sep : ascii) (s : string) : list string :=
  match s with
  | EmptyString => [EmptyString]
  | String c s' =>
      if Ascii.eqb c sep then EmptyString :: split sep s'
      else
        match split sep s' with
        | piece :: pieces => String c piece :: pieces
        | [] => [String c EmptyString]
        end
  end.

(** [sep.join(pieces)] *)
Fixpoint join (sep : string) (pieces : list string) : string :=
  match pieces with
  | [] => EmptyString
  | [piece] => piece
  | piece :: pieces' => piece +:+ sep +:+ join sep pieces'
  end.

(** [c in s] for a character [c]. *)
Fixpoint has_char (c : ascii) (s : string) : bool :=
  match s with
  | EmptyString => false
  | String c' s' => Ascii.eqb c' c || has_char c s'
  end.

(** [s.endswith(suffix)] *)
Fixpoint endswith (suffix s : string) : bool :=
  String.eqb suffix s ||
  match s with
  | EmptyString => false
  | String _ s' => endswith suffix s'
  end.

(** A line feed. *)
Definition nl : string := String (ascii_of_nat 10) EmptyString.

End PyStr.

(** ** [google_drive_manager.py] *)

Module GoogleDriveManager.

(** [file_path.split('/')[-1]] *)
Definition last_component (file_path : string) : string :=
  List.last (PyStr.split "/" file_path) EmptyString.

Definition _get_mime_type (file_path : string) : string :=
  if PyStr.endswith ".json" file_path then "application/json"
  else if PyStr.endswith ".pdf" file_path then "application/pdf"
  else if PyStr.endswith ".ods" file_path
  then "application/vnd.oasis.opendocument.spreadsheet"
  else if PyStr.endswith ".xlsx" file_path
  then "application/vnd.openxmlformats-officedocument.spreadsheetml.sheet"
  else "application/octet-stream".

Section Values.
Context {num : Type}.

(** [upload_file] on the attribute [version_history]; [file_name] is
    [None] for Python's [None].  [now_timestamp] and [now_isoformat] are
    the texts of the two readings of the clock.  Nothing in the body
    raises, so the method never returns [None]. *)
Definition upload_file (version_history : list (PyDict.dict (pyval num)))
    (file_path : string) (file_name : option string) (description : pyval num)
    (now_timestamp now_isoformat : string)
    : list (PyDict.dict (pyval num)) * PyDict.dict (pyval num) :=
  let file_name :=
    match file_name with
    | None => last_component file_path
    | Some name =>
        if String.eqb name "" then last_component file_path else name
    end in
  let file_info :=
    [("id", PStr ("drive_id_" +:+ now_timestamp));
     ("name", PStr file_name);
     ("path", PStr file_path);
     ("uploaded_at", PStr now_isoformat);
     ("description", description);
     ("size", PInt 0);
     ("mime_type", PStr (_get_mime_type file_path));
     ("web_view_link", PStr "https://drive.google.com/file/d/drive_id/view")]%string in
  (version_history ++ [file_info], file_info).

End Values.

End GoogleDriveManager.

(** ** [google_drive_manager.py]: class [VersionManager] *)

Module VersionManager.

Section Values.
Context {num : Type}.

(** The dictionary [create_schedule_version] builds for a version. *)
Record version_info : Type := mk_version {
  course : string;
  year : string;
  version : Z;
  created_at : string;
  notes : pyval num;
  data : pyval num;
  file_name : string
}.

(** The attribute [self.versions]. *)
Definition t : Type := PyDict.dict (list version_info).

(** [VersionManager(drive_manager)] *)
Definition init : t := [].

(** [f"{course}_{year}"] *)
Definition version_key (course year : string) : string :=
  course +:+ "_" +:+ year.

(** [now_isoformat] is [datetime.now().isoformat()]. *)
Definition create_schedule_version (self : t) (course year : string)
    (schedule_data notes : pyval num) (now_isoformat : string)
    : t * version_info :=
  let version_key := version_key course year in
  let self :=
    if PyDict.contains version_key self then self
    else PyDict.set version_key [] self in
  let history := default [] (PyDict.get version_key self) in
  let version_number := Z.of_nat (length history) + 1 in
  let version_info :=
    {| course := course;
       year := year;
       version := version_number;
       created_at := now_isoformat;
       notes := notes;
       data := schedule_data;
       file_name :=
         course +:+ "_" +:+ year +:+ "_v" +:+ pretty version_number +:+ ".json" |} in
  (PyDict.set version_key (history ++ [version_info]) self, version_info).

Definition get_latest_version (self : t) (course year : string)
    : option version_info :=
  match PyDict.get (version_key course year) self with
  | Some (v :: history) => Some (List.last history v)
  | _ => None
  end.

(** [next((v for v in versions if v['version'] == n), None)] *)
Definition find_version (n : Z) (versions : list version_info)
    : option version_info :=
  List.find (fun v => version v =? n) versions.

Definition compare_versions (self : t) (course year : string) (v1 v2 : Z)
    : PyDict.dict (pyval num) :=
  match PyDict.get (version_key course year) self with
  | None => [("error", PStr "Nenhuma versão encontrada")]%string
  | Some versions =>
      match find_version v1 versions, find_version v2 versions with
      | Some ver1, Some ver2 =>
          [("course", PStr course);
           ("year", PStr year);
           ("version_1", PInt v1);
           ("version_2", PInt v2);
           ("created_at_v1", PStr (created_at ver1));
           ("created_at_v2", PStr (created_at ver2));
           ("notes_v1", notes ver1);
           ("notes_v2", notes ver2);
           ("comparison", PStr "Comparação de versões")]%string
      | _, _ => [("error", PStr "Versão não encontrada")]%string
      end
  end.

(** The managers that calls of [create_schedule_version] lead to. *)
Inductive reachable : t -> Prop :=
| reachable_init : reachable init
| reachable_create (self : t) (course year : string)
    (schedule_data notes : pyval num) (now_isoformat : string) :
    reachable self ->
    reachable (fst (create_schedule_version self course year
                      schedule_data notes now_isoformat)).

End Values.

End VersionManager.

(** ** [whatsapp_bot.py]: class [WhatsAppBot] *)

Module WhatsAppBot.

Inductive MessageType : Type :=
| SCHEDULE_UPDATE
| WEEKLY_SCHEDULE
| HOLIDAY_ALERT
| GENERAL_INFO.

Definition value (message_type : MessageType) : string :=
  match message_type with
  | SCHEDULE_UPDATE => "schedule_update"
  | WEEKLY_SCHEDULE => "weekly_schedule"
  | HOLIDAY_ALERT => "holiday_alert"
  | GENERAL_INFO => "general_info"
  end.

(** The dictionaries of [self.contacts] and of [self.sent_messages]. *)
Record contact : Type := mk_contact {
  contact_name : string;
  contact_phone : string;
  contact_role : option string;
  contact_added_at : string
}.

Record message_info : Type := mk_message {
  msg_id : string;
  msg_to : string;
  msg_message : string;
  msg_type : string;
  msg_sent_at : string;
  msg_status : string
}.

(** The bot, and with it the number of readings of the clock so far. *)
Record t : Type := mk {
  api_key : option string;
  phone_number : option string;
  message_queue : list message_info;
  sent_messages : list message_info;
  contacts : PyDict.dict contact;
  clock : nat
}.

Definition init (api_key phone_number : option string) (clock : nat) : t :=
  mk api_key phone_number [] [] [] clock.

Section Clock.

(** The texts of [datetime.now().timestamp()] and
    [datetime.now().isoformat()] at each reading of the clock. *)
Variable timestamp_at : nat -> string.
Variable isoformat_at : nat -> string.
(** [str.upper] *)
Variable upper : string -> string.

(** [add_contact]; it returns [True], nothing in it raises. *)
Definition add_contact (self : t) (name phone : string) (role : option string)
    : t :=
  mk (api_key self) (phone_number self) (message_queue self) (sent_messages self)
     (PyDict.set phone
        {| contact_name := name;
           contact_phone := phone;
           contact_role := role;
           contact_added_at := isoformat_at (clock self) |}
        (contacts self))
     (S (clock self)).

(** [add_group]: a member without ['name'] or ['phone'] raises
    [KeyError], which ends the loop and gives [False]. *)
Fixpoint add_group_loop (self : t) (members : list (PyDict.dict string))
    : t * bool :=
  match members with
  | [] => (self, true)
  | member :: members' =>
      match PyDict.get "name" member, PyDict.get "phone" member with
      | Some name, Some phone =>
          add_group_loop (add_contact self name phone (Some "group_member"%string))
            members'
      | _, _ => (self, false)
      end
  end.

Definition add_group (self : t) (group_name : string)
    (members : list (PyDict.dict string)) : t * bool :=
  add_group_loop self members.

(** [send_message]; it never returns [None]. *)
Definition send_message (self : t) (phone message : string)
    (message_type : MessageType) : t * message_info :=
  let message_info :=
    {| msg_id := "msg_" +:+ timestamp_at (clock self);
       msg_to := phone;
       msg_message := message;
       msg_type := value message_type;
       msg_sent_at := isoformat_at (S (clock self));
       msg_status := "sent" |} in
  (mk (api_key self) (phone_number self) (message_queue self)
      (sent_messages self ++ [message_info]) (contacts self)
      (S (S (clock self))),
   message_info).

(** [for phone in phones: result = self.send_message(...); ...] *)
Fixpoint send_loop (self : t) (message : string) (message_type : MessageType)
    (phones : list string) (results : list message_info)
    : t * list message_info :=
  match phones with
  | [] => (self, results)
  | phone :: phones' =>
      let '(self, result) := send_message self phone message message_type in
      send_loop self message message_type phones' (results ++ [result])
  end.

(** [if recipients: phones = recipients else: phones = list(self.contacts.keys())];
    [recipients] is [None] for Python's [None]. *)
Definition phones_of (self : t) (recipients : option (list string)) : list string :=
  match recipients with
  | Some (phone :: phones) => phone :: phones
  | _ => PyDict.keys (contacts self)
  end.

Definition schedule_update_message (course year : string) : string :=
  "📚 *ATUALIZAÇÃO DE HORÁRIO*" +:+ PyStr.nl +:+ PyStr.nl +:+
  "Curso: " +:+ upper course +:+ PyStr.nl +:+
  "Período: " +:+ year +:+ PyStr.nl +:+ PyStr.nl +:+
  "Os horários foram atualizados!" +:+ PyStr.nl +:+ PyStr.nl +:+
  "📅 Acesse o Google Drive para ver a versão mais recente:" +:+ PyStr.nl +:+
  "https://drive.google.com/folder/horarios" +:+ PyStr.nl +:+ PyStr.nl +:+
  "Se tiver dúvidas, entre em contato com a secretaria." +:+ PyStr.nl +:+ PyStr.nl +:+
  "---" +:+ PyStr.nl +:+
  "Sistema de Gerenciamento de Horários".

Definition send_schedule_update (self : t) (course year : string)
    (recipients : option (list string)) : t * list message_info :=
  send_loop self (schedule_update_message course year) SCHEDULE_UPDATE
    (phones_of self recipients) [].

Definition holiday_alert_message (holiday_name date : string) : string :=
  "🎉 *ALERTA DE FERIADO*" +:+ PyStr.nl +:+ PyStr.nl +:+
  holiday_name +:+ PyStr.nl +:+
  "Data: " +:+ date +:+ PyStr.nl +:+ PyStr.nl +:+
  "Não haverá aulas nesta data." +:+ PyStr.nl +:+ PyStr.nl +:+
  "Próximas aulas:" +:+ PyStr.nl +:+
  "📅 Consulte o calendário acadêmico" +:+ PyStr.nl +:+ PyStr.nl +:+
  "---" +:+ PyStr.nl +:+
  "Sistema de Gerenciamento de Horários".

Definition send_holiday_alert (self : t) (holiday_name date : string)
    (recipients : option (list string)) : t * list message_info :=
  send_loop self (holiday_alert_message holiday_name date) HOLIDAY_ALERT
    (phones_of self recipients) [].

(** [send_broadcast]: [group_name] is not read. *)
Definition send_broadcast (self : t) (message : string)
    (group_name : option string) : t * list message_info :=
  send_loop self message GENERAL_INFO (PyDict.keys (contacts self)) [].

(** [get_message_history]: [phone] is [None] for Python's [None]. *)
Definition get_message_history (self : t) (phone : option string)
    : list message_info :=
  match phone with
  | None => sent_messages self
  | Some phone =>
      if String.eqb phone "" then sent_messages self
      else List.filter (fun m => String.eqb (msg_to m) phone) (sent_messages self)
  end.

End Clock.

End WhatsAppBot.

(** ** [spreadsheet_generator.py] *)

Module SpreadsheetColorScheme.

Definition PRESENTIAL : string := "#00b050".
Definition PRESENTIAL_LIGHT : string := "#afd095".
Definition ONLINE : string := "#acb20c".
Definition ONLINE_LIGHT : string := "#e2efda".
Definition DISCIPLINE_1 : string := "#8e86ae".
Definition DISCIPLINE_2 : string := "#b7b3ca".
Definition DISCIPLINE_3 : string := "#fcd5b4".
Definition DISCIPLINE_4 : string := "#fce4d6".

(** [colors[discipline_index % len(colors)]]; Python's [%] takes the sign
    of the divisor, as [Z.modulo] does. *)
Definition get_discipline_color (discipline_index : Z) : outcome string :=
  let colors := [DISCIPLINE_1; DISCIPLINE_2; DISCIPLINE_3; DISCIPLINE_4] in
  match colors !! Z.to_nat (discipline_index mod Z.of_nat (length colors)) with
  | Some color => Ok color
  | None => Raise "IndexError"
  end.

Definition get_class_type_color (is_online is_light : bool) : string :=
  if is_online then (if is_light then ONLINE_LIGHT else ONLINE)
  else (if is_light then PRESENTIAL_LIGHT else PRESENTIAL).

End SpreadsheetColorScheme.

(** The cells and rows both generators add to a sheet. *)

Module Sheet.

(** A [TableCell]: its style, the number of columns it spans (1 unless
    [numbercolumnsspanned] is given) and the text of its paragraph, if it
    has one. *)
Record TableCell : Type := mk_cell {
  stylename : string;
  numbercolumnsspanned : Z;
  text : option string
}.

Definition TableRow : Type := list TableCell.

Definition text_cell (style : string) (s : string) : TableCell :=
  mk_cell style 1 (Some s).

Definition blank_cell (style : string) : TableCell :=
  mk_cell style 1 None.

(** The columns a row takes. *)
Definition width (row : TableRow) : Z :=
  fold_right Z.add 0 (map numbercolumnsspanned row).

End Sheet.

Module SpreadsheetGenerator.

Import Sheet.

(** [d + timedelta(days=n)] for [n >= 0], one day at a time. *)
Fixpoint add_days (n : nat) (d : PyDate.date) : outcome PyDate.date :=
  match n with
  | O => Ok d
  | S n' => d' ← PyDate.add_day d; add_days n' d'
  end.

Section Str.
(** [str.upper] *)
Variable upper : string -> string.

(** The rows [_add_header] adds. *)
Definition _add_header (course year schedule_type : string) : list TableRow :=
  let title :=
    [text_cell "header"
       ("HORÁRIO " +:+ upper course +:+ " " +:+ year +:+ " - TURMA " +:+
        upper schedule_type)] in
  let headers :=
    if String.eqb schedule_type "semanal" then
      ["Data"; "Dia"; "Segunda 19:00-20:40"; "Segunda 21:00-22:40";
       "Quarta 19:00-20:40"; "Quarta 21:00-22:40"; "Observações"]%string
    else
      ["Data"; "Dia"; "Sexta 19:00-20:40"; "Sexta 21:00-22:40";
       "Sábado 08:00-09:40"; "Sábado 10:00-11:40";
       "Sábado 13:00-14:40"; "Sábado 15:00-16:40"; "Observações"]%string in
  [title; map (text_cell "subheader") headers].

End Str.

(** The row of one [week] of [_add_schedule_data]. *)
Definition week_row (schedule_type : string) (start_date : PyDate.datetime)
    (week : nat) : outcome TableRow :=
  date ← add_days (7 * week) (PyDate.dt_date start_date);
  let num_slots := if String.eqb schedule_type "semanal" then 4%nat else 6%nat in
  Ok ([text_cell "default" (PyDate.strftime_dmY date);
       text_cell "default" (PyDate.strftime_A date)] ++
      replicate num_slots (text_cell "empty" "") ++
      [text_cell "default" ""]).

Fixpoint week_rows (schedule_type : string) (start_date : PyDate.datetime)
    (weeks : list nat) : outcome (list TableRow) :=
  match weeks with
  | [] => Ok []
  | week :: weeks' =>
      row ← week_row schedule_type start_date week;
      rows ← week_rows schedule_type start_date weeks';
      Ok (row :: rows)
  end.

(** The rows [_add_schedule_data] adds: [for week in range(50)]. *)
Definition _add_schedule_data (schedule_type : string) : outcome (list TableRow) :=
  start_date ← PyDate.datetime_make 2026 3 1;
  week_rows schedule_type start_date (seq 0 50).

End SpreadsheetGenerator.

(** ** [generate_schedules_2026_2027.py]: class [ScheduleGenerator2026] *)

Module ScheduleGenerator2026.

Import Sheet.

Section Str.
(** [str.upper] *)
Variable upper : string -> string.

(** The rows [_add_header] adds. *)
Definition _add_header (course year schedule_type : string) : list TableRow :=
  let row1 :=
    [mk_cell "header" 7
       (Some ("CURSO DE PÓS-GRADUAÇÃO LATO SENSU EM " +:+ upper course))] in
  let row2 :=
    [mk_cell "header" 7
       (Some ("CALENDÁRIO ACADÊMICO - TURMA " +:+ schedule_type +:+ " " +:+ year))] in
  let row3 := replicate 7 (blank_cell "default") in
  let row4 :=
    text_cell "subheader"
      (List.hd EmptyString (PyStr.split "-" year) +:+ "-1")
    :: replicate 6 (blank_cell "subheader") in
  let days :=
    if String.eqb schedule_type "SEMANAL"
    then ["mar"; "mar"; "mar"; "mar"; "mar"; "mar"]%string
    else ["mar"; "mar"; "mar"; "mar"; "mar"; "mar"]%string in
  let row5 := text_cell "subheader" "DIA" :: map (text_cell "subheader") days in
  let row6 :=
    text_cell "subheader" "HORA"
    :: map (fun i => text_cell "subheader" (pretty (i + 4) +:+ "/mar")) (seqZ 0 6) in
  let weekdays :=
    if String.eqb schedule_type "SEMANAL"
    then ["seg"; "qua"; "seg"; "qua"; "seg"; "qua"]%string
    else ["sex"; "sáb"; "sex"; "sáb"; "sex"; "sáb"]%string in
  let row7 := blank_cell "subheader" :: map (text_cell "subheader") weekdays in
  let time_slots :=
    if String.eqb schedule_type "SEMANAL"
    then ["19:00 - 20:40"; "21:00 - 22:40"]%string
    else ["19:00 - 20:40"; "08:00 - 09:40"]%string in
  [row1; row2; row3; row4; row5; row6; row7] ++
  map (fun time_slot =>
         text_cell "subheader" time_slot :: replicate 6 (blank_cell "default"))
      time_slots.

End Str.

(** The rows [_add_schedule_data] adds: [schedule_type] is not read. *)
Definition _add_schedule_data (schedule_type : string) : list TableRow :=
  replicate 5 (replicate 7 (blank_cell "default")).

End ScheduleGenerator2026.

(** ** Sample managers, bots and sheets *)

Module ExtraSamples.

(** Two versions of one schedule. *)
Definition two_versions : @VersionManager.t Z :=
  fst (VersionManager.create_schedule_version
         (fst (VersionManager.create_schedule_version VersionManager.init
                 "criminologia" "2026-2027" (PDict []) (PStr "Versão inicial")
                 "2026-02-09T10:00:00"))
         "criminologia" "2026-2027" (PDict []) PNone "2026-02-10T10:00:00").

Definition two_history : list (@VersionManager.version_info Z) :=
  Eval vm_compute in
    default [] (PyDict.get "criminologia_2026-2027" two_versions).

(** A clock that reads the number of its readings. *)
Definition timestamp_at (n : nat) : string := pretty n.
Definition isoformat_at (n : nat) : string := "2026-02-09T10:00:" +:+ pretty n.

(** A bot with two contacts. *)
Definition bot2 : WhatsAppBot.t :=
  WhatsAppBot.add_contact isoformat_at
    (WhatsAppBot.add_contact isoformat_at (WhatsAppBot.init None None 0)
       "Prof. João Silva" "+55 31 99999-0001" (Some "professor"%string))
    "Secretaria" "+55 31 99999-0003" (Some "secretaria"%string).

(** A group whose second member has no phone. *)
Definition professors : list (PyDict.dict string) :=
  [[("name", "Prof. Carlos"); ("phone", "+55 31 99999-0004")];
   [("name", "Prof. Ana")];
   [("name", "Prof. Rui"); ("phone", "+55 31 99999-0006")]]%string.

End ExtraSamples.
(** ** The days [_extract_letive_days] selects *)

Module LetiveDays.

Import PyDate.

Definition datetime_eqb (a b : datetime) : bool :=
  (year (dt_date a) =? year (dt_date b)) &&
  (month (dt_date a) =? month (dt_date b)) &&
  (day (dt_date a) =? day (dt_date b)) &&
  (hour a =? hour b) && (minute a =? minute b) && (second a =? second b).

(** Midnight of a day of the calendar from 1 March 2026 to 31 December
    2027 that is a Monday, a Wednesday, a Friday or a Saturday. *)
Definition is_class_day (t : datetime) : bool :=
  validb (dt_date t) &&
  leb (mkdate 2026 3 1) (dt_date t) && leb (dt_date t) (mkdate 2027 12 31) &&
  CalendarReader.is_letive_weekday (weekday (dt_date t)) &&
  (hour t =? 0) && (minute t =? 0) && (second t =? 0).

(** Every (year, month, day) a date of the two years can have. *)
Definition candidates : list datetime :=
  flat_map (fun y =>
    flat_map (fun m =>
      map (fun d => mkdatetime (mkdate y m d) 0 0 0) (seqZ 1 31))
      (seqZ 1 12))
    [2026; 2027].

(** The list the loop returns. *)
Definition letive_days_2026_2027 : list datetime :=
  Eval vm_compute in
    match CalendarReader._extract_letive_days tt with
    | Ok days => days
    | _ => []
    end.

End LetiveDays.
(** ** A distribution file without any numeric hour *)

Module PipelineSamples.

Definition distribution_to_be_defined : Samples.frameZ :=
  {| ScheduleManager.ncols := 5;
     ScheduleManager.rows :=
       [Samples.text_row 0 ["Disciplina"; "Hora_aula"; "Encontros"; "Sigla"; "Horas"];
        Samples.text_row 1 ["Seminario"; "a definir"; "2"; "SEM"; "4"]]%string |}.

Definition read_csv (file : string) : option Samples.frameZ :=
  if String.eqb file "CAL_2026-2027_Calendario.csv" then Some Samples.calendar_sheet
  else if String.eqb file "DIST_2026-2027_Gespin.csv"
  then Some distribution_to_be_defined
  else None.

End PipelineSamples.

(** ** A holiday file with a title and no holiday *)

Module EmptyFileSamples.

Definition read_lines (file : string) : option (list string) :=
  if String.eqb file "Lista_feriados_ponto_facultativo.txt"
  then Some ["Lista de feriados de 2026"; ""; "a definir"]%string
  else None.

End EmptyFileSamples.

(** ** [str.replace] *)

Module PyReplace.

(** [s.replace(old, new)], from left to right; [skip] counts the
    characters of a replaced occurrence still to be passed over. *)
Fixpoint replace_from (old new : string) (skip : nat) (s : string) : string :=
  match s with
  | EmptyString => if String.eqb old "" then new else EmptyString
  | String c s' =>
      match skip with
      | S skip' => replace_from old new skip' s'
      | O =>
          if String.prefix old s
          then new +:+
               match String.length old with
               | O => String c (replace_from old new 0 s')
               | S n => replace_from old new n s'
               end
          else String c (replace_from old new 0 s')
      end
  end.

Definition replace (old new s : string) : string := replace_from old new 0 s.

End PyReplace.

(** ** [main.py]: class [ScheduleManagementSystem] *)

Module ScheduleManagementSystem.

Section System.
Context {num : Type}.

(** A value of the dictionary [files]: the path of a generated file or
    the dictionary of an upload. *)
Inductive file_entry : Type :=
| Path (file_path : string)
| Info (file_info : PyDict.dict (pyval num)).

(** The attributes the methods use: the holiday manager, the attribute
    [version_history] of the drive manager, and the bot.  The drive manager
    and the bot are set by [_initialize_components] on either of its
    branches, so [self.drive_manager] is always true.  The readings of
    the clock are counted in the record of the bot. *)
Record t : Type := mk {
  holiday_manager : HolidayManager.t;
  version_history : list (PyDict.dict (pyval num));
  whatsapp_bot : WhatsAppBot.t
}.

(** What pandas contributes to [process]. *)
Variable to_numeric_str : string -> option num.
Variable num_zero : num.
Variable num_add : num -> num -> num.
Variable num_leb : num -> num -> bool.
Variable num_eqb : num -> num -> bool.
Variable num_int : num -> outcome Z.
(** The clock and the methods of [str]. *)
Variable timestamp_at : nat -> string.
Variable isoformat_at : nat -> string.
Variable upper : string -> string.
Variable title : string -> string.
(** The file system and the libraries that write to it:
    [pd.read_csv], [os.makedirs(dir, exist_ok=True)], the flag
    [ODF_AVAILABLE], [SpreadsheetGenerator(course, year, type).generate_ods(file)],
    [generate_pdf(ods_file, pdf_file)] and [os.path.exists]. *)
Variable read_csv : string -> option (@ScheduleManager.frame num).
Variable makedirs : string -> outcome unit.
Variable ODF_AVAILABLE : bool.
Variable generate_ods : string -> string -> string -> string -> bool.
Variable generate_pdf : string -> string -> bool.
Variable path_exists : string -> bool.
(** [config.OUTPUT_DIR] *)
Variable OUTPUT_DIR : string.
(** [api_keys.NOTIFICATION_CONTACTS]; [None] when the module [api_keys]
    is not there or has no such attribute. *)
Variable NOTIFICATION_CONTACTS : option (PyDict.dict (list (PyDict.dict string))).

(** [AdvancedSpreadsheetGenerator(course, year).generate_complete_schedule]:
    its two dictionaries are not read.  The constructor of
    [SpreadsheetGenerator] raises ImportError without odfpy. *)
Definition generate_complete_schedule (course year : string)
    (schedule_data calendar_data : PyDict.dict (pyval num)) (output_dir : string)
    : outcome (PyDict.dict string) :=
  _ ← makedirs output_dir;
  if negb ODF_AVAILABLE then Raise "ImportError"
  else
    let files : PyDict.dict string := [] in
    let weekly_file :=
      output_dir +:+ "/" +:+ course +:+ "_" +:+ year +:+ "_semanal.ods" in
    let files :=
      if generate_ods course year "semanal" weekly_file then
        let files := PyDict.set "weekly_ods" weekly_file files in
        let weekly_pdf := PyReplace.replace ".ods" ".pdf" weekly_file in
        if generate_pdf weekly_file weekly_pdf
        then PyDict.set "weekly_pdf" weekly_pdf files
        else files
      else files in
    let biweekly_file :=
      output_dir +:+ "/" +:+ course +:+ "_" +:+ year +:+ "_quinzenal.ods" in
    let files :=
      if generate_ods course year "quinzenal" biweekly_file then
        let files := PyDict.set "biweekly_ods" biweekly_file files in
        let biweekly_pdf := PyReplace.replace ".ods" ".pdf" biweekly_file in
        if generate_pdf biweekly_file biweekly_pdf
        then PyDict.set "biweekly_pdf" biweekly_pdf files
        else files
      else files in
    Ok files.

(** PASSO 3, [for file_type, file_path in files.items()]: the dictionary
    the loop writes to, [results['files']], is the dictionary [files] it
    iterates over.  Each step of the iterator first compares the size of
    the dictionary with its size [used] when the loop began and raises
    RuntimeError if they differ; [i] is the position of the next entry and
    [remaining] the number of entries from there on.
    [os.path.basename], on POSIX, is the text after the last ['/'];
    [os.path.exists] of a dictionary raises TypeError. *)
Fixpoint upload_loop (remaining i used : nat) (course year : string)
    (files : PyDict.dict file_entry)
    (history : list (PyDict.dict (pyval num))) (clock : nat)
    : outcome (PyDict.dict file_entry * list (PyDict.dict (pyval num)) * nat) :=
  if negb (Nat.eqb (length files) used) then Raise "RuntimeError"
  else
    match remaining with
    | O => Ok (files, history, clock)
    | S remaining' =>
        match files !! i with
        | None => Ok (files, history, clock)
        | Some (file_type, Info _) => Raise "TypeError"
        | Some (file_type, Path file_path) =>
            if path_exists file_path then
              let '(history, file_info) :=
                GoogleDriveManager.upload_file history file_path
                  (Some (GoogleDriveManager.last_component file_path))
                  (PStr (title course +:+ " " +:+ year +:+ " - " +:+ file_type))
                  (timestamp_at clock) (isoformat_at (S clock)) in
              upload_loop remaining' (S i) used course year
                (PyDict.set (file_type +:+ "_drive") (Info file_info) files)
                history (S (S clock))
            else
              upload_loop remaining' (S i) used course year files history clock
        end
    end.

(** [[c['phone'] for c in members]] *)
Fixpoint phones (members : list (PyDict.dict string)) : outcome (list string) :=
  match members with
  | [] => Ok []
  | c :: members' =>
      match PyDict.get "phone" c with
      | None => Raise "KeyError"
      | Some phone => rest ← phones members'; Ok (phone :: rest)
      end
  end.

(** PASSO 5 and PASSO 6, for the contacts under [group]. *)
Definition notify (group course year : string) (bot : WhatsAppBot.t)
    (notifications : list WhatsAppBot.message_info)
    : outcome (WhatsAppBot.t * list WhatsAppBot.message_info) :=
  match NOTIFICATION_CONTACTS with
  | None => Ok (bot, notifications)
  | Some contacts =>
      group_phones ← phones (default [] (PyDict.get group contacts));
      match group_phones with
      | [] => Ok (bot, notifications)
      | _ :: _ =>
          let '(bot, sent) :=
            WhatsAppBot.send_schedule_update timestamp_at isoformat_at upper
              bot course year (Some group_phones) in
          Ok (bot, notifications ++ sent)
      end
  end.

Definition message_dict (m : WhatsAppBot.message_info) : pyval num :=
  PDict [("id", PStr (WhatsAppBot.msg_id m));
         ("to", PStr (WhatsAppBot.msg_to m));
         ("message", PStr (WhatsAppBot.msg_message m));
         ("type", PStr (WhatsAppBot.msg_type m));
         ("sent_at", PStr (WhatsAppBot.msg_sent_at m));
         ("status", PStr (WhatsAppBot.msg_status m))]%string.

Definition file_value (entry : file_entry) : pyval num :=
  match entry with
  | Path file_path => PStr file_path
  | Info file_info => PDict file_info
  end.

Definition with_clock (clock : nat) (bot : WhatsAppBot.t) : WhatsAppBot.t :=
  WhatsAppBot.mk (WhatsAppBot.api_key bot) (WhatsAppBot.phone_number bot)
    (WhatsAppBot.message_queue bot) (WhatsAppBot.sent_messages bot)
    (WhatsAppBot.contacts bot) clock.

(** [generate_schedules].  PASSO 4 only prints ([share_file] changes
    nothing and catches what it raises) and is left out, as are the lines
    printed.  The state an exception leaves behind is not modelled. *)
Definition generate_schedules (self : t) (course year : string)
    : outcome (t * PyDict.dict (pyval num)) :=
  let clock := WhatsAppBot.clock (whatsapp_bot self) in
  let timestamp := isoformat_at clock in
  (* PASSO 1 *)
  schedule_results ←
    ScheduleManager.process to_numeric_str num_zero num_add num_leb num_eqb
      num_int course year (isoformat_at (S clock)) read_csv
      ("CAL_" +:+ year +:+ "_Calendario.csv")
      ("DIST_" +:+ year +:+ "_" +:+ title course +:+ ".csv");
  let clock := S (S clock) in
  (* PASSO 2 *)
  _ ← makedirs OUTPUT_DIR;
  generated ←
    generate_complete_schedule course year schedule_results
      (HolidayLoader.get_holidays_summary (holiday_manager self)) OUTPUT_DIR;
  let files := map (fun '(file_type, file_path) => (file_type, Path file_path))
                 generated in
  (* PASSO 3 *)
  uploaded ←
    (if PyDict.is_empty files then Ok (files, version_history self, clock)
     else upload_loop (length files) 0 (length files) course year files
            (version_history self) clock);
  let '(files, history, clock) := uploaded in
  (* PASSO 5 *)
  notified ← notify "secretaria" course year
                (with_clock clock (whatsapp_bot self)) [];
  let '(bot, notifications) := notified in
  (* PASSO 6 *)
  notified ← notify ("professores_" +:+ course) course year bot notifications;
  let '(bot, notifications) := notified in
  Ok (mk (holiday_manager self) history bot,
      [("course", PStr course);
       ("year", PStr year);
       ("timestamp", PStr timestamp);
       ("files", PDict (map (fun '(k, entry) => (k, file_value entry)) files));
       ("notifications", PList (map message_dict notifications));
       ("schedule_results", PDict schedule_results)]%string).

(** [update_and_notify]; it returns [results], and the version is the one
    whose number it prints. *)
Definition update_and_notify (self : t) (course year changes : string)
    : outcome (t * PyDict.dict (pyval num) * @VersionManager.version_info num) :=
  generated ← generate_schedules self course year;
  let '(self, results) := generated in
  let clock := WhatsAppBot.clock (whatsapp_bot self) in
  let version_mgr := @VersionManager.init num in
  let '(_, version) :=
    VersionManager.create_schedule_version version_mgr course year
      (PDict results) (PStr changes) (isoformat_at clock) in
  Ok (mk (holiday_manager self) (version_history self)
         (with_clock (S clock) (whatsapp_bot self)),
      results, version).

End System.

End ScheduleManagementSystem.
(** ** Two sample runs of the system *)

Module SystemSamples.

Definition title (s : string) : string :=
  if String.eqb s "criminologia" then "Criminologia" else s.

Definition contacts : PyDict.dict (list (PyDict.dict string)) :=
  [("secretaria",
    [[("name", "Secretaria"); ("phone", "+55 31 99999-0003")]])]%string.

Definition system0 : @ScheduleManagementSystem.t Z :=
  ScheduleManagementSystem.mk HolidayManager._load_default_holidays []
    ExtraSamples.bot2.

(** A run in which no sheet can be written ([written] is false), and a
    run in which every sheet is written and found on disk. *)
Definition update_and_notify (written : bool) (changes : string)
    : outcome (@ScheduleManagementSystem.t Z * PyDict.dict (pyval Z) *
               @VersionManager.version_info Z) :=
  ScheduleManagementSystem.update_and_notify
    Samples.int_of_string 0 Z.add Z.leb Z.eqb Ok
    ExtraSamples.timestamp_at ExtraSamples.isoformat_at id title
    Samples.read_csv (fun _ => Ok tt) true
    (fun _ _ _ _ => written) (fun _ _ => false) (fun _ => written)
    "output" (Some contacts)
    system0 "criminologia" "2026-2027" changes.

End SystemSamples.

(** * Part II: properties *)

(** ** Dictionaries *)

Module PyDictFacts.

Section Facts.
Context {V : Type}.
Implicit Types (k : string) (v : V) (d : PyDict.dict V).

Lemma get_set_same k v d : PyDict.get k (PyDict.set k v d) = Some v.
Proof.
  induction d as [|[k' v'] d IH]; simpl.
  - by rewrite String.eqb_refl.
  - destruct (String.eqb k k') eqn:E; simpl; rewrite E; [done | exact IH].
Qed.

Lemma get_set_other k k' v d :
  k <> k' -> PyDict.get k' (PyDict.set k v d) = PyDict.get k' d.
Proof.
  intros Hne. induction d as [|[k0 v0] d IH]; simpl.
  - destruct (String.eqb k' k) eqn:E; [|done].
    apply String.eqb_eq in E. congruence.
  - destruct (String.eqb k k0) eqn:E; simpl.
    + apply String.eqb_eq in E. subst k0.
      destruct (String.eqb k' k) eqn:E'; [|done].
      apply String.eqb_eq in E'. congruence.
    + by rewrite IH.
Qed.

Lemma contains_true k d :
  PyDict.contains k d = true <-> exists v, PyDict.get k d = Some v.
Proof.
  unfold PyDict.contains. destruct (PyDict.get k d); split; eauto; try done.
  intros [v Hv]. discriminate.
Qed.

Lemma contains_false k d :
  PyDict.contains k d = false <-> PyDict.get k d = None.
Proof. unfold PyDict.contains. destruct (PyDict.get k d); split; done. Qed.

Lemma in_contains k v d : In (k, v) d -> PyDict.contains k d = true.
Proof.
  unfold PyDict.contains. induction d as [|[k' v'] d IH]; simpl; [done|].
  intros [[= -> ->]|Hin].
  - by rewrite String.eqb_refl.
  - destruct (String.eqb k k'); [done | by apply IH].
Qed.

(** A write adds at most the pair written. *)
Lemma in_set k v d k0 v0 :
  In (k0, v0) (PyDict.set k v d) -> (k0 = k /\ v0 = v) \/ In (k0, v0) d.
Proof.
  induction d as [|[k' v'] d IH]; simpl.
  - intros [[= <- <-]|[]]. by left.
  - destruct (String.eqb k k') eqn:E; simpl.
    + apply String.eqb_eq in E. subst k'.
      intros [[= <- <-]|Hin]; [by left | right; by right].
    + intros [Heq|Hin]; [right; by left|].
      destruct (IH Hin) as [?|?]; [by left | right; by right].
Qed.

Lemma contains_set k v d k0 :
  PyDict.contains k0 (PyDict.set k v d) = true ->
  k0 = k \/ PyDict.contains k0 d = true.
Proof.
  destruct (String.eqb_spec k k0) as [->|Hne]; [by left|].
  unfold PyDict.contains. rewrite get_set_other by done. by right.
Qed.

End Facts.

End PyDictFacts.

(** ** Dates *)

Module PyDateFacts.

Import PyDate.

Lemma ltb_lt a b : ltb a b = true <-> lt a b.
Proof.
  unfold ltb, lt.
  rewrite !orb_true_iff, !andb_true_iff, !orb_true_iff, !andb_true_iff.
  rewrite !Z.ltb_lt, !Z.eqb_eq. tauto.
Qed.

Lemma lt_trans a b c : lt a b -> lt b c -> lt a c.
Proof. unfold lt. lia. Qed.

Lemma lt_irrefl a : ~ lt a a.
Proof. unfold lt. lia. Qed.

(** The day after is later, whatever the date. *)
Lemma add_day_lt d d' : add_day d = Ok d' -> lt d d'.
Proof.
  unfold add_day, lt.
  destruct (day d <? _) eqn:E1; [intros [= <-]; simpl|].
  { apply Z.ltb_lt in E1. lia. }
  destruct (month d <? 12) eqn:E2; [intros [= <-]; simpl; lia|].
  destruct (year d <? MAXYEAR) eqn:E3; [intros [= <-]; simpl; lia|].
  discriminate.
Qed.

Lemma add_day_raises d e : add_day d = Raise e -> e = "OverflowError"%string.
Proof.
  unfold add_day.
  repeat (case_match; try discriminate). by intros [= <-].
Qed.

Lemma add_day_fuel d : add_day d <> OutOfFuel.
Proof. unfold add_day. repeat (case_match; try discriminate). Qed.

Lemma days_in_month_bounds y m : 28 <= days_in_month y m <= 31.
Proof. unfold days_in_month. repeat case_match; lia. Qed.

Lemma days_before_month_succ y m :
  1 <= m ->
  days_before_month y (m + 1) = days_before_month y m + days_in_month y m.
Proof.
  intros Hm. unfold days_before_month.
  replace (Z.to_nat (m + 1 - 1)) with (S (Z.to_nat (m - 1))) by lia.
  cbn [days_before_month_aux].
  assert (Z.of_nat (S (Z.to_nat (m - 1))) = m) as -> by (rewrite Nat2Z.inj_succ, Z2Nat.id; lia).
  reflexivity.
Qed.

Lemma month_cases m :
  1 <= m <= 12 ->
  m = 1 \/ m = 2 \/ m = 3 \/ m = 4 \/ m = 5 \/ m = 6 \/
  m = 7 \/ m = 8 \/ m = 9 \/ m = 10 \/ m = 11 \/ m = 12.
Proof. lia. Qed.

(** No month ends after the 366th day of its year. *)
Lemma month_end_le y m :
  1 <= m <= 12 -> days_before_month y m + days_in_month y m <= 366.
Proof.
  intros Hm. apply month_cases in Hm.
  unfold days_before_month.
  repeat (destruct Hm as [->|Hm]); try subst m;
    match goal with
    | |- context [Z.to_nat ?e] =>
        let n := eval vm_compute in (Z.to_nat e) in
        change (Z.to_nat e) with n
    end;
    cbv -[is_leap Z.add Z.le]; destruct (is_leap y); lia.
Qed.

Lemma days_before_month_nonneg y m : 0 <= days_before_month y m.
Proof.
  unfold days_before_month. generalize (Z.to_nat (m - 1)) as n.
  induction n as [|n IH]; cbn [days_before_month_aux]; [lia|].
  pose proof (days_in_month_bounds y (Z.of_nat (S n))). lia.
Qed.

End PyDateFacts.

(** ** The holiday manager *)

Module HolidayManagerFacts.

Import PyDate.

Lemma strftime_dm_day_month d1 d2 :
  day d1 = day d2 -> month d1 = month d2 -> strftime_dm d1 = strftime_dm d2.
Proof. unfold strftime_dm. by intros -> ->. Qed.

(** C10. Holiday classification does not depend on the year: two dates
    with the same day of the month and the same month get the same answer
    from [is_holiday], and the same answer from [is_optional_holiday]. *)
Theorem holiday_classification_ignores_year
    (self : HolidayManager.t) (d1 d2 : date) :
  day d1 = day d2 -> month d1 = month d2 ->
  HolidayManager.is_holiday self d1 = HolidayManager.is_holiday self d2 /\
  HolidayManager.is_optional_holiday self d1 =
    HolidayManager.is_optional_holiday self d2.
Proof.
  intros Hd Hm.
  unfold HolidayManager.is_holiday, HolidayManager.is_optional_holiday.
  by rewrite (strftime_dm_day_month d1 d2 Hd Hm).
Qed.

(** Christmas 2026 and Christmas 2027 under the default tables. *)
Lemma holiday_classification_ignores_year_witness :
  HolidayManager.is_holiday HolidayManager._load_default_holidays
    (mkdate 2026 12 25) =
  HolidayManager.is_holiday HolidayManager._load_default_holidays
    (mkdate 2027 12 25) /\
  HolidayManager.is_optional_holiday HolidayManager._load_default_holidays
    (mkdate 2026 12 25) =
  HolidayManager.is_optional_holiday HolidayManager._load_default_holidays
    (mkdate 2027 12 25).
Proof.
  apply (holiday_classification_ignores_year
           HolidayManager._load_default_holidays
           (mkdate 2026 12 25) (mkdate 2027 12 25)); reflexivity.
Defined.

Example christmas_2027_is_holiday :
  HolidayManager.is_holiday HolidayManager._load_default_holidays
    (mkdate 2027 12 25) = true.
Proof. reflexivity. Qed.

Section Mark.
Context {num : Type}.
Implicit Types (σ : gmap nat (PyDict.dict (pyval num))).
Implicit Types (d : PyDict.dict (pyval num)).

Lemma mark_step_other kind marked σ item (l : nat) :
  l <> marked -> HolidayManager.mark_step kind marked σ item !! l = σ !! l.
Proof.
  intros Hne. unfold HolidayManager.mark_step. destruct item as [k name].
  destruct (σ !! marked) as [d|]; [|done].
  destruct (PyDict.contains k d); [done|].
  by rewrite lookup_insert_ne.
Qed.

(** One round of the loop keeps what the copy holds, and can add the
    key of its item only. *)
Lemma mark_step_marked kind marked σ item d :
  σ !! marked = Some d ->
  exists d',
    HolidayManager.mark_step kind marked σ item !! marked = Some d' /\
    (forall k v, PyDict.get k d = Some v -> PyDict.get k d' = Some v) /\
    (forall k, PyDict.contains k d' = true ->
               PyDict.contains k d = true \/ k = item.1) /\
    PyDict.contains item.1 d' = true.
Proof.
  intros Hd. unfold HolidayManager.mark_step. destruct item as [k0 name].
  rewrite Hd. simpl. destruct (PyDict.contains k0 d) eqn:Hc.
  - exists d. repeat split; auto.
  - eexists. rewrite lookup_insert_eq. split; [reflexivity|]. repeat split.
    + intros k v Hk. rewrite PyDictFacts.get_set_other; [done|].
      intros ->. apply PyDictFacts.contains_false in Hc. congruence.
    + intros k Hk. apply PyDictFacts.contains_set in Hk. tauto.
    + apply PyDictFacts.contains_true. eexists. apply PyDictFacts.get_set_same.
Qed.

Lemma contains_cons_r (k k0 : string) (name : string)
    (table : PyDict.dict string) :
  PyDict.contains k table = true ->
  PyDict.contains k ((k0, name) :: table) = true.
Proof.
  unfold PyDict.contains. simpl. by destruct (String.eqb k k0).
Qed.

Lemma contains_cons_inv (k k0 : string) (name : string)
    (table : PyDict.dict string) :
  PyDict.contains k ((k0, name) :: table) = true ->
  k = k0 \/ PyDict.contains k table = true.
Proof.
  unfold PyDict.contains. simpl.
  destruct (String.eqb_spec k k0); [by left | by right].
Qed.

(** The whole loop over one table. *)
Lemma mark_fold kind marked (table : PyDict.dict string) :
  forall σ d,
    σ !! marked = Some d ->
    exists d',
      fold_left (HolidayManager.mark_step kind marked) table σ !! marked = Some d' /\
      (forall l : nat, l <> marked ->
         fold_left (HolidayManager.mark_step kind marked) table σ !! l = σ !! l) /\
      (forall k v, PyDict.get k d = Some v -> PyDict.get k d' = Some v) /\
      (forall k, PyDict.contains k d' = true ->
                 PyDict.contains k d = true \/ PyDict.contains k table = true) /\
      (forall k, PyDict.contains k table = true -> PyDict.contains k d' = true).
Proof.
  induction table as [|[k0 name] table IH]; intros σ d Hd; simpl.
  - exists d. repeat split; auto. intros k Hk. discriminate.
  - destruct (mark_step_marked kind marked σ (k0, name) d Hd)
      as (d1 & Hd1 & Hkeep1 & Honly1 & Hhas1).
    destruct (IH _ _ Hd1) as (d' & Hd' & Hother & Hkeep & Honly & Hall).
    exists d'. split; [exact Hd'|]. repeat split.
    + intros l Hl. rewrite Hother by done. by apply mark_step_other.
    + auto.
    + intros k Hk. destruct (Honly k Hk) as [H1|H1].
      * destruct (Honly1 k H1) as [?|Heq]; [by left|]. right.
        simpl in Heq. subst k. unfold PyDict.contains. simpl.
        by rewrite String.eqb_refl.
      * right. by apply contains_cons_r.
    + intros k Hk. apply contains_cons_inv in Hk as [->|Hk]; [|by apply Hall].
      simpl in Hhas1. apply PyDictFacts.contains_true in Hhas1 as [v Hv].
      apply PyDictFacts.contains_true. eauto.
Qed.

(** C8. [mark_holidays_in_calendar] overwrites nothing: every key of the
    input dictionary maps to its original value in the returned one, the
    keys added are keys of the two holiday tables (all of them end up
    present), and the input dictionary, like every other object of the
    store, is left as it was. *)
Theorem mark_holidays_preserves_entries (self : HolidayManager.t)
    σ (calendar_dict : nat) d :
  σ !! calendar_dict = Some d ->
  exists σ' (marked_calendar : nat) d',
    HolidayManager.mark_holidays_in_calendar self σ calendar_dict
      = Ok (σ', marked_calendar) /\
    σ' !! marked_calendar = Some d' /\
    (forall k v, PyDict.get k d = Some v -> PyDict.get k d' = Some v) /\
    (forall k, PyDict.contains k d' = true <->
               PyDict.contains k d = true \/
               PyDict.contains k (HolidayManager.holidays self) = true \/
               PyDict.contains k (HolidayManager.optional_holidays self) = true) /\
    marked_calendar <> calendar_dict /\
    σ' !! calendar_dict = Some d /\
    (forall l : nat, l <> marked_calendar -> σ' !! l = σ !! l).
Proof.
  intros Hd. unfold HolidayManager.mark_holidays_in_calendar. rewrite Hd.
  set (marked := fresh (dom σ)).
  assert (Hfresh : σ !! marked = None).
  { apply not_elem_of_dom. apply is_fresh. }
  assert (Hne : marked <> calendar_dict) by congruence.
  destruct (mark_fold "holiday" marked (HolidayManager.holidays self)
              (<[marked:=d]> σ) d (lookup_insert_eq _ _ _))
    as (d1 & Hd1 & Hother1 & Hkeep1 & Honly1 & Hall1).
  destruct (mark_fold "optional_holiday" marked
              (HolidayManager.optional_holidays self) _ d1 Hd1)
    as (d2 & Hd2 & Hother2 & Hkeep2 & Honly2 & Hall2).
  assert (Hothers : forall l : nat, l <> marked ->
            fold_left (HolidayManager.mark_step "optional_holiday" marked)
              (HolidayManager.optional_holidays self)
              (fold_left (HolidayManager.mark_step "holiday" marked)
                 (HolidayManager.holidays self) (<[marked:=d]> σ)) !! l = σ !! l).
  { intros l Hl. rewrite Hother2, Hother1 by done. by rewrite lookup_insert_ne. }
  eexists _, marked, d2. split; [reflexivity|].
  split; [exact Hd2|]. split; [auto|]. split; [|split; [done|split]].
  - intros k. split.
    + intros Hk. destruct (Honly2 k Hk) as [H1|H1]; [|tauto].
      destruct (Honly1 k H1); tauto.
    + intros [Hk|[Hk|Hk]].
      * apply PyDictFacts.contains_true in Hk as [v Hv].
        apply PyDictFacts.contains_true. eauto.
      * apply Hall1 in Hk. apply PyDictFacts.contains_true in Hk as [v Hv].
        apply PyDictFacts.contains_true. eauto.
      * by apply Hall2.
  - rewrite Hothers by done. exact Hd.
  - exact Hothers.
Qed.

End Mark.

(** A calendar that already has an entry for 1 January, marked with tables
    that list 1 and 2 January. *)
Lemma mark_holidays_preserves_entries_witness :
  Samples.store0 !! 0%nat
    = Some [("01/01", PStr "aula inaugural"); ("10/03", PStr "prova")]%string /\
  exists σ' (marked_calendar : nat) d',
    HolidayManager.mark_holidays_in_calendar Samples.overlapping_tables
      Samples.store0 0%nat = Ok (σ', marked_calendar) /\
    σ' !! marked_calendar = Some d' /\
    (forall k v,
       PyDict.get k [("01/01", PStr "aula inaugural"); ("10/03", PStr "prova")]%string
         = Some v -> PyDict.get k d' = Some v) /\
    (forall k, PyDict.contains k d' = true <->
               PyDict.contains k
                 [("01/01", @PStr Z "aula inaugural"); ("10/03", PStr "prova")]%string
                 = true \/
               PyDict.contains k
                 (HolidayManager.holidays Samples.overlapping_tables) = true \/
               PyDict.contains k
                 (HolidayManager.optional_holidays Samples.overlapping_tables) = true) /\
    marked_calendar <> 0%nat /\
    σ' !! 0%nat
      = Some [("01/01", PStr "aula inaugural"); ("10/03", PStr "prova")]%string /\
    (forall l : nat, l <> marked_calendar -> σ' !! l = Samples.store0 !! l).
Proof.
  split; [reflexivity|].
  apply (mark_holidays_preserves_entries Samples.overlapping_tables
           Samples.store0 0%nat). reflexivity.
Defined.

End HolidayManagerFacts.

(** ** The calendar with holidays *)

Module CalendarFacts.

Import PyDate.
Import CalendarWithHolidays.

(** What the loop body writes for a date. *)
Lemma make_entry_spec (hm : HolidayManager.t) (d : date) :
  e_date (make_entry hm d) = strftime_dmY d /\
  is_holiday (make_entry hm d) = HolidayManager.is_holiday hm d /\
  is_optional_holiday (make_entry hm d) =
    negb (HolidayManager.is_holiday hm d) &&
    HolidayManager.is_optional_holiday hm d /\
  (is_holiday (make_entry hm d) || is_optional_holiday (make_entry hm d) = true ->
   is_Some (holiday_name (make_entry hm d))).
Proof.
  unfold make_entry.
  destruct (HolidayManager.is_holiday hm d) eqn:E1;
    [|destruct (HolidayManager.is_optional_holiday hm d) eqn:E2]; simpl;
    repeat split; try done; intros _.
  - unfold HolidayManager.is_holiday in E1. simpl in E1.
    apply PyDictFacts.contains_true in E1 as [v Hv].
    unfold HolidayManager.get_holiday_name. simpl. by rewrite Hv.
  - unfold HolidayManager.is_optional_holiday in E2. simpl in E2.
    apply PyDictFacts.contains_true in E2 as [v Hv].
    unfold HolidayManager.get_holiday_name. simpl. rewrite Hv.
    by destruct (PyDict.get _ (HolidayManager.holidays hm)).
Qed.

(** Every pair of the result was in the calendar the loop started from or
    was written by the loop body for some date. *)
Lemma calendar_loop_entries (hm : HolidayManager.t) (end_date : date) :
  forall (fuel : nat) (current_date : date) (acc cal : PyDict.dict entry),
    calendar_loop fuel hm current_date end_date acc = Ok cal ->
    forall k e, In (k, e) cal ->
      In (k, e) acc \/ exists d, k = strftime_dmY d /\ e = make_entry hm d.
Proof.
  induction fuel as [|fuel IH]; intros cur acc cal; simpl; [done|].
  destruct (leb cur end_date).
  - destruct (add_day cur) as [next| |] eqn:Hnext; simpl; try done.
    intros Hloop k e Hin.
    destruct (IH _ _ _ Hloop k e Hin) as [Hacc|Hnew]; [|by right].
    apply PyDictFacts.in_set in Hacc as [[-> ->]|Hacc]; [right; eauto | by left].
  - intros [= ->]. by left.
Qed.

Lemma set_nonempty {V : Type} (k : string) (v : V) (d : PyDict.dict V) :
  PyDict.set k v d <> [].
Proof. destruct d as [|[k' v'] d]; simpl; [done|]. by case_match. Qed.

(** The loop from a date of year [y] to 31 December of [y] needs one round
    per remaining day and one more; it then returns, except that the last
    step from 31 December 9999 overflows. *)
Lemma calendar_loop_outcome (hm : HolidayManager.t) (y : Z) :
  forall (fuel : nat) (cur : date) (acc : PyDict.dict entry),
    PyDate.year cur = y -> 1 <= month cur <= 12 ->
    1 <= day cur <= days_in_month y (month cur) ->
    368 - day_of_year cur <= Z.of_nat fuel ->
    if y <? MAXYEAR
    then exists cal, calendar_loop fuel hm cur (mkdate y 12 31) acc = Ok cal /\
                     cal <> []
    else calendar_loop fuel hm cur (mkdate y 12 31) acc = Raise "OverflowError".
Proof.
  induction fuel as [|fuel IH]; intros cur acc Hy Hm Hd Hfuel.
  { exfalso. pose proof (month_end_le_alias := PyDateFacts.month_end_le y (month cur) Hm).
    unfold day_of_year in Hfuel. rewrite Hy in Hfuel. lia. }
  assert (Hdoy : day_of_year cur <= 366).
  { pose proof (PyDateFacts.month_end_le y (month cur) Hm).
    unfold day_of_year. rewrite Hy. lia. }
  pose proof (PyDateFacts.days_in_month_bounds y (month cur)) as Hdim.
  cbn [calendar_loop].
  assert (Hle : leb cur (mkdate y 12 31) = true).
  { unfold leb. apply negb_true_iff. apply not_true_is_false.
    rewrite PyDateFacts.ltb_lt. unfold lt. simpl. lia. }
  rewrite Hle. unfold add_day. rewrite Hy.
  destruct (day cur <? days_in_month y (month cur)) eqn:E1.
  - (* the next day of the same month *)
    apply Z.ltb_lt in E1. simpl.
    apply IH; simpl; try lia.
    unfold day_of_year in *. simpl. rewrite Hy in Hfuel. lia.
  - apply Z.ltb_ge in E1.
    destruct (month cur <? 12) eqn:E2.
    + (* the first day of the next month *)
      apply Z.ltb_lt in E2. simpl.
      pose proof (PyDateFacts.days_in_month_bounds y (month cur + 1)).
      apply IH; simpl; try lia.
      unfold day_of_year in *. simpl.
      rewrite PyDateFacts.days_before_month_succ by lia.
      rewrite Hy in Hfuel. lia.
    + (* 31 December *)
      apply Z.ltb_ge in E2.
      destruct (y <? MAXYEAR) eqn:E3; simpl; [|done].
      destruct fuel as [|fuel]; [lia|]. cbn [calendar_loop].
      assert (Hgt : leb (mkdate (y + 1) 1 1) (mkdate y 12 31) = false).
      { unfold leb. apply negb_false_iff.
        apply PyDateFacts.ltb_lt. unfold lt. simpl. lia. }
      rewrite Hgt. eexists. split; [reflexivity|]. apply set_nonempty.
Qed.


Lemma make_first_day (y : Z) :
  make y 1 1 = if (MINYEAR <=? y) && (y <=? MAXYEAR)
               then Ok (mkdate y 1 1) else Raise "ValueError".
Proof.
  unfold make, validb. simpl.
  by destruct ((MINYEAR <=? y) && (y <=? MAXYEAR)).
Qed.

Lemma make_last_day (y : Z) :
  make y 12 31 = if (MINYEAR <=? y) && (y <=? MAXYEAR)
                 then Ok (mkdate y 12 31) else Raise "ValueError".
Proof.
  unfold make, validb. simpl.
  by destruct ((MINYEAR <=? y) && (y <=? MAXYEAR)).
Qed.

(** [generate_calendar] always comes to an end within its fuel: it returns
    a calendar for the years 1 to 9998, overflows past 31 December 9999
    and rejects every other year. *)
Lemma generate_calendar_outcome (self : t) :
  if (MINYEAR <=? CalendarWithHolidays.year self) &&
     (CalendarWithHolidays.year self <=? MAXYEAR) then
    if CalendarWithHolidays.year self <? MAXYEAR
    then exists self', generate_calendar self = Ok self' /\ calendar self' <> []
    else generate_calendar self = Raise "OverflowError"
  else generate_calendar self = Raise "ValueError".
Proof.
  unfold generate_calendar.
  rewrite make_first_day, make_last_day.
  destruct ((MINYEAR <=? CalendarWithHolidays.year self) &&
            (CalendarWithHolidays.year self <=? MAXYEAR)) eqn:E; [|done].
  cbn [mbind outcome_bind obind].
  set (y := CalendarWithHolidays.year self).
  assert (H1 : PyDate.year (mkdate y 1 1) = y) by done.
  assert (H2 : 1 <= month (mkdate y 1 1) <= 12) by (cbn [month]; lia).
  assert (H3 : 1 <= day (mkdate y 1 1) <= days_in_month y (month (mkdate y 1 1))).
  { cbn [day month]. pose proof (PyDateFacts.days_in_month_bounds y 1). lia. }
  assert (H4 : 368 - day_of_year (mkdate y 1 1) <= Z.of_nat calendar_fuel).
  { vm_compute. discriminate. }
  pose proof (calendar_loop_outcome (holiday_manager self) y
                calendar_fuel (mkdate y 1 1) [] H1 H2 H3 H4) as H.
  destruct (y <? MAXYEAR).
  - destruct H as (cal & Hcal & Hne). rewrite Hcal.
    cbn [mbind outcome_bind obind]. eauto.
  - rewrite H. reflexivity.
Qed.

(** C9. In a calendar produced by [generate_calendar] no entry has both
    [is_holiday] and [is_optional_holiday] set, an entry with either of
    them set carries a holiday name, and each entry was built for a date:
    it is a mandatory holiday exactly when the date is in the mandatory
    table, and an optional one exactly when the date is in the optional
    table and not in the mandatory one. *)
Theorem generate_calendar_holiday_marks (self self' : t) (k : string) (e : entry) :
  generate_calendar self = Ok self' ->
  In (k, e) (calendar self') ->
  is_holiday e && is_optional_holiday e = false /\
  (is_holiday e || is_optional_holiday e = true -> is_Some (holiday_name e)) /\
  exists d : date,
    k = strftime_dmY d /\ e_date e = k /\
    is_holiday e = HolidayManager.is_holiday (holiday_manager self) d /\
    is_optional_holiday e =
      negb (HolidayManager.is_holiday (holiday_manager self) d) &&
      HolidayManager.is_optional_holiday (holiday_manager self) d.
Proof.
  unfold generate_calendar. intros Hgen Hin.
  destruct (make (CalendarWithHolidays.year self) 1 1) as [start_date| |];
    cbn [mbind outcome_bind obind] in Hgen; try done.
  destruct (make (CalendarWithHolidays.year self) 12 31) as [end_date| |];
    cbn [mbind outcome_bind obind] in Hgen; try done.
  destruct (calendar_loop _ _ _ _ _) as [cal| |] eqn:Hloop;
    cbn [mbind outcome_bind obind] in Hgen; try done.
  injection Hgen as <-. cbn [calendar] in Hin.
  destruct (calendar_loop_entries _ _ _ _ _ _ Hloop k e Hin) as [[]|(d & -> & ->)].
  destruct (make_entry_spec (holiday_manager self) d) as (Hdate & Hh & Ho & Hname).
  split; [|split; [exact Hname|]].
  - rewrite Hh, Ho. by destruct (HolidayManager.is_holiday _ d).
  - exists d. by rewrite Hdate, Hh, Ho.
Qed.

Lemma generate_calendar_overlap_2026 :
  generate_calendar (init 2026 Samples.overlapping_tables)
    = Ok Samples.calendar_overlap_2026.
Proof. vm_compute. reflexivity. Qed.

Lemma generate_calendar_default_2026 :
  generate_calendar (init 2026 HolidayManager._load_default_holidays)
    = Ok Samples.calendar_2026.
Proof. vm_compute. reflexivity. Qed.

(** The year 2026 with 1 January in both tables: the entry is a mandatory
    holiday only. *)
Lemma generate_calendar_holiday_marks_witness :
  generate_calendar (init 2026 Samples.overlapping_tables)
    = Ok Samples.calendar_overlap_2026 /\
  In ("01/01/2026"%string,
      {| e_date := "01/01/2026"; day_of_week := "Thursday";
         is_holiday := true; is_optional_holiday := false;
         holiday_name := Some "Confraternização Universal"%string |})
     (calendar Samples.calendar_overlap_2026) /\
  HolidayManager.is_holiday Samples.overlapping_tables (mkdate 2026 1 1) = true /\
  HolidayManager.is_optional_holiday Samples.overlapping_tables (mkdate 2026 1 1)
    = true /\
  exists d : date,
    "01/01/2026"%string = strftime_dmY d /\
    true = HolidayManager.is_holiday Samples.overlapping_tables d /\
    false = negb (HolidayManager.is_holiday Samples.overlapping_tables d) &&
            HolidayManager.is_optional_holiday Samples.overlapping_tables d.
Proof.
  split; [exact generate_calendar_overlap_2026|].
  split; [left; reflexivity|].
  split; [reflexivity|]. split; [reflexivity|].
  destruct (generate_calendar_holiday_marks
              (init 2026 Samples.overlapping_tables)
              Samples.calendar_overlap_2026 "01/01/2026"
              {| e_date := "01/01/2026"; day_of_week := "Thursday";
                 is_holiday := true; is_optional_holiday := false;
                 holiday_name := Some "Confraternização Universal"%string |}
              generate_calendar_overlap_2026 (or_introl eq_refl))
    as (_ & _ & d & Hk & _ & Hh & Ho).
  exists d. auto.
Defined.

End CalendarFacts.

(** ** Working days and the range of the calendar *)

Module WorkingDaysFacts.

Import PyDate.
Import CalendarWithHolidays.

Lemma in_keys_of_filter {A B : Type} (f : A * B -> bool) (l : list (A * B)) (k : A) :
  In k (map fst (List.filter f l)) <-> exists v, In (k, v) l /\ f (k, v) = true.
Proof.
  rewrite in_map_iff. split.
  - intros [[k' v] [Hk H]]. simpl in Hk. subst k'.
    apply filter_In in H. eauto.
  - intros [v [H1 H2]]. exists (k, v). split; [done|]. by apply filter_In.
Qed.

Lemma is_weekend_name_spec (s : string) :
  is_weekend_name s = true <-> s = "Saturday"%string \/ s = "Sunday"%string.
Proof.
  unfold is_weekend_name. rewrite orb_true_iff, !String.eqb_eq. tauto.
Qed.

Lemma not_in_by_eqb (k : string) (l : list string) :
  forallb (fun x => negb (String.eqb x k)) l = true -> ~ In k l.
Proof.
  rewrite forallb_forall. intros H Hin. specialize (H k Hin).
  by rewrite String.eqb_refl in H.
Qed.

(** C4, as the code has it. Weekend exclusion is global: the calendar has
    no cohort mode.  A day is a working day exactly when its entry is
    neither a holiday, nor an optional holiday, nor a Saturday or a Sunday,
    whatever the two arguments of [get_working_days]; it is a non-working
    day exactly when one of the three holds; so a Saturday entry is always
    listed as non-working. *)
Theorem weekend_exclusion_is_global (self : t) (start_date end_date key : string) :
  (In key (get_working_days self start_date end_date) <->
   exists entry, In (key, entry) (calendar self) /\
     is_holiday entry = false /\ is_optional_holiday entry = false /\
     day_of_week entry <> "Saturday"%string /\
     day_of_week entry <> "Sunday"%string) /\
  (In key (get_non_working_days self) <->
   exists entry, In (key, entry) (calendar self) /\
     (is_holiday entry = true \/ is_optional_holiday entry = true \/
      day_of_week entry = "Saturday"%string \/
      day_of_week entry = "Sunday"%string)) /\
  (forall entry, In (key, entry) (calendar self) ->
     day_of_week entry = "Saturday"%string ->
     In key (get_non_working_days self)).
Proof.
  assert (Hnon : In key (get_non_working_days self) <->
   exists entry, In (key, entry) (calendar self) /\
     (is_holiday entry = true \/ is_optional_holiday entry = true \/
      day_of_week entry = "Saturday"%string \/
      day_of_week entry = "Sunday"%string)).
  { unfold get_non_working_days. rewrite in_keys_of_filter.
    split; intros (entry & Hin & H); exists entry; (split; [done|]).
    - destruct (is_holiday entry); [by left|].
      destruct (is_optional_holiday entry); [by right; left|].
      simpl in H. apply is_weekend_name_spec in H. tauto.
    - destruct (is_holiday entry); [done|].
      destruct (is_optional_holiday entry); [done|]. simpl.
      apply is_weekend_name_spec. destruct H as [?|[?|?]]; done. }
  split; [|split; [exact Hnon|]].
  - unfold get_working_days. rewrite in_keys_of_filter.
    split; intros (entry & Hin & H); exists entry; (split; [done|]).
    + apply andb_prop in H as [H H3]. apply andb_prop in H as [H1 H2].
      apply negb_true_iff in H1, H2, H3.
      repeat split; try done; intros Heq;
        assert (is_weekend_name (day_of_week entry) = true)
          by (apply is_weekend_name_spec; tauto); congruence.
    + destruct H as (-> & -> & Hsat & Hsun). simpl.
      apply negb_true_iff. apply not_true_is_false.
      rewrite is_weekend_name_spec. tauto.
  - intros entry Hin Hsat. apply Hnon. exists entry. tauto.
Qed.

(** C4, as the design document has it, fails: Saturday 3 January 2026 is
    in neither holiday table, and it is a non-working day, never a working
    one; the methods take no cohort mode that could change this. *)
Lemma saturday_is_never_a_working_day :
  generate_calendar (init 2026 HolidayManager._load_default_holidays)
    = Ok Samples.calendar_2026 /\
  weekday (mkdate 2026 1 3) = 5 /\
  HolidayManager.is_holiday HolidayManager._load_default_holidays
    (mkdate 2026 1 3) = false /\
  HolidayManager.is_optional_holiday HolidayManager._load_default_holidays
    (mkdate 2026 1 3) = false /\
  In (strftime_dmY (mkdate 2026 1 3)) (get_non_working_days Samples.calendar_2026) /\
  ~ In (strftime_dmY (mkdate 2026 1 3))
       (get_working_days Samples.calendar_2026 "01/01/2026" "31/12/2026").
Proof.
  split; [vm_compute; reflexivity|].
  split; [reflexivity|]. split; [reflexivity|]. split; [reflexivity|].
  split.
  - vm_compute. tauto.
  - apply not_in_by_eqb. vm_compute. reflexivity.
Qed.


End WorkingDaysFacts.

(** ** The letive days of the calendar reader *)

Module CalendarReaderFacts.

Import PyDate.
Import CalendarReader.

Section Chronology.

(** Strictly earlier by date. *)
Let earlier (a b : datetime) : Prop := lt (dt_date a) (dt_date b).

Lemma sorted_snoc (l : list datetime) (x : datetime) :
  StronglySorted earlier l -> Forall (fun a => earlier a x) l ->
  StronglySorted earlier (l ++ [x]).
Proof.
  induction 1 as [|a l Hs IH Ha]; intros Hall; simpl.
  - repeat constructor.
  - apply Forall_cons in Hall as [Hax Hall]. constructor; [by apply IH|].
    apply Forall_app. split; [done|]. constructor; [exact Hax | constructor].
Qed.

Lemma sorted_adjacent (l : list datetime) :
  StronglySorted earlier l ->
  forall (i : nat) (a b : datetime),
    l !! i = Some a -> l !! S i = Some b -> earlier a b.
Proof.
  induction 1 as [|x l Hs IH Hx]; intros i a b Ha Hb; [done|].
  destruct i as [|i]; simpl in *.
  - injection Ha as <-. rewrite Forall_forall in Hx. apply Hx.
    by apply list_elem_of_lookup_2 in Hb.
  - by apply (IH i).
Qed.

Lemma datetime_add_day_later (t t' : datetime) :
  datetime_add_day t = Ok t' -> earlier t t'.
Proof.
  unfold datetime_add_day, earlier.
  destruct (add_day (dt_date t)) as [d| |] eqn:E; simpl; try done.
  intros [= <-]. simpl. by apply PyDateFacts.add_day_lt.
Qed.

(** The loop keeps its list sorted: what it appends is the current date,
    later than everything appended before. *)
Lemma letive_loop_sorted (end_date : datetime) :
  forall (fuel : nat) (cur : datetime) (acc l : list datetime),
    letive_loop fuel cur end_date acc = Ok l ->
    StronglySorted earlier acc ->
    Forall (fun a => earlier a cur) acc ->
    StronglySorted earlier l.
Proof.
  induction fuel as [|fuel IH]; intros cur acc l; cbn [letive_loop]; [done|].
  destruct (datetime_leb cur end_date); [|by intros [= <-]].
  destruct (datetime_add_day cur) as [next| |] eqn:Hnext;
    cbn [mbind outcome_bind obind]; try done.
  intros Hloop Hsorted Hall.
  apply datetime_add_day_later in Hnext.
  assert (Hall' : Forall (fun a => earlier a next) acc).
  { eapply Forall_impl; [exact Hall|]. intros a Ha. simpl in Ha.
    unfold earlier in *. by eapply PyDateFacts.lt_trans. }
  apply (IH _ _ _ Hloop).
  - destruct (is_letive_weekday _); [by apply sorted_snoc | done].
  - destruct (is_letive_weekday _); [|done].
    apply Forall_app. split; [done|]. constructor; [exact Hnext | constructor].
Qed.

End Chronology.

(** The loop ends by its own test, with 383 days. *)
Lemma extract_letive_days_returns {R : Type} (rows : R) :
  exists l, _extract_letive_days rows = Ok l /\ length l = 383%nat.
Proof. vm_compute. eexists. split; reflexivity. Qed.

Lemma extract_letive_days_unfold {R : Type} (rows : R) :
  _extract_letive_days rows =
  letive_loop letive_fuel (mkdatetime (mkdate 2026 3 1) 0 0 0)
    (mkdatetime (mkdate 2027 12 31) 0 0 0) [].
Proof. reflexivity. Qed.

(** C7. The list of days [_extract_letive_days] returns is strictly
    increasing by (date, start time): of two adjacent elements the first
    has the strictly earlier date, or the same date and a strictly earlier
    time of day. *)
Theorem letive_days_strictly_chronological {R : Type} (rows : R) :
  exists l, _extract_letive_days rows = Ok l /\ Props.strictly_chronological l.
Proof.
  destruct (extract_letive_days_returns rows) as (l & Hl & _).
  exists l. split; [exact Hl|].
  rewrite extract_letive_days_unfold in Hl.
  intros i a b Ha Hb. left.
  eapply sorted_adjacent; [|exact Ha|exact Hb].
  eapply letive_loop_sorted; [exact Hl| |]; constructor.
Qed.

Example first_letive_days :
  exists l, _extract_letive_days tt = Ok l /\
    l !! 0%nat = Some (mkdatetime (mkdate 2026 3 2) 0 0 0) /\
    l !! 1%nat = Some (mkdatetime (mkdate 2026 3 4) 0 0 0).
Proof. vm_compute. eexists. repeat split. Qed.

End CalendarReaderFacts.

(** ** The schedule manager *)

Module ScheduleManagerFacts.

Import ScheduleManager.

Section Generic.
Context {num : Type}.
Variable to_numeric_str : string -> option num.
Variable num_zero : num.
Variable num_add : num -> num -> num.
Variable num_leb : num -> num -> bool.
Variable num_eqb : num -> num -> bool.
Variable num_int : num -> outcome Z.

(** *** The conflict validator *)

(** C2. The report of [validate_schedule] has status INVÁLIDO if and
    only if its list of conflicts is not empty; a report without
    conflicts, whatever its warnings, has status VÁLIDO. *)
Theorem validate_schedule_status (schedule : PyDict.dict (pyval num)) :
  (report_status (validate_schedule schedule) = Some "INVÁLIDO"%string <->
   report_list "conflicts" (validate_schedule schedule) <> []) /\
  (report_list "conflicts" (validate_schedule schedule) = [] ->
   report_status (validate_schedule schedule) = Some "VÁLIDO"%string).
Proof.
  unfold validate_schedule.
  destruct (PyDict.is_empty schedule); cbn; split; try split; try done.
Qed.

Lemma validate_schedule_no_warnings (schedule : PyDict.dict (pyval num)) :
  report_list "warnings" (validate_schedule schedule) = [].
Proof. unfold validate_schedule. by destruct (PyDict.is_empty schedule). Qed.

(** *** The schedule generator *)

Lemma capacity_of_weekly (semester : string) (c : Z) :
  capacity_of "weekly" semester = Ok c ->
  semester = "sem1"%string \/ semester = "sem2"%string.
Proof.
  unfold capacity_of. cbn.
  destruct (String.eqb_spec semester "sem1"); [by left|].
  destruct (String.eqb_spec semester "sem2"); [by right|]. done.
Qed.

(** The generators return for the two semesters of the capacity table and
    raise a KeyError for any other. *)
Lemma generate_weekly_schedule_returns {D : Type} (disciplines : list D)
    (semester : string) :
  (semester = "sem1"%string \/ semester = "sem2"%string) <->
  exists schedule : PyDict.dict (pyval num),
    generate_weekly_schedule disciplines semester = Ok schedule.
Proof.
  unfold generate_weekly_schedule. split.
  - intros [->| ->]; eexists; reflexivity.
  - intros [schedule H].
    destruct (capacity_of "weekly" semester) as [c| |] eqn:E;
      cbn [mbind outcome_bind obind] in H; try done.
    by apply capacity_of_weekly in E.
Qed.

Lemma generate_biweekly_schedule_assignments {D : Type} (disciplines : list D)
    (semester : string) (schedule : PyDict.dict (pyval num)) :
  generate_biweekly_schedule disciplines semester = Ok schedule ->
  report_list "assignments" schedule = [].
Proof.
  unfold generate_biweekly_schedule.
  destruct (capacity_of "biweekly" semester) as [c| |];
    cbn [mbind outcome_bind obind]; try done.
  by intros [= <-].
Qed.

Section Coverage.
Variable assigned_to : AssignmentSpec.Discipline -> pyval num -> bool.
Variable shortfall_for : AssignmentSpec.Discipline -> pyval num -> bool.

(** C1, as the code has it. Whatever the disciplines, a schedule that
    [generate_weekly_schedule] returns has an empty list of assignments
    and its validation report has neither warnings nor conflicts: every
    discipline appears in zero assignments, and coverage-or-shortfall
    holds for a discipline exactly when it requires no session at all. *)
Theorem generated_schedule_allocates_nothing
    (disciplines : list AssignmentSpec.Discipline) (semester : string)
    (schedule : PyDict.dict (pyval num)) :
  generate_weekly_schedule disciplines semester = Ok schedule ->
  report_list "assignments" schedule = [] /\
  report_list "warnings" (validate_schedule schedule) = [] /\
  report_list "conflicts" (validate_schedule schedule) = [] /\
  forall d : AssignmentSpec.Discipline,
    AssignmentSpec.allocatedSessions assigned_to d schedule = 0 /\
    (AssignmentSpec.coverage_or_shortfall assigned_to shortfall_for d
       schedule (validate_schedule schedule) <->
     AssignmentSpec.requiredSessionCount d 100 = 0).
Proof.
  unfold generate_weekly_schedule.
  destruct (capacity_of "weekly" semester) as [c| |];
    cbn [mbind outcome_bind obind]; try done.
  intros [= <-]. split; [reflexivity|]. split; [reflexivity|].
  split; [reflexivity|]. intros d. split; [reflexivity|].
  unfold AssignmentSpec.coverage_or_shortfall. cbn. split.
  - intros [H|H]; [by symmetry | discriminate].
  - intros H. left. by symmetry.
Qed.

End Coverage.

(** *** The catalog of disciplines *)

Lemma cell_at_alter_same (j : nat) (cells : list (@cell num)) :
  cell_at j (alter (to_numeric to_numeric_str) j cells)
    = to_numeric to_numeric_str (cell_at j cells).
Proof.
  unfold cell_at. rewrite !nth_lookup, list_lookup_alter_eq.
  by destruct (cells !! j).
Qed.

Lemma cell_at_alter_other (i j : nat) (cells : list (@cell num)) :
  i <> j ->
  cell_at i (alter (to_numeric to_numeric_str) j cells) = cell_at i cells.
Proof.
  intros Hne. unfold cell_at.
  by rewrite !nth_lookup, list_lookup_alter_ne by congruence.
Qed.

(** The three conversions of [load_disciplines] act row by row. *)
Lemma convert_columns_rows (rs : list (nat * list (@cell num))) :
  convert_columns to_numeric_str rs =
  map (fun '(i, cells) =>
         (i, alter (to_numeric to_numeric_str) 4%nat
               (alter (to_numeric to_numeric_str) 2%nat
                  (alter (to_numeric to_numeric_str) 1%nat cells)))) rs.
Proof.
  unfold convert_columns, to_numeric_column. rewrite !map_map.
  apply map_ext. by intros [i cells].
Qed.

Lemma hora_aula_converted (cells : list (@cell num)) :
  cell_at 1 (alter (to_numeric to_numeric_str) 4%nat
               (alter (to_numeric to_numeric_str) 2%nat
                  (alter (to_numeric to_numeric_str) 1%nat cells)))
    = to_numeric to_numeric_str (cell_at 1 cells).
Proof.
  rewrite !cell_at_alter_other by done. apply cell_at_alter_same.
Qed.

(** [load_disciplines] gives up exactly when the file cannot be read, has
    fewer than five columns or has no row. *)
Lemma load_disciplines_ok (read : option (@frame num)) :
  load_ok (load_disciplines to_numeric_str read) = true <->
  exists df, read = Some df /\ (5 <= ncols df)%nat /\ rows df <> [].
Proof.
  destruct read as [df|]; cbn [load_disciplines load_ok].
  2: { split; [done|]. by intros (? & ? & _). }
  cbn [iloc_first5 ncols rows].
  destruct (Nat.eqb_spec (Nat.min (ncols df) 5) 5) as [E|E]; cbn [negb].
  - destruct (rows df) as [|[i cells] rs] eqn:Hr; cbn [map load_ok].
    + split; [done|]. intros (? & [= <-] & _ & ?). congruence.
    + split; [|done]. intros _. exists df. split; [done|]. split; [lia|].
      by rewrite Hr.
  - split; [done|]. intros (? & [= <-] & ? & _). lia.
Qed.

(** C6, as the code has it. When the file has at least five columns and
    at least one row, [load_disciplines] succeeds and prints nothing: no
    warning is recorded anywhere.  The rows it loads are exactly the data
    rows (those left once a leading header row is removed) whose hour
    field is numeric, each with its three numeric columns converted; a
    row whose hour field is not numeric is left out. *)
Theorem load_disciplines_skips_silently (df : @frame num) :
  (5 <= ncols df)%nat -> rows df <> [] ->
  exists loaded,
    load_disciplines to_numeric_str (Some df)
      = mk_load true (Some (mk_frame 5 loaded)) [] /\
    forall (i : nat) (cells' : list cell),
      In (i, cells') loaded <->
      exists cells,
        In (i, cells) (remove_header (rows (iloc_first5 df))) /\
        cells' = alter (to_numeric to_numeric_str) 4%nat
                   (alter (to_numeric to_numeric_str) 2%nat
                      (alter (to_numeric to_numeric_str) 1%nat cells)) /\
        isna (to_numeric to_numeric_str (cell_at 1 cells)) = false.
Proof.
  intros Hcols Hrows.
  exists (dropna_hora_aula
            (convert_columns to_numeric_str
               (remove_header (rows (iloc_first5 df))))).
  split.
  - unfold load_disciplines.
    assert (Hn : ncols (iloc_first5 df) = 5%nat).
    { cbn [iloc_first5 ncols]. lia. }
    rewrite Hn. cbn [Nat.eqb negb].
    destruct (rows (iloc_first5 df)) as [|r rs] eqn:E; [|reflexivity].
    cbn [iloc_first5 rows] in E. apply map_eq_nil in E. done.
  - intros i cells'. unfold dropna_hora_aula.
    rewrite convert_columns_rows, filter_In, in_map_iff. split.
    + intros [([j cells] & [= <- <-] & Hin) Hkeep].
      exists cells. split; [done|]. split; [done|].
      rewrite hora_aula_converted in Hkeep. by apply negb_true_iff.
    + intros (cells & Hin & -> & Hnum). split.
      * by exists (i, cells).
      * rewrite hora_aula_converted. by apply negb_true_iff.
Qed.

(** *** The pipeline *)

(** C3, as the code has it. Two runs of [process] on the same inputs give
    the same result once the time stamp is left out, and the time stamp of
    a result is the clock reading of its own run. *)
Theorem process_deterministic_up_to_timestamp
    (course year t1 t2 : string) (read_csv : string -> option (@frame num))
    (calendar_file distribution_file : string) :
  Props.forget_timestamp
    (process to_numeric_str num_zero num_add num_leb num_eqb num_int
       course year t1 read_csv calendar_file distribution_file) =
  Props.forget_timestamp
    (process to_numeric_str num_zero num_add num_leb num_eqb num_int
       course year t2 read_csv calendar_file distribution_file) /\
  (forall results,
     process to_numeric_str num_zero num_add num_leb num_eqb num_int
       course year t1 read_csv calendar_file distribution_file = Ok results ->
     PyDict.get "timestamp" results = Some (PStr t1)).
Proof.
  unfold process.
  destruct (read_csv calendar_file) as [cal|];
    [|split; [reflexivity | by intros ? [= <-]]].
  destruct (load_ok _); [|split; [reflexivity | by intros ? [= <-]]].
  destruct (analyze _ _ _ _ _ _) as [analysis| |];
    cbn [mbind outcome_bind obind]; try (split; [reflexivity | done]).
  destruct (PyDict.contains "total_disciplines" analysis); cbn [negb];
    [|split; [reflexivity | done]].
  split; [reflexivity | by intros ? [= <-]].
Qed.

End Generic.

(** *** The sample inputs *)

Example empty_schedule_is_invalid :
  report_status (@validate_schedule Z []) = Some "INVÁLIDO"%string /\
  report_list "conflicts" (@validate_schedule Z []) = [PStr "Horário vazio"].
Proof. split; reflexivity. Qed.

Example generated_schedule_is_valid :
  report_status (validate_schedule Samples.weekly_sem1) = Some "VÁLIDO"%string /\
  report_list "conflicts" (validate_schedule Samples.weekly_sem1) = [].
Proof. split; reflexivity. Qed.

(** The weekly schedule of one discipline of 40 hours. *)
Lemma generated_schedule_allocates_nothing_witness :
  generate_weekly_schedule [Samples.criminologia_I] "sem1"
    = Ok Samples.weekly_sem1 /\
  report_list "assignments" Samples.weekly_sem1 = [] /\
  report_list "warnings" (validate_schedule Samples.weekly_sem1) = [] /\
  report_list "conflicts" (validate_schedule Samples.weekly_sem1) = [] /\
  forall d : AssignmentSpec.Discipline,
    AssignmentSpec.allocatedSessions (fun _ _ => true) d Samples.weekly_sem1 = 0 /\
    (AssignmentSpec.coverage_or_shortfall (fun _ _ => true) (fun _ _ => true) d
       Samples.weekly_sem1 (validate_schedule Samples.weekly_sem1) <->
     AssignmentSpec.requiredSessionCount d 100 = 0).
Proof.
  split; [reflexivity|].
  apply (generated_schedule_allocates_nothing (fun _ _ => true) (fun _ _ => true)
           [Samples.criminologia_I] "sem1" Samples.weekly_sem1).
  reflexivity.
Defined.

(** C1, as the design document has it, fails: a discipline of 40 hours
    needs 24 sessions of 100 minutes; the generated schedule gives it none
    and the validation report has no warning for it, however assignments
    and warnings are read. *)
Lemma stub_schedule_misses_coverage :
  generate_weekly_schedule [Samples.criminologia_I] "sem1"
    = Ok Samples.weekly_sem1 /\
  AssignmentSpec.requiredSessionCount Samples.criminologia_I 100 = 24 /\
  forall assigned_to shortfall_for : AssignmentSpec.Discipline -> pyval Z -> bool,
    ~ AssignmentSpec.coverage_or_shortfall assigned_to shortfall_for
        Samples.criminologia_I Samples.weekly_sem1
        (validate_schedule Samples.weekly_sem1).
Proof.
  split; [reflexivity|]. split; [reflexivity|].
  intros assigned_to shortfall_for [H|H]; vm_compute in H; discriminate.
Qed.

(** C3, as the design document has it, fails: the same files processed at
    two clock readings one second apart give different results. *)
Lemma runs_differ_in_timestamp :
  exists r1 r2 : PyDict.dict (pyval Z),
    Samples.process_sample "2026-03-02T19:00:00" = Ok r1 /\
    Samples.process_sample "2026-03-02T19:00:01" = Ok r2 /\
    PyDict.get "timestamp" r1 = Some (PStr "2026-03-02T19:00:00") /\
    PyDict.get "timestamp" r2 = Some (PStr "2026-03-02T19:00:01") /\
    r1 <> r2.
Proof.
  eexists _, _.
  split; [vm_compute; reflexivity|]. split; [vm_compute; reflexivity|].
  split; [reflexivity|]. split; [reflexivity|].
  intros H. apply (f_equal (PyDict.get "timestamp")) in H.
  vm_compute in H. discriminate.
Qed.

(** The sample file: the header goes, "Criminologia I" is loaded and the
    row with hour field "a definir" is left out. *)
Lemma load_disciplines_skips_silently_witness :
  (5 <= ncols Samples.distribution)%nat /\
  rows Samples.distribution <> [] /\
  exists loaded,
    load_disciplines Samples.int_of_string (Some Samples.distribution)
      = mk_load true (Some (mk_frame 5 loaded)) [] /\
    forall (i : nat) (cells' : list cell),
      In (i, cells') loaded <->
      exists cells,
        In (i, cells) (remove_header (rows (iloc_first5 Samples.distribution))) /\
        cells' = alter (to_numeric Samples.int_of_string) 4%nat
                   (alter (to_numeric Samples.int_of_string) 2%nat
                      (alter (to_numeric Samples.int_of_string) 1%nat cells)) /\
        isna (to_numeric Samples.int_of_string (cell_at 1 cells)) = false.
Proof.
  assert (H1 : (5 <= ncols Samples.distribution)%nat) by (cbn; lia).
  assert (H2 : rows Samples.distribution <> []) by discriminate.
  split; [exact H1|]. split; [exact H2|].
  exact (load_disciplines_skips_silently Samples.int_of_string
           Samples.distribution H1 H2).
Defined.

(** C6, as the design document has it, fails: the row with the hour field
    "a definir" is dropped, the row before it is loaded, and nothing is
    printed or recorded, so no warning names the dropped row. *)
Lemma non_numeric_row_skipped_without_warning :
  Samples.load_sample =
    mk_load true
      (Some (mk_frame 5
               [(0%nat, [CText "Criminologia I"; CNumber 40; CNumber 24;
                         CText "CRI1"; CNumber 40])]))
      [] /\
  ~ exists (line : string) (i : nat),
      In line (printed Samples.load_sample) /\ Props.mentions_row i line.
Proof.
  split; [reflexivity|]. intros (line & i & Hin & _). exact Hin.
Qed.

End ScheduleManagerFacts.

(** ** More on dictionaries and on the keys of dates *)

Module KeyFacts.

Import PyDate.

Section Dict.
Context {V : Type}.
Implicit Types (k : string) (v : V) (d : PyDict.dict V).

Lemma get_in k v d : PyDict.get k d = Some v -> In (k, v) d.
Proof.
  induction d as [|[k' v'] d IH]; simpl; [done|].
  destruct (String.eqb_spec k k') as [->|Hne].
  - intros [= ->]. by left.
  - intros H. right. by apply IH.
Qed.

(** Writing under a key the dictionary does not have appends the pair. *)
Lemma set_fresh k v d :
  PyDict.contains k d = false -> PyDict.set k v d = d ++ [(k, v)].
Proof.
  unfold PyDict.contains. induction d as [|[k' v'] d IH]; simpl; [done|].
  destruct (String.eqb k k') eqn:E; [done|].
  intros H. by rewrite IH.
Qed.

Lemma contains_app k d1 d2 :
  PyDict.contains k (d1 ++ d2) = PyDict.contains k d1 || PyDict.contains k d2.
Proof.
  unfold PyDict.contains. induction d1 as [|[k' v'] d1 IH]; simpl; [done|].
  by destruct (String.eqb k k').
Qed.

Lemma contains_keys k d :
  PyDict.contains k d = true <-> In k (map fst d).
Proof.
  unfold PyDict.contains. induction d as [|[k' v'] d IH]; simpl; [done|].
  destruct (String.eqb_spec k k') as [->|Hne]; [tauto|].
  rewrite IH. split; [tauto|]. intros [?|?]; [congruence | done].
Qed.

(** A run of writes under distinct new keys appends the pairs in order. *)
Lemma fold_set_fresh {A : Type} (key : A -> string) (val : A -> V) (l : list A) :
  forall d,
    NoDup (map key l) ->
    (forall x, In x l -> PyDict.contains (key x) d = false) ->
    fold_left (fun c x => PyDict.set (key x) (val x) c) l d
      = d ++ map (fun x => (key x, val x)) l.
Proof.
  induction l as [|x l IH]; intros d Hnd Hfresh; simpl.
  - by rewrite app_nil_r.
  - apply NoDup_cons in Hnd as [Hx Hnd].
    rewrite set_fresh by (apply Hfresh; by left).
    rewrite IH; [by rewrite <- app_assoc | done |].
    intros y Hy. rewrite contains_app. rewrite Hfresh by (by right). simpl.
    unfold PyDict.contains. simpl.
    destruct (String.eqb_spec (key y) (key x)) as [E|E]; [|done].
    exfalso. apply Hx. rewrite <- E. apply list_elem_of_In, in_map.
    exact Hy.
Qed.

End Dict.

Lemma digit_inj (a b : Z) :
  0 <= a <= 9 -> 0 <= b <= 9 -> digit a = digit b -> a = b.
Proof.
  intros Ha Hb H. unfold digit in H.
  apply (f_equal N_of_ascii) in H.
  rewrite !N_ascii_embedding in H by lia. lia.
Qed.

Lemma pad2_inj (a b : Z) :
  0 <= a <= 99 -> 0 <= b <= 99 -> pad2 a = pad2 b -> a = b.
Proof.
  intros Ha Hb H. unfold pad2 in H. injection H as H1 H2.
  pose proof (Z.mod_pos_bound (a / 10) 10 eq_refl).
  pose proof (Z.mod_pos_bound (b / 10) 10 eq_refl).
  pose proof (Z.mod_pos_bound a 10 eq_refl).
  pose proof (Z.mod_pos_bound b 10 eq_refl).
  apply digit_inj in H1; [|lia..]. apply digit_inj in H2; [|lia..].
  assert (Hda : 0 <= a / 10 < 10)
    by (split; [apply Z.div_pos; lia | apply Z.div_lt_upper_bound; lia]).
  assert (Hdb : 0 <= b / 10 < 10)
    by (split; [apply Z.div_pos; lia | apply Z.div_lt_upper_bound; lia]).
  rewrite !Z.mod_small in H1 by done.
  rewrite (Z.div_mod a 10), (Z.div_mod b 10) by done. by rewrite H1, H2.
Qed.

(** Within one year the key ['%d/%m/%Y'] tells the day and the month. *)
Lemma strftime_dmY_inj (a b : date) :
  0 <= day a <= 99 -> 0 <= month a <= 99 ->
  0 <= day b <= 99 -> 0 <= month b <= 99 ->
  strftime_dmY a = strftime_dmY b ->
  day a = day b /\ month a = month b.
Proof.
  intros Hda Hma Hdb Hmb H. unfold strftime_dmY, strftime_dm in H.
  assert (Hd : pad2 (day a) = pad2 (day b) /\ pad2 (month a) = pad2 (month b)).
  { unfold pad2 in H |- *. cbn [String.append] in H.
    injection H as E1 E2 E3 E4 _. split; congruence. }
  destruct Hd as [Hd Hm]. split; by apply pad2_inj.
Qed.

(** The keys of the two tables and the key of a date agree. *)
Lemma format_02d_pad2 (z : Z) :
  0 <= z <= 99 -> HolidayLoader.format_02d z = pad2 z.
Proof.
  intros Hz.
  assert (Hall : forallb (fun x => String.eqb (HolidayLoader.format_02d x) (pad2 x))
                   (seqZ 0 100) = true) by (vm_compute; reflexivity).
  rewrite forallb_forall in Hall.
  apply String.eqb_eq, Hall. apply list_elem_of_In, elem_of_seqZ. lia.
Qed.

End KeyFacts.

(** ** The calendar lists every day of its year *)

Module YearDaysFacts.

Import PyDate.
Import YearDays.

Lemma days_from_next_day (y m d : Z) :
  d < days_in_month y m ->
  days_from y m d = mkdate y m d :: days_from y m (d + 1).
Proof.
  intros Hd. unfold days_from. rewrite seqZ_cons by lia. cbn [fmap list_fmap].
  by replace (Z.pred (days_in_month y m - d + 1))
    with (days_in_month y m - (d + 1) + 1) by lia.
Qed.

Lemma days_from_next_month (y m : Z) :
  m < 12 ->
  days_from y m (days_in_month y m)
    = mkdate y m (days_in_month y m) :: days_from y (m + 1) 1.
Proof.
  intros Hm. unfold days_from.
  replace (days_in_month y m - days_in_month y m + 1) with 1 by lia.
  rewrite (seqZ_cons (m + 1)) by lia.
  replace (days_in_month y (m + 1) - 1 + 1) with (days_in_month y (m + 1)) by lia.
  replace (Z.pred (12 - m)) with (12 - (m + 1)) by lia.
  reflexivity.
Qed.

Lemma days_from_last_day (y : Z) : days_from y 12 31 = [mkdate y 12 31].
Proof. reflexivity. Qed.

(** The loop of [generate_calendar] writes one pair per remaining day. *)
Lemma calendar_loop_writes (hm : HolidayManager.t) (y : Z) :
  y < MAXYEAR ->
  forall (fuel : nat) (cur : date) (acc : PyDict.dict CalendarWithHolidays.entry),
    year cur = y -> 1 <= month cur <= 12 ->
    1 <= day cur <= days_in_month y (month cur) ->
    368 - day_of_year cur <= Z.of_nat fuel ->
    CalendarWithHolidays.calendar_loop fuel hm cur (mkdate y 12 31) acc
      = Ok (fold_left
              (fun c d => PyDict.set (strftime_dmY d)
                            (CalendarWithHolidays.make_entry hm d) c)
              (days_from y (month cur) (day cur)) acc).
Proof.
  intros Hmax.
  induction fuel as [|fuel IH]; intros cur acc Hy Hm Hd Hfuel.
  { exfalso. pose proof (PyDateFacts.month_end_le y (month cur) Hm).
    unfold day_of_year in Hfuel. rewrite Hy in Hfuel. lia. }
  assert (Hdoy : day_of_year cur <= 366).
  { pose proof (PyDateFacts.month_end_le y (month cur) Hm).
    unfold day_of_year. rewrite Hy. lia. }
  pose proof (PyDateFacts.days_in_month_bounds y (month cur)) as Hdim.
  cbn [CalendarWithHolidays.calendar_loop].
  assert (Hle : leb cur (mkdate y 12 31) = true).
  { unfold leb. apply negb_true_iff. apply not_true_is_false.
    rewrite PyDateFacts.ltb_lt. unfold lt. simpl. lia. }
  assert (Hcur : cur = mkdate y (month cur) (day cur)).
  { destruct cur. simpl in *. by subst. }
  rewrite Hle. unfold add_day. rewrite Hy.
  destruct (day cur <? days_in_month y (month cur)) eqn:E1.
  - apply Z.ltb_lt in E1. cbn [mbind outcome_bind obind].
    rewrite IH; cbn [year month day]; try lia.
    + rewrite (days_from_next_day y (month cur) (day cur)) by done.
      cbn [fold_left]. by rewrite <- Hcur.
    + unfold day_of_year in *. cbn [year month day]. rewrite Hy in Hfuel. lia.
  - apply Z.ltb_ge in E1.
    assert (Hday : day cur = days_in_month y (month cur)) by lia.
    destruct (month cur <? 12) eqn:E2.
    + apply Z.ltb_lt in E2. cbn [mbind outcome_bind obind].
      pose proof (PyDateFacts.days_in_month_bounds y (month cur + 1)).
      rewrite IH; cbn [year month day]; try lia.
      * rewrite (f_equal (days_from y (month cur)) Hday).
        rewrite days_from_next_month by done.
        cbn [fold_left]. rewrite <- Hday. by rewrite <- Hcur.
      * unfold day_of_year in *. cbn [year month day].
        rewrite PyDateFacts.days_before_month_succ by lia.
        rewrite Hy in Hfuel. lia.
    + apply Z.ltb_ge in E2.
      assert (Hm12 : month cur = 12) by lia.
      assert (Hd31 : day cur = 31) by (rewrite Hday, Hm12; reflexivity).
      apply Z.ltb_lt in Hmax. rewrite Hmax. cbn [mbind outcome_bind obind].
      destruct fuel as [|fuel]; [lia|].
      cbn [CalendarWithHolidays.calendar_loop].
      assert (Hgt : leb (mkdate (y + 1) 1 1) (mkdate y 12 31) = false).
      { unfold leb. apply negb_false_iff.
        apply PyDateFacts.ltb_lt. unfold lt. simpl. lia. }
      rewrite Hgt, Hm12, Hd31, days_from_last_day. cbn [fold_left].
      rewrite Hcur, Hm12, Hd31. reflexivity.
Qed.

(** The days listed from a date on are in the same year, within the
    bounds of a date, and each is later than the one before. *)
Lemma days_from_sorted (y : Z) :
  forall (n : nat) (m d : Z),
    1 <= m <= 12 -> 1 <= d <= days_in_month y m ->
    367 - day_of_year (mkdate y m d) <= Z.of_nat n ->
    StronglySorted lt (days_from y m d) /\
    Forall (fun d' => year d' = y /\ 1 <= month d' <= 12 /\ 1 <= day d' <= 31 /\
                      (d' = mkdate y m d \/ lt (mkdate y m d) d'))
           (days_from y m d).
Proof.
  assert (Hstep : forall (a b : date) (l : list date),
    year a = y -> 1 <= month a <= 12 -> 1 <= day a <= 31 -> lt a b ->
    StronglySorted lt l /\
    Forall (fun d' => year d' = y /\ 1 <= month d' <= 12 /\ 1 <= day d' <= 31 /\
                      (d' = b \/ lt b d')) l ->
    StronglySorted lt (a :: l) /\
    Forall (fun d' => year d' = y /\ 1 <= month d' <= 12 /\ 1 <= day d' <= 31 /\
                      (d' = a \/ lt a d')) (a :: l)).
  { intros a b l Ha Hma Hda Hab [Hs Hf]. split.
    - constructor; [done|]. eapply Forall_impl; [exact Hf|].
      intros d' (_ & _ & _ & [->|Hlt]); [done|]. by eapply PyDateFacts.lt_trans.
    - constructor; [split; [done|]; split; [done|]; split; [done|]; by left|].
      eapply Forall_impl; [exact Hf|].
      intros d' (? & ? & ? & Hd'). split; [done|]. split; [done|].
      split; [done|]. right. destruct Hd' as [->|Hlt]; [done|].
      by eapply PyDateFacts.lt_trans. }
  induction n as [|n IH]; intros m d Hm Hd Hn.
  { exfalso. pose proof (PyDateFacts.month_end_le y m Hm).
    unfold day_of_year in Hn. cbn [year month day] in Hn. lia. }
  pose proof (PyDateFacts.days_in_month_bounds y m) as Hdim.
  destruct (Z.ltb_spec d (days_in_month y m)) as [E1|E1].
  - rewrite days_from_next_day by done.
    apply (Hstep _ (mkdate y m (d + 1))); cbn [year month day]; try lia.
    + unfold lt. cbn [year month day]. lia.
    + apply IH; try lia. unfold day_of_year in *. cbn [year month day] in *. lia.
  - assert (Hday : d = days_in_month y m) by lia. subst d.
    destruct (Z.ltb_spec m 12) as [E2|E2].
    + rewrite days_from_next_month by done.
      pose proof (PyDateFacts.days_in_month_bounds y (m + 1)).
      apply (Hstep _ (mkdate y (m + 1) 1)); cbn [year month day]; try lia.
      * unfold lt. cbn [year month day]. lia.
      * apply IH; try lia. unfold day_of_year in *. cbn [year month day] in *.
        rewrite PyDateFacts.days_before_month_succ by lia. lia.
    + assert (m = 12) by lia. subst m.
      change (days_in_month y 12) with 31. rewrite days_from_last_day.
      split; [repeat constructor|].
      constructor; [|constructor]. cbn [year month day].
      repeat split; try lia. by left.
Qed.

Lemma year_days_sorted (y : Z) :
  StronglySorted lt (year_days y) /\
  Forall (fun d' => year d' = y /\ 1 <= month d' <= 12 /\ 1 <= day d' <= 31)
         (year_days y).
Proof.
  destruct (days_from_sorted y 366 1 1) as [Hs Hf]; try lia.
  { pose proof (PyDateFacts.days_in_month_bounds y 1). lia. }
  { vm_compute. discriminate. }
  split; [exact Hs|]. eapply Forall_impl; [exact Hf|].
  intros d' (? & ? & ? & _). auto.
Qed.

(** No two days of a year have the same key. *)
Lemma year_days_keys_NoDup (y : Z) : NoDup (map strftime_dmY (year_days y)).
Proof.
  destruct (year_days_sorted y) as [Hs Hf].
  apply (NoDup_fmap_2_strong strftime_dmY).
  - rewrite Forall_forall in Hf.
    intros a b Ha Hb Hkey.
    destruct (Hf a Ha) as (Hya & ? & ?). destruct (Hf b Hb) as (Hyb & ? & ?).
    apply KeyFacts.strftime_dmY_inj in Hkey as [Hd Hm]; try lia.
    destruct a, b. simpl in *. by subst.
  - clear Hf. induction Hs as [|a l Hs IH Ha]; constructor; [|done].
    intros Hin. rewrite Forall_forall in Ha.
    by apply (PyDateFacts.lt_irrefl a), Ha.
Qed.

Lemma length_year_days (y : Z) :
  length (year_days y) = Z.to_nat (days_in_year y).
Proof.
  unfold year_days, days_from, days_in_year.
  change (seqZ (1 + 1) (12 - 1)) with [2; 3; 4; 5; 6; 7; 8; 9; 10; 11; 12].
  cbn [fmap list_fmap mjoin list_join].
  rewrite !length_app, !length_fmap, !length_seqZ. cbn [length].
  unfold days_in_month. cbn [Z.eqb Pos.eqb orb]. destruct (is_leap y); lia.
Qed.

End YearDaysFacts.

(** ** Further properties of the calendar with holidays *)

Module CalendarExtras.

Import PyDate.
Import CalendarWithHolidays.

Lemma Ok_inj {A : Type} (a b : A) : Ok a = Ok b -> a = b.
Proof. by intros [= ->]. Qed.

(** The value of a calendar that [generate_calendar] returns, for a year
    of four digits. *)
Lemma generate_calendar_value (self self' : t) :
  1000 <= CalendarWithHolidays.year self ->
  generate_calendar self = Ok self' ->
  calendar self' =
    map (fun d => (strftime_dmY d, make_entry (holiday_manager self) d))
        (YearDays.year_days (CalendarWithHolidays.year self)).
Proof.
  intros _ Hgen. pose proof Hgen as Hgen0.
  pose proof (CalendarFacts.generate_calendar_outcome self) as Hout.
  unfold generate_calendar in Hgen.
  rewrite CalendarFacts.make_first_day, CalendarFacts.make_last_day in Hgen.
  set (y := CalendarWithHolidays.year self) in *.
  destruct ((MINYEAR <=? y) && (y <=? MAXYEAR)) eqn:Hrange;
    cbn [mbind outcome_bind obind] in Hgen; [|done].
  destruct (Z.ltb_spec y MAXYEAR) as [Hmax|Hmax].
  2: { assert (E : (y <? MAXYEAR) = false) by (apply Z.ltb_ge; lia).
       try rewrite Hrange in Hout. try rewrite E in Hout. congruence. }
  rewrite (YearDaysFacts.calendar_loop_writes (holiday_manager self) y Hmax)
    in Hgen.
  - change (month (mkdate y 1 1)) with 1 in Hgen.
    change (day (mkdate y 1 1)) with 1 in Hgen.
    fold (YearDays.year_days y) in Hgen.
    cbn [mbind outcome_bind obind] in Hgen.
    apply Ok_inj in Hgen. subst self'. cbn [calendar].
    rewrite (KeyFacts.fold_set_fresh strftime_dmY
               (make_entry (holiday_manager self)));
      [|apply YearDaysFacts.year_days_keys_NoDup | done].
    done.
  - done.
  - cbn [month]. lia.
  - cbn [day month]. pose proof (PyDateFacts.days_in_month_bounds y 1). lia.
  - vm_compute. discriminate.
Qed.

(** X1. For a year from 1000 on, a calendar that [generate_calendar]
    returns has exactly one entry per day of its year, in order: the pairs
    of the ['%d/%m/%Y'] key of the day and the entry built for it.  It has
    366 entries in a leap year and 365 otherwise, and no key occurs
    twice. *)
Theorem generate_calendar_lists_every_day (self self' : t) :
  1000 <= CalendarWithHolidays.year self ->
  generate_calendar self = Ok self' ->
  calendar self' =
    map (fun d => (strftime_dmY d, make_entry (holiday_manager self) d))
        (YearDays.year_days (CalendarWithHolidays.year self)) /\
  Z.of_nat (length (calendar self'))
    = YearDays.days_in_year (CalendarWithHolidays.year self) /\
  NoDup (map fst (calendar self')).
Proof.
  intros Hyear Hgen.
  pose proof (generate_calendar_value self self' Hyear Hgen) as Hcal.
  split; [exact Hcal|]. rewrite Hcal. split.
  - rewrite length_map, YearDaysFacts.length_year_days.
    unfold YearDays.days_in_year.
    destruct (is_leap (CalendarWithHolidays.year self)); lia.
  - rewrite map_map. cbn [fst]. apply YearDaysFacts.year_days_keys_NoDup.
Qed.

Lemma generate_calendar_lists_every_day_witness :
  1000 <= CalendarWithHolidays.year
            (init 2026 HolidayManager._load_default_holidays) /\
  generate_calendar (init 2026 HolidayManager._load_default_holidays)
    = Ok Samples.calendar_2026 /\
  calendar Samples.calendar_2026 =
    map (fun d => (strftime_dmY d,
                   make_entry HolidayManager._load_default_holidays d))
        (YearDays.year_days 2026) /\
  Z.of_nat (length (calendar Samples.calendar_2026)) = YearDays.days_in_year 2026 /\
  NoDup (map fst (calendar Samples.calendar_2026)).
Proof.
  assert (Hyear : 1000 <= CalendarWithHolidays.year
                            (init 2026 HolidayManager._load_default_holidays))
    by (cbn [CalendarWithHolidays.year init]; lia).
  split; [exact Hyear|].
  split; [exact CalendarFacts.generate_calendar_default_2026|].
  exact (generate_calendar_lists_every_day
           (init 2026 HolidayManager._load_default_holidays)
           Samples.calendar_2026 Hyear
           CalendarFacts.generate_calendar_default_2026).
Defined.

Lemma filter_partition {A : Type} (f : A -> bool) (l : list A) :
  List.filter f l ++ List.filter (fun x => negb (f x)) l ≡ₚ l.
Proof.
  induction l as [|x l IH]; [done|]. cbn [List.filter].
  destruct (f x); cbn [negb app].
  - by constructor.
  - rewrite <- Permutation_middle. by constructor.
Qed.

(** The non-working days are the days that are not working days. *)
Lemma non_working_days_filter (self : t) :
  get_non_working_days self =
  map fst
    (List.filter
       (fun x =>
          negb ((fun '(_, entry) =>
                   negb (is_holiday entry) && negb (is_optional_holiday entry) &&
                   negb (is_weekend_name (day_of_week entry))) x))
       (calendar self)).
Proof.
  unfold get_non_working_days. f_equal. apply filter_ext.
  intros [k entry].
  by destruct (is_holiday entry), (is_optional_holiday entry),
       (is_weekend_name (day_of_week entry)).
Qed.

(** X2. The working days and the non-working days split the calendar:
    every entry is in exactly one of the two lists, so together they are a
    rearrangement of the keys of the calendar. *)
Theorem working_days_partition (self : t) (start_date end_date : string) :
  get_working_days self start_date end_date ++ get_non_working_days self
    ≡ₚ map fst (calendar self).
Proof.
  rewrite non_working_days_filter. unfold get_working_days.
  rewrite <- map_app. apply (Permutation_map fst), filter_partition.
Qed.

(** X3. [main] reports [366 - len(non_working)] as the working days of
    2026, a year of 365 days: whatever the holiday tables, the figure is
    one more than the number of days [get_working_days] returns. *)
Theorem main_overcounts_working_days (hm : HolidayManager.t)
    (start_date end_date : string) :
  exists cal,
    generate_calendar (init 2026 hm) = Ok cal /\
    HolidayLoader.main_totals hm
      = Ok (Z.of_nat (length (get_non_working_days cal)),
            Z.of_nat (length (get_working_days cal start_date end_date)) + 1).
Proof.
  pose proof (CalendarFacts.generate_calendar_outcome (init 2026 hm)) as Hout.
  cbn [CalendarWithHolidays.year init] in Hout.
  change ((MINYEAR <=? 2026) && (2026 <=? MAXYEAR)) with true in Hout.
  change (2026 <? MAXYEAR) with true in Hout. cbv iota in Hout.
  destruct Hout as (cal & Hcal & _). exists cal. split; [exact Hcal|].
  unfold HolidayLoader.main_totals. rewrite Hcal.
  cbn [mbind outcome_bind obind]. do 2 f_equal.
  assert (Hyear : 1000 <= CalendarWithHolidays.year (init 2026 hm))
    by (cbn [CalendarWithHolidays.year init]; lia).
  pose proof (f_equal (@length _) (generate_calendar_value _ _ Hyear Hcal))
    as Hlen.
  rewrite length_map, YearDaysFacts.length_year_days in Hlen.
  cbn [CalendarWithHolidays.year init] in Hlen.
  change (Z.to_nat (YearDays.days_in_year 2026)) with 365%nat in Hlen.
  pose proof (Permutation_length
                (filter_partition
                   (fun '(_, entry) =>
                      negb (is_holiday entry) && negb (is_optional_holiday entry) &&
                      negb (is_weekend_name (day_of_week entry)))
                   (calendar cal))) as Hperm.
  rewrite length_app in Hperm.
  rewrite non_working_days_filter. unfold get_working_days.
  rewrite !length_map. lia.
Qed.

End CalendarExtras.

(** ** Further properties of the holiday manager *)

Module HolidayExtras.

Import PyDate.

(** X4. [get_holiday_name] agrees with the two classifications: it returns
    [None] exactly for a date that is neither a holiday nor an optional
    holiday; for a holiday it returns the name in the mandatory table, also
    when the date is in the optional table too; for an optional holiday
    that is not mandatory it returns the optional name with the prefix
    "[FACULTATIVO] ". *)
Theorem holiday_name_follows_classification (self : HolidayManager.t) (d : date) :
  (HolidayManager.get_holiday_name self d = None <->
   HolidayManager.is_holiday self d = false /\
   HolidayManager.is_optional_holiday self d = false) /\
  (HolidayManager.is_holiday self d = true ->
   HolidayManager.get_holiday_name self d
     = PyDict.get (strftime_dm d) (HolidayManager.holidays self)) /\
  (HolidayManager.is_holiday self d = false ->
   HolidayManager.is_optional_holiday self d = true ->
   exists name,
     PyDict.get (strftime_dm d) (HolidayManager.optional_holidays self)
       = Some name /\
     HolidayManager.get_holiday_name self d
       = Some ("[FACULTATIVO] " +:+ name)%string).
Proof.
  unfold HolidayManager.get_holiday_name, HolidayManager.is_holiday,
    HolidayManager.is_optional_holiday, PyDict.contains.
  cbv zeta.
  destruct (PyDict.get (strftime_dm d) (HolidayManager.holidays self)) as [n|];
    destruct (PyDict.get (strftime_dm d) (HolidayManager.optional_holidays self))
      as [o|];
    (split; [|split]); try done; try (split; [done | by intros [? ?]]).
  intros _ _. by exists o.
Qed.

Section Mark.
Context {num : Type}.
Implicit Types (σ : gmap nat (PyDict.dict (pyval num))).
Implicit Types (d : PyDict.dict (pyval num)).

(** The lookups of the copy after the loop over one table. *)
Lemma mark_fold_get kind marked (table : PyDict.dict string) :
  forall σ d,
    σ !! marked = Some d ->
    exists d',
      fold_left (HolidayManager.mark_step kind marked) table σ !! marked = Some d' /\
      (forall l : nat, l <> marked ->
         fold_left (HolidayManager.mark_step kind marked) table σ !! l = σ !! l) /\
      (forall k, PyDict.get k d' =
                 match PyDict.get k d with
                 | Some v => Some v
                 | None => HolidayManager.holiday_entry kind <$> PyDict.get k table
                 end) /\
      ((forall k, PyDict.contains k table = true -> PyDict.contains k d = true) ->
       fold_left (HolidayManager.mark_step kind marked) table σ = σ).
Proof.
  induction table as [|[k0 name] table IH]; intros σ d Hd; cbn [fold_left].
  - exists d. repeat split; auto. intros k. by destruct (PyDict.get k d).
  - assert (Hstep : exists d1,
      HolidayManager.mark_step kind marked σ (k0, name) !! marked = Some d1 /\
      (forall k, PyDict.get k d1 =
                 match PyDict.get k d with
                 | Some v => Some v
                 | None => if String.eqb k k0
                           then Some (HolidayManager.holiday_entry kind name)
                           else None
                 end) /\
      (PyDict.contains k0 d = true ->
       HolidayManager.mark_step kind marked σ (k0, name) = σ)).
    { unfold HolidayManager.mark_step. rewrite Hd.
      destruct (PyDict.contains k0 d) eqn:Hc.
      - exists d. split; [done|]. split; [|done]. intros k.
        destruct (PyDict.get k d) eqn:Hk; [done|].
        destruct (String.eqb_spec k k0) as [->|]; [|done].
        apply PyDictFacts.contains_true in Hc as [v Hv]. congruence.
      - eexists. rewrite lookup_insert_eq. split; [reflexivity|].
        split; [|done]. intros k.
        destruct (String.eqb_spec k k0) as [->|Hne].
        + rewrite PyDictFacts.get_set_same.
          apply PyDictFacts.contains_false in Hc. by rewrite Hc.
        + rewrite PyDictFacts.get_set_other by congruence.
          by destruct (PyDict.get k d). }
    destruct Hstep as (d1 & Hd1 & Hget1 & Hsame1).
    destruct (IH _ _ Hd1) as (d' & Hd' & Hother & Hget & Hsame).
    exists d'. split; [exact Hd'|]. split; [|split].
    + intros l Hl. rewrite Hother by done.
      by apply HolidayManagerFacts.mark_step_other.
    + intros k. rewrite Hget, Hget1. cbn [PyDict.get].
      destruct (PyDict.get k d); [done|].
      by destruct (String.eqb k k0).
    + intros Hall.
      assert (Hk0 : PyDict.contains k0 d = true).
      { apply Hall. unfold PyDict.contains. cbn [PyDict.get].
        by rewrite String.eqb_refl. }
      rewrite (Hsame1 Hk0).
      destruct (IH σ d Hd) as (_ & _ & _ & _ & Hsat). apply Hsat.
      intros k Hk. apply Hall.
      by apply HolidayManagerFacts.contains_cons_r.
Qed.

(** X5. Marking is idempotent: marking the dictionary that
    [mark_holidays_in_calendar] returned gives a new dictionary with the
    same content, in the same order. *)
Theorem mark_holidays_twice (self : HolidayManager.t) σ (calendar_dict : nat) d :
  σ !! calendar_dict = Some d ->
  exists σ1 (marked1 : nat) σ2 (marked2 : nat) d1,
    HolidayManager.mark_holidays_in_calendar self σ calendar_dict
      = Ok (σ1, marked1) /\
    HolidayManager.mark_holidays_in_calendar self σ1 marked1
      = Ok (σ2, marked2) /\
    σ1 !! marked1 = Some d1 /\
    σ2 !! marked2 = Some d1 /\
    marked2 <> marked1.
Proof.
  intros Hd.
  set (m1 := fresh (dom σ)).
  destruct (mark_fold_get "holiday" m1 (HolidayManager.holidays self)
              (<[m1:=d]> σ) d (lookup_insert_eq _ _ _))
    as (da & Hda & _ & Hgeta & _).
  destruct (mark_fold_get "optional_holiday" m1
              (HolidayManager.optional_holidays self) _ da Hda)
    as (d1 & Hd1 & _ & Hget1 & _).
  set (σ1 := fold_left _ (HolidayManager.optional_holidays self) _) in *.
  assert (H1 : HolidayManager.mark_holidays_in_calendar self σ calendar_dict
               = Ok (σ1, m1)).
  { unfold HolidayManager.mark_holidays_in_calendar. by rewrite Hd. }
  set (m2 := fresh (dom σ1)).
  assert (Hm2 : σ1 !! m2 = None) by (apply not_elem_of_dom, is_fresh).
  assert (Hne : m2 <> m1) by congruence.
  assert (Hhas : forall (table : PyDict.dict string) k,
            PyDict.contains k table = true ->
            (table = HolidayManager.holidays self \/
             table = HolidayManager.optional_holidays self) ->
            PyDict.contains k d1 = true).
  { intros table k Hk Htable. apply PyDictFacts.contains_true in Hk as [v Hv].
    apply PyDictFacts.contains_true. rewrite Hget1, Hgeta.
    destruct (PyDict.get k d); [eauto|]. destruct Htable as [-> | ->].
    - rewrite Hv. cbn. eauto.
    - destruct (PyDict.get k (HolidayManager.holidays self)); cbn; [eauto|].
      rewrite Hv. cbn. eauto. }
  assert (H2 : HolidayManager.mark_holidays_in_calendar self σ1 m1
               = Ok (<[m2:=d1]> σ1, m2)).
  { unfold HolidayManager.mark_holidays_in_calendar. rewrite Hd1. fold m2.
    destruct (mark_fold_get "holiday" m2 (HolidayManager.holidays self)
                (<[m2:=d1]> σ1) d1 (lookup_insert_eq _ _ _))
      as (_ & _ & _ & _ & Hsame_a).
    rewrite Hsame_a by (intros k Hk; apply (Hhas _ k Hk); by left).
    destruct (mark_fold_get "optional_holiday" m2
                (HolidayManager.optional_holidays self)
                (<[m2:=d1]> σ1) d1 (lookup_insert_eq _ _ _))
      as (_ & _ & _ & _ & Hsame_b).
    by rewrite Hsame_b by (intros k Hk; apply (Hhas _ k Hk); by right). }
  exists σ1, m1, (<[m2:=d1]> σ1), m2, d1.
  split; [exact H1|]. split; [exact H2|]. split; [exact Hd1|].
  split; [apply lookup_insert_eq | exact Hne].
Qed.

(** X6. What marking adds: a key the input does not have is added when it
    is in a holiday table, with the entry of type "holiday" and the
    mandatory name if the mandatory table has it, also when the optional
    table has it too, and otherwise with the entry of type
    "optional_holiday"; a key in neither table is not added. *)
Theorem mark_holidays_new_entries (self : HolidayManager.t) σ
    (calendar_dict : nat) d :
  σ !! calendar_dict = Some d ->
  exists σ' (marked_calendar : nat) d',
    HolidayManager.mark_holidays_in_calendar self σ calendar_dict
      = Ok (σ', marked_calendar) /\
    σ' !! marked_calendar = Some d' /\
    forall k, PyDict.get k d = None ->
      PyDict.get k d' =
        match PyDict.get k (HolidayManager.holidays self) with
        | Some name => Some (HolidayManager.holiday_entry "holiday" name)
        | None =>
            match PyDict.get k (HolidayManager.optional_holidays self) with
            | Some name =>
                Some (HolidayManager.holiday_entry "optional_holiday" name)
            | None => None
            end
        end.
Proof.
  intros Hd. unfold HolidayManager.mark_holidays_in_calendar. rewrite Hd.
  set (m1 := fresh (dom σ)).
  destruct (mark_fold_get "holiday" m1 (HolidayManager.holidays self)
              (<[m1:=d]> σ) d (lookup_insert_eq _ _ _))
    as (da & Hda & _ & Hgeta & _).
  destruct (mark_fold_get "optional_holiday" m1
              (HolidayManager.optional_holidays self) _ da Hda)
    as (d1 & Hd1 & _ & Hget1 & _).
  eexists _, m1, d1. split; [reflexivity|]. split; [exact Hd1|].
  intros k Hk. rewrite Hget1, Hgeta, Hk.
  destruct (PyDict.get k (HolidayManager.holidays self)); cbn; [done|].
  by destruct (PyDict.get k (HolidayManager.optional_holidays self)).
Qed.

End Mark.

Lemma mark_holidays_twice_witness :
  Samples.store0 !! 0%nat
    = Some [("01/01", PStr "aula inaugural"); ("10/03", PStr "prova")]%string /\
  exists σ1 (marked1 : nat) σ2 (marked2 : nat) d1,
    HolidayManager.mark_holidays_in_calendar Samples.overlapping_tables
      Samples.store0 0%nat = Ok (σ1, marked1) /\
    HolidayManager.mark_holidays_in_calendar Samples.overlapping_tables
      σ1 marked1 = Ok (σ2, marked2) /\
    σ1 !! marked1 = Some d1 /\
    σ2 !! marked2 = Some d1 /\
    marked2 <> marked1.
Proof.
  split; [reflexivity|].
  apply (mark_holidays_twice Samples.overlapping_tables Samples.store0 0%nat
           [("01/01", PStr "aula inaugural"); ("10/03", PStr "prova")]%string).
  reflexivity.
Defined.

Lemma mark_holidays_new_entries_witness :
  Samples.store0 !! 0%nat
    = Some [("01/01", PStr "aula inaugural"); ("10/03", PStr "prova")]%string /\
  exists σ' (marked_calendar : nat) d',
    HolidayManager.mark_holidays_in_calendar Samples.overlapping_tables
      Samples.store0 0%nat = Ok (σ', marked_calendar) /\
    σ' !! marked_calendar = Some d' /\
    forall k,
      PyDict.get k [("01/01", @PStr Z "aula inaugural"); ("10/03", PStr "prova")]%string
        = None ->
      PyDict.get k d' =
        match PyDict.get k (HolidayManager.holidays Samples.overlapping_tables) with
        | Some name => Some (HolidayManager.holiday_entry "holiday" name)
        | None =>
            match PyDict.get k
                    (HolidayManager.optional_holidays Samples.overlapping_tables) with
            | Some name =>
                Some (HolidayManager.holiday_entry "optional_holiday" name)
            | None => None
            end
        end.
Proof.
  split; [reflexivity|].
  apply (mark_holidays_new_entries Samples.overlapping_tables Samples.store0 0%nat).
  reflexivity.
Defined.

End HolidayExtras.

(** ** Loading the holiday tables *)

Module HolidayLoaderFacts.

Import PyDate.
Import HolidayLoader.

Lemma months_range (name : string) (m : Z) :
  PyDict.get name months = Some m -> 1 <= m <= 12.
Proof.
  unfold months. cbn [PyDict.get].
  repeat (case_match; [intros [= <-]; lia|]). done.
Qed.

Lemma contains_set_mono {V : Type} (k k' : string) (v : V) (d : PyDict.dict V) :
  PyDict.contains k d = true -> PyDict.contains k (PyDict.set k' v d) = true.
Proof.
  intros H. apply PyDictFacts.contains_true.
  destruct (String.eqb_spec k' k) as [->|Hne].
  - eexists. apply PyDictFacts.get_set_same.
  - rewrite PyDictFacts.get_set_other by done.
    by apply PyDictFacts.contains_true.
Qed.

Lemma contains_set_same {V : Type} (k : string) (v : V) (d : PyDict.dict V) :
  PyDict.contains k (PyDict.set k v d) = true.
Proof. apply PyDictFacts.contains_true. eexists. apply PyDictFacts.get_set_same. Qed.

Section Regex.
Variable match_date : string -> option (string * string).
Variable py_int : string -> option Z.
Variable lower : string -> string.
Variable strip : string -> string.
Variable search_description : string -> option string.

Let parse := _parse_holiday_line match_date py_int lower strip search_description.
Let load_line := HolidayLoader.load_line match_date py_int lower strip
                   search_description.

(** A line never removes a date from either table. *)
Lemma parse_line_keeps (self : HolidayManager.t) (line k : string) :
  (PyDict.contains k (HolidayManager.holidays self) = true ->
   PyDict.contains k (HolidayManager.holidays (parse self line)) = true) /\
  (PyDict.contains k (HolidayManager.optional_holidays self) = true ->
   PyDict.contains k (HolidayManager.optional_holidays (parse self line)) = true).
Proof.
  unfold parse, _parse_holiday_line.
  destruct (match_date line) as [[g1 g2]|]; [|done].
  destruct (py_int g1) as [n|]; [|done].
  destruct (PyDict.get (lower g2) months) as [m|]; [|done].
  destruct (is_substring _ _); cbn; split; auto using contains_set_mono.
Qed.

Lemma load_lines_keep (lines : list string) :
  forall (self : HolidayManager.t) (k : string),
    (PyDict.contains k (HolidayManager.holidays self) = true ->
     PyDict.contains k
       (HolidayManager.holidays (fold_left load_line lines self)) = true) /\
    (PyDict.contains k (HolidayManager.optional_holidays self) = true ->
     PyDict.contains k
       (HolidayManager.optional_holidays (fold_left load_line lines self)) = true).
Proof.
  induction lines as [|line lines IH]; intros self k; cbn [fold_left]; [done|].
  destruct (IH (load_line self line) k) as [IH1 IH2].
  assert (Hstep :
    (PyDict.contains k (HolidayManager.holidays self) = true ->
     PyDict.contains k (HolidayManager.holidays (load_line self line)) = true) /\
    (PyDict.contains k (HolidayManager.optional_holidays self) = true ->
     PyDict.contains k
       (HolidayManager.optional_holidays (load_line self line)) = true)).
  { unfold load_line, HolidayLoader.load_line.
    destruct (String.eqb (strip line) ""); [done|]. apply parse_line_keeps. }
  destruct Hstep. split; auto.
Qed.

(** The table a line goes to holds its date afterwards, under the key that
    [strftime('%d/%m')] gives for the same day and month. *)
Lemma parse_line_stores (self : HolidayManager.t) (line g1 g2 : string)
    (n m : Z) (d : date) :
  match_date line = Some (g1, g2) ->
  py_int g1 = Some n ->
  PyDict.get (lower g2) months = Some m ->
  0 <= n <= 99 -> day d = n -> month d = m ->
  if is_substring "ponto facultativo" (lower line)
  then HolidayManager.is_optional_holiday (parse self line) d = true
  else HolidayManager.is_holiday (parse self line) d = true.
Proof.
  intros Hmatch Hint Hmonth Hday Hd Hm.
  pose proof (months_range _ _ Hmonth).
  unfold parse, _parse_holiday_line. rewrite Hmatch, Hint, Hmonth.
  unfold HolidayManager.is_optional_holiday, HolidayManager.is_holiday,
    strftime_dm.
  rewrite Hd, Hm, <- !KeyFacts.format_02d_pad2 by lia.
  destruct (is_substring _ _); cbn; apply contains_set_same.
Qed.

(** X7. A holiday file is read back by the classification: for every
    non-blank line after the first whose text matches the date pattern
    with digits that [int] converts, without raising, to a day number up
    to 99 and with a month name of the table, the loaded manager
    classifies every date with that day and month as an optional holiday
    if the line says "ponto facultativo", and as a holiday otherwise,
    whatever the later lines hold. *)
Theorem loaded_line_is_recognised (file : string)
    (read_lines : string -> option (list string)) (lines : list string)
    (line g1 g2 : string) (n m : Z) (d : date) :
  file <> ""%string ->
  read_lines file = Some lines ->
  In line (skipn 1 lines) ->
  strip line <> ""%string ->
  match_date (strip line) = Some (g1, g2) ->
  py_int g1 = Some n ->
  PyDict.get (lower g2) months = Some m ->
  0 <= n <= 99 -> day d = n -> month d = m ->
  if is_substring "ponto facultativo" (lower (strip line))
  then HolidayManager.is_optional_holiday
         (load_holidays match_date py_int lower strip search_description
            (Some file) read_lines) d = true
  else HolidayManager.is_holiday
         (load_holidays match_date py_int lower strip search_description
            (Some file) read_lines) d = true.
Proof.
  intros Hfile Hread Hin Hstrip Hmatch Hint Hmonth Hday Hd Hm.
  unfold load_holidays. apply String.eqb_neq in Hfile. rewrite Hfile, Hread.
  fold load_line.
  generalize ({| HolidayManager.holidays := [];
                 HolidayManager.optional_holidays := [] |}) as self.
  induction (skipn 1 lines) as [|l ls IH]; [done|]. intros self.
  cbn [fold_left]. destruct Hin as [->|Hin]; [|by apply IH].
  pose proof (parse_line_stores self (strip line) g1 g2 n m d
                Hmatch Hint Hmonth Hday Hd Hm) as Hstored.
  assert (Hline : load_line self line = parse self (strip line)).
  { unfold load_line, HolidayLoader.load_line.
    apply String.eqb_neq in Hstrip. by rewrite Hstrip. }
  rewrite Hline.
  destruct (load_lines_keep ls (parse self (strip line))
              (strftime_dm d)) as [Hk1 Hk2].
  destruct (is_substring _ _); [by apply Hk2 | by apply Hk1].
Qed.

End Regex.

(** The sample file: Tiradentes is a holiday on 21 April of any year. *)
Lemma loaded_line_is_recognised_witness :
  "Lista_feriados_ponto_facultativo.txt"%string <> ""%string /\
  HolidaySamples.read_lines "Lista_feriados_ponto_facultativo.txt"
    = Some ["Lista de feriados de 2026"%string; HolidaySamples.tiradentes_line] /\
  HolidayManager.is_holiday
    (load_holidays HolidaySamples.match_date HolidaySamples.py_int id id
       HolidaySamples.search_description
       (Some "Lista_feriados_ponto_facultativo.txt"%string)
       HolidaySamples.read_lines)
    (mkdate 2027 4 21) = true.
Proof.
  split; [discriminate|]. split; [reflexivity|].
  exact (loaded_line_is_recognised HolidaySamples.match_date HolidaySamples.py_int
           id id HolidaySamples.search_description
           "Lista_feriados_ponto_facultativo.txt" HolidaySamples.read_lines
           ["Lista de feriados de 2026"%string; HolidaySamples.tiradentes_line]
           HolidaySamples.tiradentes_line "21" "abril" 21 4 (mkdate 2027 4 21)
           ltac:(discriminate) eq_refl (or_introl eq_refl) ltac:(discriminate)
           eq_refl eq_refl eq_refl ltac:(lia) eq_refl eq_refl).
Defined.

End HolidayLoaderFacts.

(** ** Versions of a schedule *)

Module VersionFacts.

Import VersionManager.

Section Values.
Context {num : Type}.

Abbreviation info := (@version_info num).

Lemma create_get_same (self : @VersionManager.t num) course year data notes now :
  let history :=
    default [] (PyDict.get (version_key course year) self) in
  PyDict.get (version_key course year)
    (fst (create_schedule_version self course year data notes now))
  = Some (history ++ [snd (create_schedule_version self course year data notes now)]).
Proof.
  unfold create_schedule_version. cbn [fst snd].
  rewrite PyDictFacts.get_set_same. unfold PyDict.contains.
  destruct (PyDict.get (version_key course year) self) eqn:E.
  - by rewrite E.
  - by rewrite PyDictFacts.get_set_same.
Qed.

Lemma create_get_other (self : @VersionManager.t num) course year data notes now k :
  k <> version_key course year ->
  PyDict.get k (fst (create_schedule_version self course year data notes now))
  = PyDict.get k self.
Proof.
  intros Hk. unfold create_schedule_version. cbn [fst snd].
  rewrite PyDictFacts.get_set_other by congruence.
  destruct (PyDict.contains _ self); [done|].
  by rewrite PyDictFacts.get_set_other by congruence.
Qed.

Lemma last_snoc {A : Type} (l : list A) (x d : A) : List.last (l ++ [x]) d = x.
Proof. apply List.last_last. Qed.

(** X8. Asking for the latest version after creating one returns the
    version just created whenever the two (course, year) pairs give the
    same text once joined by an underscore, even if the pairs differ;
    for any other pair the answer is what it was before. *)
Theorem latest_version_after_create (self : @VersionManager.t num)
    (course year : string) (data notes : pyval num) (now : string)
    (course' year' : string) :
  get_latest_version
    (fst (create_schedule_version self course year data notes now)) course' year'
  = if String.eqb (version_key course' year') (version_key course year)
    then Some (snd (create_schedule_version self course year data notes now))
    else get_latest_version self course' year'.
Proof.
  unfold get_latest_version.
  destruct (String.eqb_spec (version_key course' year') (version_key course year))
    as [->|Hne].
  - rewrite create_get_same.
    destruct (default [] _) as [|v history]; [done|].
    cbn [app]. f_equal. apply last_snoc.
  - by rewrite create_get_other.
Qed.

Lemma seqZ_snoc (m : Z) (n : nat) :
  seqZ m (Z.of_nat (S n)) = seqZ m (Z.of_nat n) ++ [m + Z.of_nat n].
Proof.
  replace (Z.of_nat (S n)) with (Z.of_nat n + 1) by lia.
  rewrite seqZ_app by lia. done.
Qed.

Lemma reachable_numbered (self : @VersionManager.t num) (key : string)
    (history : list info) :
  reachable self ->
  PyDict.get key self = Some history ->
  history <> [] /\
  version <$> history = seqZ 1 (Z.of_nat (length history)) /\
  Forall (fun v => version_key (course v) (year v) = key) history.
Proof.
  intros Hreach. revert key history.
  induction Hreach as [|self course0 year0 data0 notes0 now Hreach IH];
    intros key history Hget; [done|].
  destruct (String.eqb_spec key (version_key course0 year0)) as [->|Hne].
  - rewrite create_get_same in Hget. injection Hget as <-.
    split; [by destruct (default [] _)|].
    assert (Hold :
      version <$> default [] (PyDict.get (version_key course0 year0) self)
      = seqZ 1 (Z.of_nat (length (default []
                  (PyDict.get (version_key course0 year0) self)))) /\
      Forall (fun v => version_key (course v) (year v) = version_key course0 year0)
        (default [] (PyDict.get (version_key course0 year0) self))).
    { destruct (PyDict.get (version_key course0 year0) self) as [old|] eqn:E;
        [by apply (IH _ _ E) | done]. }
    destruct Hold as [Hold1 Hold2]. split.
    + rewrite fmap_app, length_app, Nat.add_1_r, seqZ_snoc. cbn [fmap list_fmap].
      rewrite Hold1. f_equal. f_equal.
      unfold create_schedule_version. cbn [snd version].
      unfold PyDict.contains.
      destruct (PyDict.get (version_key course0 year0) self) eqn:E; cbn [default].
      * rewrite E. cbn. lia.
      * rewrite PyDictFacts.get_set_same. cbn. lia.
    + apply Forall_app. split; [done|]. by constructor.
  - rewrite create_get_other in Hget by done. by apply IH.
Qed.

(** X9. However a manager was used since it was created, the history
    under each key is not empty, its versions are numbered 1, 2, 3, ...
    in the order of their creation, and each of them was created for a
    course and a year that join to that key. *)
Theorem versions_are_numbered (self : @VersionManager.t num) (key : string)
    (history : list info) :
  reachable self ->
  PyDict.get key self = Some history ->
  history <> [] /\
  forall (i : nat) (v : info),
    history !! i = Some v ->
    version v = Z.of_nat i + 1 /\ version_key (course v) (year v) = key.
Proof.
  intros Hreach Hget.
  destruct (reachable_numbered self key history Hreach Hget) as (Hne & Hnum & Hkey).
  split; [done|]. intros i v Hv. split.
  - assert (Hl : (version <$> history) !! i = Some (version v))
      by by rewrite list_lookup_fmap, Hv.
    rewrite Hnum in Hl. apply lookup_seqZ in Hl. lia.
  - rewrite Forall_lookup in Hkey. by apply (Hkey i).
Qed.

Lemma find_version_numbered (history : list info) (m v : Z) :
  version <$> history = seqZ m (Z.of_nat (length history)) ->
  find_version v history =
    if (m <=? v) && (v <? m + Z.of_nat (length history))
    then history !! Z.to_nat (v - m) else None.
Proof.
  revert m. induction history as [|a history IH]; intros m Hnum.
  - cbn. by destruct (_ && _).
  - cbn [length] in Hnum. rewrite Nat2Z.inj_succ, seqZ_cons in Hnum by lia.
    cbn [fmap list_fmap] in Hnum. injection Hnum as Ha Hrest.
    replace (Z.pred (Z.succ (Z.of_nat (length history))))
      with (Z.of_nat (length history)) in Hrest by lia.
    unfold find_version. cbn [List.find length]. rewrite Ha.
    destruct (Z.eqb_spec m v) as [->|Hne].
    + replace (v - v) with 0 by lia.
      destruct (Z.leb_spec v v); [|lia].
      by destruct (Z.ltb_spec v (v + Z.of_nat (S (length history)))); [|lia].
    + fold (find_version v history). rewrite (IH (Z.succ m) Hrest).
      destruct (Z.leb_spec (Z.succ m) v), (Z.leb_spec m v); try lia; cbn [andb];
        [|done].
      destruct (Z.ltb_spec v (Z.succ m + Z.of_nat (length history))),
               (Z.ltb_spec v (m + Z.of_nat (S (length history)))); try lia;
        [|done].
      replace (Z.to_nat (v - m)) with (S (Z.to_nat (v - Z.succ m))) by lia.
      done.
Qed.

(** X10. On a manager reached by creating versions, comparing two
    versions of a key that has a history succeeds exactly when both
    numbers lie between 1 and the number of versions; it then reports the
    creation times and notes of the versions at those positions, and
    otherwise it returns the error "Versão não encontrada". *)
Theorem compare_versions_in_range (self : @VersionManager.t num)
    (course year : string) (history : list info) (v1 v2 : Z) :
  reachable self ->
  PyDict.get (version_key course year) self = Some history ->
  if (1 <=? v1) && (v1 <=? Z.of_nat (length history)) &&
     (1 <=? v2) && (v2 <=? Z.of_nat (length history)) then
    exists ver1 ver2,
      history !! Z.to_nat (v1 - 1) = Some ver1 /\
      history !! Z.to_nat (v2 - 1) = Some ver2 /\
      version ver1 = v1 /\ version ver2 = v2 /\
      compare_versions self course year v1 v2 =
        [("course", PStr course);
         ("year", PStr year);
         ("version_1", PInt v1);
         ("version_2", PInt v2);
         ("created_at_v1", PStr (created_at ver1));
         ("created_at_v2", PStr (created_at ver2));
         ("notes_v1", notes ver1);
         ("notes_v2", notes ver2);
         ("comparison", PStr "Comparação de versões")]%string
  else
    compare_versions self course year v1 v2 =
      [("error", PStr "Versão não encontrada")]%string.
Proof.
  intros Hreach Hget. set (n := Z.of_nat (length history)).
  destruct (reachable_numbered self _ _ Hreach Hget) as (_ & Hnum & _).
  unfold compare_versions. rewrite Hget.
  rewrite !(find_version_numbered history 1 _ Hnum). fold n.
  assert (Hat : forall v, 1 <= v <= n ->
            exists ver, history !! Z.to_nat (v - 1) = Some ver /\ version ver = v).
  { intros v Hv.
    destruct (lookup_lt_is_Some_2 history (Z.to_nat (v - 1))) as [ver Hver]; [lia|].
    exists ver. split; [done|].
    assert (Hl : (version <$> history) !! Z.to_nat (v - 1) = Some (version ver))
      by by rewrite list_lookup_fmap, Hver.
    rewrite Hnum in Hl. apply lookup_seqZ in Hl. lia. }
  assert (Hin : forall v, ((1 <=? v) && (v <? 1 + n)) = ((1 <=? v) && (v <=? n))).
  { intros v. f_equal. destruct (Z.ltb_spec v (1 + n)), (Z.leb_spec v n); lia. }
  rewrite !Hin.
  destruct ((1 <=? v1) && (v1 <=? n)) eqn:C1; cbn [andb]; [|done].
  destruct ((1 <=? v2) && (v2 <=? n)) eqn:C2.
  - apply andb_true_iff in C1 as [C1a C1b], C2 as [C2a C2b].
    destruct (Hat v1) as (ver1 & Hv1 & E1); [lia|].
    destruct (Hat v2) as (ver2 & Hv2 & E2); [lia|].
    exists ver1, ver2. by rewrite Hv1, Hv2.
  - by destruct (history !! _).
Qed.

End Values.

Lemma two_versions_reachable : reachable ExtraSamples.two_versions.
Proof. unfold ExtraSamples.two_versions. repeat constructor. Qed.

Lemma versions_are_numbered_witness :
  reachable ExtraSamples.two_versions /\
  PyDict.get "criminologia_2026-2027" ExtraSamples.two_versions
    = Some ExtraSamples.two_history /\
  ExtraSamples.two_history <> [] /\
  forall (i : nat) (v : @version_info Z),
    ExtraSamples.two_history !! i = Some v ->
    version v = Z.of_nat i + 1 /\
    version_key (course v) (year v) = "criminologia_2026-2027"%string.
Proof.
  split; [exact two_versions_reachable|]. split; [reflexivity|].
  exact (versions_are_numbered ExtraSamples.two_versions
           "criminologia_2026-2027" ExtraSamples.two_history
           two_versions_reachable eq_refl).
Defined.

Lemma compare_versions_in_range_witness :
  reachable ExtraSamples.two_versions /\
  PyDict.get (version_key "criminologia" "2026-2027") ExtraSamples.two_versions
    = Some ExtraSamples.two_history /\
  compare_versions ExtraSamples.two_versions "criminologia" "2026-2027" 2 3
    = [("error", PStr "Versão não encontrada")]%string.
Proof.
  split; [exact two_versions_reachable|]. split; [reflexivity|].
  exact (compare_versions_in_range ExtraSamples.two_versions
           "criminologia" "2026-2027" ExtraSamples.two_history 2 3
           two_versions_reachable eq_refl).
Defined.

End VersionFacts.

(** ** The WhatsApp bot *)

Module WhatsAppFacts.

Import WhatsAppBot.

Lemma filter_once (phone : string) (phones : list string) :
  NoDup phones ->
  length (List.filter (fun p => String.eqb p phone) phones)
    = if bool_decide (phone ∈ phones) then 1%nat else 0%nat.
Proof.
  induction 1 as [|p phones Hp Hnd IH]; [done|].
  cbn [List.filter]. destruct (String.eqb_spec p phone) as [->|Hne].
  - cbn [length]. rewrite IH.
    rewrite (bool_decide_eq_false_2 (phone ∈ phones)) by done.
    by rewrite bool_decide_eq_true_2 by by left.
  - rewrite IH. apply (f_equal (fun b : bool => if b then 1%nat else 0%nat)).
    apply bool_decide_ext. rewrite elem_of_cons. split; [tauto|].
    intros [?|?]; [congruence|done].
Qed.

Lemma filter_to_length (phone : string) (new : list message_info) :
  length (List.filter (fun m => String.eqb (msg_to m) phone) new)
    = length (List.filter (fun p => String.eqb p phone) (msg_to <$> new)).
Proof.
  induction new as [|m new IH]; [done|].
  cbn [List.filter fmap list_fmap]. fold (msg_to <$> new).
  destruct (String.eqb (msg_to m) phone); cbn [length]; by rewrite IH.
Qed.

Section Clock.
Variable timestamp_at : nat -> string.
Variable isoformat_at : nat -> string.
Variable upper : string -> string.

(** What a round of sending leaves behind. *)
Lemma send_loop_spec (message : string) (message_type : MessageType)
    (phones : list string) :
  forall (self : WhatsAppBot.t) (results : list message_info),
  exists new : list message_info,
    send_loop timestamp_at isoformat_at self message message_type phones results
      = (mk (api_key self) (phone_number self) (message_queue self)
            (sent_messages self ++ new) (contacts self)
            (clock self + 2 * length phones)%nat,
         results ++ new) /\
    msg_to <$> new = phones /\
    Forall (fun m => msg_message m = message /\
                     msg_type m = value message_type /\
                     msg_status m = "sent"%string) new.
Proof using Type.
  induction phones as [|phone phones IH]; intros self results.
  - exists []. cbn [send_loop]. rewrite !app_nil_r, Nat.add_0_r.
    split; [by destruct self|]. by split.
  - cbn [send_loop send_message].
    match goal with
    | |- context [send_loop _ _ ?s _ _ _ ?r] => destruct (IH s r) as (new & -> & Hto & Hall)
    end.
    cbn [api_key phone_number message_queue sent_messages contacts clock].
    eexists (_ :: new). rewrite <- !app_assoc. cbn [app]. split.
    + f_equal. f_equal. cbn [length]. lia.
    + split; [by rewrite fmap_cons, Hto|]. by constructor.
Qed.

(** X12. A schedule update goes to the given recipients, whether they
    are contacts or not, one message each and in their order; when no
    list is given, and also when the list given is empty, it goes to
    every contact instead.  The messages are appended to the history and
    the contacts are left as they were. *)
Theorem schedule_update_recipients (self : WhatsAppBot.t) (course year : string)
    (recipients : option (list string)) :
  exists (self' : WhatsAppBot.t) (results : list message_info),
    send_schedule_update timestamp_at isoformat_at upper self course year
      recipients = (self', results) /\
    msg_to <$> results =
      match recipients with
      | Some (phone :: phones) => phone :: phones
      | Some [] | None => PyDict.keys (contacts self)
      end /\
    sent_messages self' = sent_messages self ++ results /\
    contacts self' = contacts self /\
    Forall (fun m => msg_message m = schedule_update_message upper course year /\
                     msg_type m = "schedule_update"%string) results.
Proof using Type.
  unfold send_schedule_update.
  destruct (send_loop_spec (schedule_update_message upper course year)
              SCHEDULE_UPDATE (phones_of self recipients) self [])
    as (new & -> & Hto & Hall).
  eexists _, _. split; [reflexivity|].
  cbn [app sent_messages contacts]. split.
  - rewrite Hto. unfold phones_of. by destruct recipients as [[|? ?]|].
  - split; [done|]. split; [done|].
    eapply Forall_impl; [exact Hall|]. by intros m (? & ? & _).
Qed.

(** X13. A broadcast adds to the history of a number exactly one
    message, with the text of the broadcast, if the number is a contact,
    and nothing if it is not. *)
Theorem broadcast_reaches_each_contact_once (self : WhatsAppBot.t)
    (message : string) (group_name : option string) (phone : string) :
  NoDup (PyDict.keys (contacts self)) ->
  phone <> ""%string ->
  exists new : list message_info,
    get_message_history
      (fst (send_broadcast timestamp_at isoformat_at self message group_name))
      (Some phone)
      = get_message_history self (Some phone) ++ new /\
    Forall (fun m => msg_to m = phone /\ msg_message m = message) new /\
    length new = if PyDict.contains phone (contacts self) then 1%nat else 0%nat.
Proof using Type.
  intros Hnd Hphone. unfold send_broadcast.
  destruct (send_loop_spec message GENERAL_INFO (PyDict.keys (contacts self))
              self []) as (new & -> & Hto & Hall).
  cbn [fst get_message_history sent_messages].
  apply String.eqb_neq in Hphone. rewrite Hphone.
  exists (List.filter (fun m => String.eqb (msg_to m) phone) new).
  split; [apply List.filter_app|]. split.
  - apply List.Forall_forall. intros m Hm. apply filter_In in Hm as [Hm Hp].
    apply String.eqb_eq in Hp. split; [done|].
    rewrite List.Forall_forall in Hall. by apply Hall.
  - rewrite filter_to_length, Hto, filter_once by done.
    destruct (PyDict.contains phone (contacts self)) eqn:E.
    + rewrite bool_decide_eq_true_2; [done|]. apply list_elem_of_In.
      by apply KeyFacts.contains_keys.
    + rewrite bool_decide_eq_false_2; [done|]. intros Hin.
      apply list_elem_of_In in Hin.
      apply KeyFacts.contains_keys in Hin. congruence.
Qed.

Lemma add_contact_contains (self : WhatsAppBot.t) (name phone : string)
    (role : option string) (k : string) :
  PyDict.contains k (contacts self) = true \/ k = phone ->
  PyDict.contains k
    (contacts (add_contact isoformat_at self name phone role)) = true.
Proof using Type.
  intros [H| ->]; cbn [add_contact contacts].
  - by apply HolidayLoaderFacts.contains_set_mono.
  - apply HolidayLoaderFacts.contains_set_same.
Qed.

Lemma add_group_loop_keeps (members : list (PyDict.dict string)) :
  forall (self : WhatsAppBot.t) (k : string),
    PyDict.contains k (contacts self) = true ->
    PyDict.contains k
      (contacts (fst (add_group_loop isoformat_at self members))) = true.
Proof using Type.
  induction members as [|member members IH]; intros self k Hk; [done|].
  cbn [add_group_loop].
  destruct (PyDict.get "name" member) as [name|]; [|done].
  destruct (PyDict.get "phone" member) as [phone|]; [|done].
  apply IH. apply add_contact_contains. by left.
Qed.

(** X14. A group is added member by member until the first member
    without a name or a phone: [add_group] then returns False, the
    members before it stay in the contacts, and the members after it are
    never looked at. *)
Theorem add_group_keeps_partial_work (self : WhatsAppBot.t) (group_name : string)
    (good : list (PyDict.dict string)) (bad : PyDict.dict string)
    (rest : list (PyDict.dict string)) :
  Forall (fun member => is_Some (PyDict.get "name" member) /\
                        is_Some (PyDict.get "phone" member)) good ->
  PyDict.get "name" bad = None \/ PyDict.get "phone" bad = None ->
  add_group isoformat_at self group_name (good ++ bad :: rest)
    = (fst (add_group isoformat_at self group_name good), false) /\
  snd (add_group isoformat_at self group_name good) = true /\
  forall (member : PyDict.dict string) (phone : string),
    In member good -> PyDict.get "phone" member = Some phone ->
    PyDict.contains phone
      (contacts (fst (add_group isoformat_at self group_name
                        (good ++ bad :: rest)))) = true.
Proof using Type.
  intros Hgood Hbad. unfold add_group. revert self.
  induction Hgood as [|member good [[name Hname] [phone Hphone]] Hgood IH];
    intros self.
  - cbn [app add_group_loop fst snd]. split; [|by split].
    destruct Hbad as [-> | ->]; [done|]. by destruct (PyDict.get "name" bad).
  - cbn [app add_group_loop]. rewrite Hname, Hphone.
    destruct (IH (add_contact isoformat_at self name phone
                    (Some "group_member"%string))) as (IH1 & IH2 & IH3).
    split; [done|]. split; [done|].
    intros member' phone' [<-|Hin] Hget.
    + rewrite Hphone in Hget. injection Hget as <-.
      apply add_group_loop_keeps, add_contact_contains. by right.
    + by apply (IH3 member').
Qed.

End Clock.

Lemma broadcast_reaches_each_contact_once_witness :
  NoDup (PyDict.keys (contacts ExtraSamples.bot2)) /\
  "+55 31 99999-0003"%string <> ""%string /\
  exists new : list message_info,
    get_message_history
      (fst (send_broadcast ExtraSamples.timestamp_at ExtraSamples.isoformat_at
              ExtraSamples.bot2 "Aula inaugural" None))
      (Some "+55 31 99999-0003"%string)
      = get_message_history ExtraSamples.bot2 (Some "+55 31 99999-0003"%string)
          ++ new /\
    Forall (fun m => msg_to m = "+55 31 99999-0003"%string /\
                     msg_message m = "Aula inaugural"%string) new /\
    length new = 1%nat.
Proof.
  assert (Hnd : NoDup (PyDict.keys (contacts ExtraSamples.bot2))).
  { apply (bool_decide_unpack _). by vm_compute. }
  split; [exact Hnd|]. split; [discriminate|].
  exact (broadcast_reaches_each_contact_once ExtraSamples.timestamp_at
           ExtraSamples.isoformat_at ExtraSamples.bot2 "Aula inaugural" None
           "+55 31 99999-0003" Hnd ltac:(discriminate)).
Defined.

Lemma add_group_keeps_partial_work_witness :
  add_group ExtraSamples.isoformat_at ExtraSamples.bot2 "Professores"
    ExtraSamples.professors
  = (fst (add_group ExtraSamples.isoformat_at ExtraSamples.bot2 "Professores"
            (take 1 ExtraSamples.professors)), false) /\
  PyDict.contains "+55 31 99999-0004"
    (contacts (fst (add_group ExtraSamples.isoformat_at ExtraSamples.bot2
                      "Professores" ExtraSamples.professors))) = true.
Proof.
  destruct (add_group_keeps_partial_work ExtraSamples.isoformat_at
              ExtraSamples.bot2 "Professores"
              (take 1 ExtraSamples.professors)
              [("name", "Prof. Ana")]%string
              (drop 2 ExtraSamples.professors)) as (H1 & _ & H3).
  - repeat constructor; by eexists.
  - by right.
  - split; [exact H1|].
    apply (H3 [("name", "Prof. Carlos"); ("phone", "+55 31 99999-0004")]%string);
      [by left | reflexivity].
Defined.

End WhatsAppFacts.

(** ** The class days of 2026-2027 *)

Module LetiveFacts.

Import PyDate.
Import LetiveDays.

Lemma datetime_eqb_eq (a b : datetime) : datetime_eqb a b = true -> a = b.
Proof.
  destruct a as [[ya ma da] ha mia sa], b as [[yb mb db] hb mib sb].
  unfold datetime_eqb. cbn [dt_date year month day hour minute second].
  rewrite !andb_true_iff, !Z.eqb_eq. intros [[[[[-> ->] ->] ->] ->] ->]. done.
Qed.

Lemma in_candidates (y m d : Z) :
  2026 <= y <= 2027 -> 1 <= m <= 12 -> 1 <= d <= 31 ->
  In (mkdatetime (mkdate y m d) 0 0 0) candidates.
Proof.
  intros Hy Hm Hd. unfold candidates.
  apply in_flat_map. exists y. split; [cbn; lia|].
  apply in_flat_map. exists m. split.
  { apply list_elem_of_In, elem_of_seqZ. lia. }
  apply in_map_iff. exists d. split; [done|].
  apply list_elem_of_In, elem_of_seqZ. lia.
Qed.

Lemma extract_letive_days_value {R : Type} (rows : R) :
  CalendarReader._extract_letive_days rows = Ok letive_days_2026_2027.
Proof. vm_compute. reflexivity. Qed.

Lemma letive_days_sound :
  forallb is_class_day letive_days_2026_2027 = true.
Proof. vm_compute. reflexivity. Qed.

Lemma letive_days_complete :
  forallb (fun c => implb (is_class_day c)
                      (existsb (datetime_eqb c) letive_days_2026_2027))
    candidates = true.
Proof. vm_compute. reflexivity. Qed.

(** X15. The days [_extract_letive_days] returns are exactly the days of
    the calendar from 1 March 2026 to 31 December 2027 that fall on a
    Monday, a Wednesday, a Friday or a Saturday, each at midnight: no
    such day is missing and no other day is listed, holidays included. *)
Theorem letive_days_are_the_class_weekdays {R : Type} (rows : R) :
  exists days : list datetime,
    CalendarReader._extract_letive_days rows = Ok days /\
    forall t : datetime,
      In t days <->
      validb (dt_date t) = true /\
      leb (mkdate 2026 3 1) (dt_date t) = true /\
      leb (dt_date t) (mkdate 2027 12 31) = true /\
      In (weekday (dt_date t)) [0; 2; 4; 5] /\
      hour t = 0 /\ minute t = 0 /\ second t = 0.
Proof.
  exists letive_days_2026_2027. split; [apply extract_letive_days_value|].
  assert (Hspec : forall t,
            is_class_day t = true <->
            validb (dt_date t) = true /\
            leb (mkdate 2026 3 1) (dt_date t) = true /\
            leb (dt_date t) (mkdate 2027 12 31) = true /\
            In (weekday (dt_date t)) [0; 2; 4; 5] /\
            hour t = 0 /\ minute t = 0 /\ second t = 0).
  { intros t. unfold is_class_day, CalendarReader.is_letive_weekday.
    rewrite !andb_true_iff, !orb_true_iff, !Z.eqb_eq. cbn [In].
    intuition congruence. }
  intros t. rewrite <- Hspec. split.
  - intros Hin. pose proof letive_days_sound as Hs.
    rewrite forallb_forall in Hs. by apply Hs.
  - intros Hclass. pose proof letive_days_complete as Hc.
    rewrite forallb_forall in Hc.
    assert (Hcand : In t candidates).
    { apply Hspec in Hclass as (Hvalid & Hlo & Hhi & _ & Hh & Hmi & Hs).
      destruct t as [[y m d] h mi s].
      cbn [dt_date hour minute second] in *. subst h mi s.
      unfold validb in Hvalid. cbn [year month day] in Hvalid.
      rewrite !andb_true_iff, !Z.leb_le in Hvalid.
      pose proof (PyDateFacts.days_in_month_bounds y m).
      unfold leb in Hlo, Hhi. apply negb_true_iff in Hlo, Hhi.
      unfold ltb in Hlo, Hhi. cbn [year month day] in Hlo, Hhi.
      apply orb_false_iff in Hlo as [Hlo _], Hhi as [Hhi _].
      apply Z.ltb_ge in Hlo, Hhi.
      apply in_candidates; lia. }
    specialize (Hc t Hcand). rewrite Hclass in Hc. cbn [implb] in Hc.
    apply existsb_exists in Hc as (t' & Hin & Heq).
    apply datetime_eqb_eq in Heq. by subst t'.
Qed.

End LetiveFacts.

(** ** Colours and sheets *)

Module SpreadsheetFacts.

Import Sheet.

(** X16. [get_discipline_color] never fails, whatever the index, negative
    ones included: it returns one of the four discipline colours, and two
    indices get the same colour exactly when they differ by a multiple
    of 4. *)
Theorem discipline_colour_cycles (i j : Z) :
  exists colour : string,
    SpreadsheetColorScheme.get_discipline_color i = Ok colour /\
    In colour [SpreadsheetColorScheme.DISCIPLINE_1;
               SpreadsheetColorScheme.DISCIPLINE_2;
               SpreadsheetColorScheme.DISCIPLINE_3;
               SpreadsheetColorScheme.DISCIPLINE_4] /\
    (SpreadsheetColorScheme.get_discipline_color j = Ok colour <->
     (i - j) mod 4 = 0).
Proof.
  unfold SpreadsheetColorScheme.get_discipline_color.
  cbn [length]. change (Z.of_nat 4) with 4.
  pose proof (Z.mod_pos_bound i 4 eq_refl) as Hi.
  pose proof (Z.mod_pos_bound j 4 eq_refl) as Hj.
  assert (Hij : (i - j) mod 4 = 0 <-> i mod 4 = j mod 4).
  { clear. Z.to_euclidean_division_equations. lia. }
  assert (Ci : i mod 4 = 0 \/ i mod 4 = 1 \/ i mod 4 = 2 \/ i mod 4 = 3) by lia.
  assert (Cj : j mod 4 = 0 \/ j mod 4 = 1 \/ j mod 4 = 2 \/ j mod 4 = 3) by lia.
  destruct Ci as [Ei | [Ei | [Ei | Ei]]]; rewrite Ei in *;
    eexists; (split; [reflexivity|]); (split; [cbn; tauto|]); rewrite Hij;
    destruct Cj as [Ej | [Ej | [Ej | Ej]]]; rewrite Ej; cbn;
    split; intros H; (done || discriminate H).
Qed.

(** The rows of data depend on the type of schedule only through its
    comparison with 'semanal'. *)
Lemma week_rows_ext (schedule_type schedule_type' : string)
    (start_date : PyDate.datetime) (weeks : list nat) :
  String.eqb schedule_type "semanal" = String.eqb schedule_type' "semanal" ->
  SpreadsheetGenerator.week_rows schedule_type start_date weeks
    = SpreadsheetGenerator.week_rows schedule_type' start_date weeks.
Proof.
  intros H. induction weeks as [|week weeks IH]; [done|].
  cbn [SpreadsheetGenerator.week_rows]. rewrite IH.
  unfold SpreadsheetGenerator.week_row. by rewrite H.
Qed.

Lemma add_schedule_data_ext (schedule_type schedule_type' : string) :
  String.eqb schedule_type "semanal" = String.eqb schedule_type' "semanal" ->
  SpreadsheetGenerator._add_schedule_data schedule_type
    = SpreadsheetGenerator._add_schedule_data schedule_type'.
Proof.
  intros H. unfold SpreadsheetGenerator._add_schedule_data.
  destruct (PyDate.datetime_make 2026 3 1); cbn [mbind outcome_bind obind];
    [|done..].
  by apply week_rows_ext.
Qed.

Section Str.
Variable upper : string -> string.

(** X17. Whatever the course, the year and the type of schedule, the
    sheet of [SpreadsheetGenerator] has a title row of one cell, a row of
    column headers and 50 rows of data; every data row has as many cells
    as there are headers (7 for 'semanal', 9 for any other type), and
    every one of them is dated on a Sunday. *)
Theorem sheet_rows_match_headers (course year schedule_type : string) :
  exists (title headers : TableRow) (data : list TableRow),
    SpreadsheetGenerator._add_header upper course year schedule_type
      = [title; headers] /\
    SpreadsheetGenerator._add_schedule_data schedule_type = Ok data /\
    length title = 1%nat /\
    length headers
      = (if String.eqb schedule_type "semanal" then 7%nat else 9%nat) /\
    length data = 50%nat /\
    Forall (fun row => length row = length headers /\
                       text <$> row !! 1%nat = Some (Some "Sunday"%string)) data.
Proof using Type.
  unfold SpreadsheetGenerator._add_header.
  destruct (String.eqb schedule_type "semanal") eqn:E.
  - rewrite (add_schedule_data_ext schedule_type "semanal") by done.
    eexists _, _, _. split; [reflexivity|].
    split; [vm_compute; reflexivity|].
    split; [reflexivity|]. split; [reflexivity|]. split; [reflexivity|].
    repeat (apply List.Forall_cons; [split; reflexivity|]); apply List.Forall_nil.
  - rewrite (add_schedule_data_ext schedule_type "quinzenal") by done.
    eexists _, _, _. split; [reflexivity|].
    split; [vm_compute; reflexivity|].
    split; [reflexivity|]. split; [reflexivity|]. split; [reflexivity|].
    repeat (apply List.Forall_cons; [split; reflexivity|]); apply List.Forall_nil.
Qed.

(** X18. Every row of the sheet of [ScheduleGenerator2026] takes seven
    columns, the two merged title cells included, and the sheet has the
    nine rows of the header followed by five blank rows, whatever the
    course, the year and the type of schedule. *)
Theorem sheet_2026_is_seven_columns_wide (course year schedule_type : string) :
  length (ScheduleGenerator2026._add_header upper course year schedule_type)
    = 9%nat /\
  length (ScheduleGenerator2026._add_schedule_data schedule_type) = 5%nat /\
  Forall (fun row => width row = 7)
    (ScheduleGenerator2026._add_header upper course year schedule_type ++
     ScheduleGenerator2026._add_schedule_data schedule_type) /\
  Forall (fun row => Forall (fun cell => text cell = None) row)
    (ScheduleGenerator2026._add_schedule_data schedule_type).
Proof using Type.
  unfold ScheduleGenerator2026._add_header,
    ScheduleGenerator2026._add_schedule_data.
  destruct (String.eqb schedule_type "SEMANAL");
    (split; [reflexivity|]); (split; [reflexivity|]);
    (split; [repeat constructor | repeat constructor]).
Qed.

End Str.

End SpreadsheetFacts.

(** ** The pipeline, end to end *)

Module PipelineFacts.

Import ScheduleManager.

Section Generic.
Context {num : Type}.
Variable to_numeric_str : string -> option num.
Variable num_zero : num.
Variable num_add : num -> num -> num.
Variable num_leb : num -> num -> bool.
Variable num_eqb : num -> num -> bool.
Variable num_int : num -> outcome Z.

Lemma by_load_loop_returns (values : list num) (loads : list num) :
  (forall n, In n loads -> exists z, num_int n = Ok z) ->
  forall by_load, exists by_load',
    by_load_loop num_zero num_add num_eqb num_int loads values by_load
      = Ok by_load'.
Proof using Type.
  induction loads as [|load loads IH]; intros Hint by_load.
  - by eexists.
  - cbn [by_load_loop]. destruct (Hint load) as [z ->]; [by left|].
    cbn [mbind outcome_bind obind]. apply IH.
    intros n Hn. apply Hint. by right.
Qed.

(** [unique] and [sorted] produce values of the list they are given. *)
Lemma In_unique (l : list num) (x : num) :
  In x (unique num_eqb l) -> In x l.
Proof using Type.
  induction l as [|y l IH]; [done|]. cbn [unique].
  intros [->|H]; [by left|]. right. apply IH.
  by apply filter_In in H as [H _].
Qed.

Lemma In_insert_sorted (x y : num) (l : list num) :
  In x (insert_sorted num_leb y l) -> x = y \/ In x l.
Proof using Type.
  induction l as [|z l IH]; cbn [insert_sorted].
  - intros [->|[]]. by left.
  - destruct (num_leb y z).
    + intros [->|H]; [by left | by right].
    + intros [->|H]; [right; by left|].
      destruct (IH H) as [->|H']; [by left | right; by right].
Qed.

Lemma In_sorted (l : list num) (x : num) :
  In x (sorted num_leb l) -> In x l.
Proof using Type.
  unfold sorted. induction l as [|y l IH]; [done|]. cbn [fold_right].
  intros H. apply In_insert_sorted in H as [->|H]; [by left|].
  right. by apply IH.
Qed.

(** A value of the column Hora_aula of the loaded table is the number of
    the hour cell of a data row. *)
Lemma hora_aula_values_In (rs : list (nat * list (@cell num))) (n : num) :
  In n (hora_aula_values
          (dropna_hora_aula (convert_columns to_numeric_str rs))) ->
  exists i cells,
    In (i, cells) rs /\
    to_numeric to_numeric_str (cell_at 1 cells) = CNumber n.
Proof using Type.
  unfold hora_aula_values. intros H. apply list_elem_of_In in H.
  apply list_elem_of_omap in H as ([i cells'] & Hin & Hnum).
  apply list_elem_of_In in Hin.
  unfold dropna_hora_aula in Hin.
  rewrite ScheduleManagerFacts.convert_columns_rows, filter_In, in_map_iff in Hin.
  destruct Hin as [([j cells] & [= <- <-] & Hin) _].
  exists j, cells. split; [done|].
  rewrite ScheduleManagerFacts.hora_aula_converted in Hnum.
  by destruct (to_numeric to_numeric_str (cell_at 1 cells)) as [| |];
    simplify_eq.
Qed.

(** What [load_disciplines] leaves in [self.disciplines] for a table of
    five columns or more that has a row. *)
Lemma load_disciplines_value (df : @frame num) :
  (5 <= ncols df)%nat -> rows df <> [] ->
  load_disciplines to_numeric_str (Some df)
    = mk_load true
        (Some (mk_frame 5
                 (dropna_hora_aula
                    (convert_columns to_numeric_str
                       (remove_header (rows (iloc_first5 df))))))) [].
Proof using Type.
  intros Hcols Hrows. unfold load_disciplines.
  assert (Hn : ncols (iloc_first5 df) = 5%nat).
  { cbn [iloc_first5 ncols]. lia. }
  rewrite Hn. cbn [Nat.eqb negb].
  destruct (rows (iloc_first5 df)) as [|r rs] eqn:E; [|reflexivity].
  cbn [iloc_first5 rows] in E. apply map_eq_nil in E. done.
Qed.

Lemma dropna_In (rs : list (nat * list (@cell num))) (i : nat) (cells : list cell) :
  In (i, cells) (dropna_hora_aula (convert_columns to_numeric_str rs)) ->
  exists cells0,
    In (i, cells0) rs /\
    isna (to_numeric to_numeric_str (cell_at 1 cells0)) = false.
Proof using Type.
  unfold dropna_hora_aula.
  rewrite ScheduleManagerFacts.convert_columns_rows, filter_In, in_map_iff.
  intros [([j cells0] & [= <- <-] & Hin) Hkeep].
  exists cells0. split; [done|].
  rewrite ScheduleManagerFacts.hora_aula_converted in Hkeep.
  by apply negb_true_iff.
Qed.

Lemma In_dropna (rs : list (nat * list (@cell num))) (i : nat) (cells0 : list cell) :
  In (i, cells0) rs ->
  isna (to_numeric to_numeric_str (cell_at 1 cells0)) = false ->
  dropna_hora_aula (convert_columns to_numeric_str rs) <> [].
Proof using Type.
  intros Hin Hnum Hnil.
  assert (Hin' : In (i, alter (to_numeric to_numeric_str) 4%nat
                       (alter (to_numeric to_numeric_str) 2%nat
                          (alter (to_numeric to_numeric_str) 1%nat cells0)))
                   (dropna_hora_aula (convert_columns to_numeric_str rs))).
  { unfold dropna_hora_aula.
    rewrite ScheduleManagerFacts.convert_columns_rows, filter_In, in_map_iff.
    split; [by exists (i, cells0)|].
    rewrite ScheduleManagerFacts.hora_aula_converted. by apply negb_true_iff. }
  by rewrite Hnil in Hin'.
Qed.

(** X19. [process] runs to its end whenever the calendar file can be
    read, the distribution file has five columns or more and one data
    row with a numeric hour, and [int] succeeds on the loads, that is on
    the numeric hours of the data rows: the result then holds the four
    steps and is marked ready for export.  The calendar report is stored
    as it is; a calendar found INVÁLIDO does not stop the run. *)
Theorem process_runs_to_export (course year timestamp : string)
    (read_csv : string -> option (@frame num))
    (calendar_file distribution_file : string)
    (cal df : @frame num) (i : nat) (cells : list cell) :
  read_csv calendar_file = Some cal ->
  read_csv distribution_file = Some df ->
  (5 <= ncols df)%nat ->
  In (i, cells) (remove_header (rows (iloc_first5 df))) ->
  isna (to_numeric to_numeric_str (cell_at 1 cells)) = false ->
  (forall (j : nat) (cells' : list cell) (load : num),
     In (j, cells') (remove_header (rows (iloc_first5 df))) ->
     to_numeric to_numeric_str (cell_at 1 cells') = CNumber load ->
     exists z, num_int load = Ok z) ->
  exists results steps,
    process to_numeric_str num_zero num_add num_leb num_eqb num_int
      course year timestamp read_csv calendar_file distribution_file
      = Ok results /\
    PyDict.get "export_status" results = Some (PStr "Pronto para exportação") /\
    PyDict.get "steps" results = Some (PDict steps) /\
    PyDict.keys steps = ["calendar_validation"; "discipline_analysis";
                         "schedule_generation"; "conflict_validation"]%string /\
    PyDict.get "calendar_validation" steps = Some (PDict (validate (Some cal))).
Proof using Type.
  intros Hcal Hdist Hcols Hin Hnum Hint.
  assert (Hrows : rows df <> []).
  { intros E. cbn [iloc_first5 rows] in Hin. by rewrite E in Hin. }
  unfold process. rewrite Hcal, Hdist, (load_disciplines_value df Hcols Hrows).
  cbn [load_ok disciplines].
  pose proof (In_dropna _ i cells Hin Hnum) as Hdata.
  unfold analyze, frame_empty. cbn [ncols rows].
  destruct (dropna_hora_aula _) as [|r data] eqn:E; [done|].
  match goal with
  | |- context [by_load_loop _ _ _ _ ?loads ?values ?d] =>
      destruct (by_load_loop_returns values loads) with (by_load := d)
        as [by_load ->]
  end.
  { intros load Hload. apply In_sorted, In_unique in Hload.
    rewrite <- E in Hload.
    apply hora_aula_values_In in Hload as (j & cells' & Hj & Hnumber).
    by apply (Hint j cells'). }
  cbn [mbind outcome_bind obind].
  eexists _, _. split; [reflexivity|]. repeat split; reflexivity.
Qed.

(** X20. When the distribution file has five columns or more and a row,
    but no data row with a numeric hour, [process] does not return a
    result: the analysis holds only an error, and reading its total
    raises KeyError. *)
Theorem process_raises_without_numeric_hours (course year timestamp : string)
    (read_csv : string -> option (@frame num))
    (calendar_file distribution_file : string) (cal df : @frame num) :
  read_csv calendar_file = Some cal ->
  read_csv distribution_file = Some df ->
  (5 <= ncols df)%nat ->
  rows df <> [] ->
  (forall i cells,
     In (i, cells) (remove_header (rows (iloc_first5 df))) ->
     isna (to_numeric to_numeric_str (cell_at 1 cells)) = true) ->
  process to_numeric_str num_zero num_add num_leb num_eqb num_int
    course year timestamp read_csv calendar_file distribution_file
    = Raise "KeyError".
Proof using Type.
  intros Hcal Hdist Hcols Hrows Hnan.
  unfold process. rewrite Hcal, Hdist, (load_disciplines_value df Hcols Hrows).
  cbn [load_ok disciplines].
  assert (Hdata : dropna_hora_aula
                    (convert_columns to_numeric_str
                       (remove_header (rows (iloc_first5 df)))) = []).
  { destruct (dropna_hora_aula _) as [|[i cells] data] eqn:E; [done|].
    assert (Hin : In (i, cells) (dropna_hora_aula
                    (convert_columns to_numeric_str
                       (remove_header (rows (iloc_first5 df))))))
      by (rewrite E; by left).
    apply dropna_In in Hin as (cells0 & Hin & Hnum).
    rewrite (Hnan i cells0 Hin) in Hnum. discriminate. }
  rewrite Hdata. reflexivity.
Qed.

(** X21. Both generators accept the semesters 'sem1' and 'sem2' only:
    for these they return a schedule with the capacity of the table and
    no assignment, and for any other semester they raise KeyError. *)
Theorem generators_know_two_semesters {D : Type} (disciplines : list D)
    (semester : string) :
  if String.eqb semester "sem1" || String.eqb semester "sem2" then
    exists weekly biweekly : PyDict.dict (pyval num),
      generate_weekly_schedule disciplines semester = Ok weekly /\
      generate_biweekly_schedule disciplines semester = Ok biweekly /\
      PyDict.get "capacity" weekly
        = Some (PInt (if String.eqb semester "sem1" then 64 else 80)) /\
      PyDict.get "capacity" biweekly
        = Some (PInt (if String.eqb semester "sem1" then 96 else 120)) /\
      PyDict.get "assignments" weekly = Some (PList []) /\
      PyDict.get "assignments" biweekly = Some (PList [])
  else
    @generate_weekly_schedule num D disciplines semester = Raise "KeyError" /\
    @generate_biweekly_schedule num D disciplines semester = Raise "KeyError".
Proof using Type.
  unfold generate_weekly_schedule, generate_biweekly_schedule, capacity_of.
  cbn [capacity PyDict.get String.eqb Ascii.eqb Bool.eqb].
  destruct (String.eqb_spec semester "sem1") as [->|H1]; cbn [orb].
  - eexists _, _. repeat split; reflexivity.
  - destruct (String.eqb_spec semester "sem2") as [->|H2].
    + eexists _, _. repeat split; reflexivity.
    + done.
Qed.

(** X22. The report of [CalendarValidator.validate] has status INVÁLIDO
    exactly when it lists an error, and that is exactly when no calendar
    was loaded or the calendar loaded has no row or no column; it never
    holds a warning. *)
Theorem calendar_report_status (academic_calendar : option (@frame num)) :
  (report_status (@validate num academic_calendar) = Some "INVÁLIDO"%string <->
   report_list "errors" (@validate num academic_calendar) <> []) /\
  (report_status (@validate num academic_calendar) = Some "VÁLIDO"%string <->
   exists df, academic_calendar = Some df /\ ncols df <> 0%nat /\ rows df <> []) /\
  (report_status (@validate num academic_calendar) = Some "VÁLIDO"%string \/
   report_status (@validate num academic_calendar) = Some "INVÁLIDO"%string) /\
  report_list "warnings" (@validate num academic_calendar) = [].
Proof using Type.
  unfold validate, frame_empty.
  destruct academic_calendar as [[n rs]|]; cbn [ncols rows].
  - destruct n as [|n], rs as [|r rs]; cbn; repeat split; try done;
      try (by intros (df & [= <-] & ? & ?)); try (by right); try (by left);
      try (intros _; eexists; repeat split; done).
  - cbn. repeat split; try done; try (by right).
    by intros (df & ? & _).
Qed.

End Generic.

Lemma process_runs_to_export_witness :
  exists results steps,
    Samples.process_sample "2026-02-09T10:00:00" = Ok results /\
    PyDict.get "export_status" results = Some (PStr "Pronto para exportação") /\
    PyDict.get "steps" results = Some (PDict steps) /\
    PyDict.keys steps = ["calendar_validation"; "discipline_analysis";
                         "schedule_generation"; "conflict_validation"]%string /\
    PyDict.get "calendar_validation" steps
      = Some (PDict (validate (Some Samples.calendar_sheet))).
Proof.
  apply (process_runs_to_export Samples.int_of_string 0 Z.add Z.leb Z.eqb Ok
           "criminologia" "2026-2027" "2026-02-09T10:00:00" Samples.read_csv
           "CAL_2026-2027_Calendario.csv" "DIST_2026-2027_Criminologia.csv"
           Samples.calendar_sheet Samples.distribution 0%nat
           (map CText ["Criminologia I"; "40"; "24"; "CRI1"; "40"]%string)).
  - reflexivity.
  - reflexivity.
  - cbn. lia.
  - cbn. by left.
  - reflexivity.
  - intros j cells' load _ _. by exists load.
Defined.

Lemma process_raises_without_numeric_hours_witness :
  process Samples.int_of_string 0 Z.add Z.leb Z.eqb Ok
    "gespin" "2026-2027" "2026-02-09T10:00:00" PipelineSamples.read_csv
    "CAL_2026-2027_Calendario.csv" "DIST_2026-2027_Gespin.csv"
  = Raise "KeyError".
Proof.
  apply (process_raises_without_numeric_hours Samples.int_of_string 0 Z.add
           Z.leb Z.eqb Ok "gespin" "2026-2027" "2026-02-09T10:00:00"
           PipelineSamples.read_csv
           "CAL_2026-2027_Calendario.csv" "DIST_2026-2027_Gespin.csv"
           Samples.calendar_sheet PipelineSamples.distribution_to_be_defined).
  - reflexivity.
  - reflexivity.
  - cbn. lia.
  - discriminate.
  - intros i cells. cbn. intros [[= <- <-]|[]]. reflexivity.
Defined.

End PipelineFacts.

(** ** Uploads *)

Module UploadFacts.

Import PyStr.

Lemma split_nonempty (sep : ascii) (s : string) : split sep s <> [].
Proof.
  destruct s as [|c s]; cbn [split]; [done|].
  destruct (Ascii.eqb c sep); [done|]. by destruct (split sep s).
Qed.

Lemma join_cons (sep piece : string) (pieces : list string) :
  pieces <> [] ->
  join sep (piece :: pieces) = (piece +:+ sep +:+ join sep pieces)%string.
Proof. by destruct pieces. Qed.

Lemma join_String (sep : string) (c : ascii) (piece : string)
    (pieces : list string) :
  join sep (String c piece :: pieces) = String c (join sep (piece :: pieces)).
Proof. by destruct pieces. Qed.

(** Joining the pieces of a split gives the text back. *)
Lemma join_split (sep : ascii) (s : string) :
  join (String sep EmptyString) (split sep s) = s.
Proof.
  induction s as [|c s IH]; [done|]. cbn [split].
  destruct (Ascii.eqb_spec c sep) as [->|Hne].
  - rewrite join_cons by apply split_nonempty. by rewrite IH.
  - destruct (split sep s) as [|piece pieces] eqn:E.
    + by apply split_nonempty in E.
    + by rewrite join_String, IH.
Qed.

(** No piece of a split holds the separator. *)
Lemma split_pieces (sep : ascii) (s : string) :
  Forall (fun piece => has_char sep piece = false) (split sep s).
Proof.
  induction s as [|c s IH]; [by repeat constructor|]. cbn [split].
  destruct (Ascii.eqb c sep) eqn:E; [by constructor|].
  destruct (split sep s) as [|piece pieces]; [by repeat constructor; cbn; rewrite E|].
  apply Forall_cons in IH as [Hp Hps].
  constructor; [|done]. cbn [has_char]. by rewrite E, Hp.
Qed.

Section Values.
Context {num : Type}.

(** X23. An upload without a name, or with an empty name, is named by
    the text after the last '/' of its path: the name holds no '/', the
    path is the name with its directories joined in front by '/', and
    the same dictionary is returned and appended to the history.  A path
    that ends in '/' gives the empty name. *)
Theorem upload_is_named_after_the_path
    (version_history : list (PyDict.dict (pyval num)))
    (file_path : string) (file_name : option string) (description : pyval num)
    (now_timestamp now_isoformat : string) :
  file_name = None \/ file_name = Some ""%string ->
  exists (name : string) (directories : list string),
    PyDict.get "name"
      (snd (GoogleDriveManager.upload_file version_history file_path file_name
              description now_timestamp now_isoformat))
      = Some (PStr name) /\
    has_char "/" name = false /\
    file_path = join "/" (directories ++ [name]) /\
    fst (GoogleDriveManager.upload_file version_history file_path file_name
           description now_timestamp now_isoformat)
      = version_history ++
        [snd (GoogleDriveManager.upload_file version_history file_path file_name
                description now_timestamp now_isoformat)].
Proof.
  intros Hname.
  exists (GoogleDriveManager.last_component file_path),
         (removelast (split "/" file_path)).
  assert (Hsplit : split "/" file_path
                   = removelast (split "/" file_path) ++
                     [GoogleDriveManager.last_component file_path]).
  { apply app_removelast_last, split_nonempty. }
  split; [|split; [|split]].
  - by destruct Hname as [-> | ->].
  - pose proof (split_pieces "/" file_path) as Hall.
    rewrite Hsplit in Hall. apply Forall_app in Hall as [_ Hall].
    by apply Forall_cons in Hall as [Hlast _].
  - rewrite <- Hsplit. symmetry. apply (join_split "/").
  - reflexivity.
Qed.

End Values.

Lemma upload_is_named_after_the_path_witness :
  exists (name : string) (directories : list string),
    PyDict.get "name"
      (snd (@GoogleDriveManager.upload_file Z [] "output/criminologia_semanal.ods"
              None PNone "1770631200.0" "2026-02-09T10:00:00"))
      = Some (PStr name) /\
    has_char "/" name = false /\
    "output/criminologia_semanal.ods"%string = join "/" (directories ++ [name]) /\
    fst (@GoogleDriveManager.upload_file Z [] "output/criminologia_semanal.ods"
           None PNone "1770631200.0" "2026-02-09T10:00:00")
      = [] ++
        [snd (@GoogleDriveManager.upload_file Z [] "output/criminologia_semanal.ods"
                None PNone "1770631200.0" "2026-02-09T10:00:00")].
Proof.
  exact (upload_is_named_after_the_path [] "output/criminologia_semanal.ods"
           None PNone "1770631200.0" "2026-02-09T10:00:00" (or_introl eq_refl)).
Defined.

End UploadFacts.

(** ** Edge cases of the holiday file and of the contacts *)

Module EdgeFacts.

Import PyDate.

Section Regex.
Variable match_date : string -> option (string * string).
Variable py_int : string -> option Z.
Variable lower : string -> string.
Variable strip : string -> string.
Variable search_description : string -> option string.

(** X24. A holiday file that can be read but holds no line with a date
    and a known month after its first line gives a manager with two empty
    tables, not the default ones: no date is a holiday or an optional
    holiday and no date has a holiday name. *)
Theorem file_without_dates_means_no_holidays (file : string)
    (read_lines : string -> option (list string)) (lines : list string) :
  file <> ""%string ->
  read_lines file = Some lines ->
  Forall (fun line =>
            strip line = ""%string \/
            match_date (strip line) = None \/
            exists group1 group2,
              match_date (strip line) = Some (group1, group2) /\
              PyDict.get (lower group2) HolidayLoader.months = None)
    (skipn 1 lines) ->
  HolidayLoader.load_holidays match_date py_int lower strip search_description
    (Some file) read_lines
  = {| HolidayManager.holidays := []; HolidayManager.optional_holidays := [] |} /\
  forall d : date,
    HolidayManager.is_holiday
      (HolidayLoader.load_holidays match_date py_int lower strip
         search_description (Some file) read_lines) d = false /\
    HolidayManager.is_optional_holiday
      (HolidayLoader.load_holidays match_date py_int lower strip
         search_description (Some file) read_lines) d = false /\
    HolidayManager.get_holiday_name
      (HolidayLoader.load_holidays match_date py_int lower strip
         search_description (Some file) read_lines) d = None.
Proof using Type.
  intros Hfile Hread Hlines.
  assert (Hload :
    HolidayLoader.load_holidays match_date py_int lower strip search_description
      (Some file) read_lines
    = {| HolidayManager.holidays := []; HolidayManager.optional_holidays := [] |}).
  { unfold HolidayLoader.load_holidays.
    apply String.eqb_neq in Hfile. rewrite Hfile, Hread.
    generalize ({| HolidayManager.holidays := [];
                   HolidayManager.optional_holidays := [] |}) as self.
    induction Hlines as [|line rest Hline _ IH]; intros self; [done|].
    cbn [fold_left].
    assert (Hskip : HolidayLoader.load_line match_date py_int lower strip
                      search_description self line = self).
    { unfold HolidayLoader.load_line, HolidayLoader._parse_holiday_line.
      destruct Hline as [E | [E | (g1 & g2 & E1 & E2)]].
      - by rewrite E.
      - rewrite E. by destruct (String.eqb (strip line) "").
      - rewrite E1, E2.
        by destruct (String.eqb (strip line) ""), (py_int g1). }
    rewrite Hskip. apply IH. }
  split; [exact Hload|]. intros d. rewrite Hload. by repeat split.
Qed.

End Regex.

Section Clock.
Variable isoformat_at : nat -> string.

Lemma keys_set_present {V : Type} (k : string) (v : V) (d : PyDict.dict V) :
  PyDict.contains k d = true -> PyDict.keys (PyDict.set k v d) = PyDict.keys d.
Proof using Type.
  unfold PyDict.contains, PyDict.keys. induction d as [|[k' v'] d IH]; [done|].
  cbn [PyDict.set PyDict.get]. destruct (String.eqb k k') eqn:E; cbn [map fst].
  - done.
  - intros H. by rewrite IH.
Qed.

(** X25. Adding a contact under a number that is already a contact
    replaces that contact, in its place, by the new name and role: the
    contacts keep their number and order, the other contacts are
    unchanged, and looking the number up gives the contact just added.
    Under a new number the contact is added last. *)
Theorem add_contact_replaces (self : WhatsAppBot.t) (name phone : string)
    (role : option string) :
  PyDict.get phone
    (WhatsAppBot.contacts (WhatsAppBot.add_contact isoformat_at self name phone role))
    = Some (WhatsAppBot.mk_contact name phone role
              (isoformat_at (WhatsAppBot.clock self))) /\
  (forall other : string,
     other <> phone ->
     PyDict.get other
       (WhatsAppBot.contacts
          (WhatsAppBot.add_contact isoformat_at self name phone role))
     = PyDict.get other (WhatsAppBot.contacts self)) /\
  PyDict.keys
    (WhatsAppBot.contacts (WhatsAppBot.add_contact isoformat_at self name phone role))
    = (if PyDict.contains phone (WhatsAppBot.contacts self)
       then PyDict.keys (WhatsAppBot.contacts self)
       else PyDict.keys (WhatsAppBot.contacts self) ++ [phone]) /\
  WhatsAppBot.sent_messages
    (WhatsAppBot.add_contact isoformat_at self name phone role)
    = WhatsAppBot.sent_messages self.
Proof using Type.
  cbn [WhatsAppBot.add_contact WhatsAppBot.contacts WhatsAppBot.sent_messages].
  split; [apply PyDictFacts.get_set_same|].
  split; [intros other Hne; by apply PyDictFacts.get_set_other|].
  split; [|done].
  destruct (PyDict.contains phone (WhatsAppBot.contacts self)) eqn:E.
  - by apply keys_set_present.
  - rewrite KeyFacts.set_fresh by done. unfold PyDict.keys.
    by rewrite map_app.
Qed.

End Clock.

Lemma file_without_dates_means_no_holidays_witness :
  HolidayLoader.load_holidays HolidaySamples.match_date HolidaySamples.py_int
    id id HolidaySamples.search_description
    (Some "Lista_feriados_ponto_facultativo.txt"%string)
    EmptyFileSamples.read_lines
  = {| HolidayManager.holidays := []; HolidayManager.optional_holidays := [] |} /\
  HolidayManager.is_holiday
    (HolidayLoader.load_holidays HolidaySamples.match_date HolidaySamples.py_int
       id id HolidaySamples.search_description
       (Some "Lista_feriados_ponto_facultativo.txt"%string)
       EmptyFileSamples.read_lines) (mkdate 2026 12 25) = false.
Proof.
  destruct (file_without_dates_means_no_holidays HolidaySamples.match_date
              HolidaySamples.py_int id id HolidaySamples.search_description
              "Lista_feriados_ponto_facultativo.txt" EmptyFileSamples.read_lines
              ["Lista de feriados de 2026"; ""; "a definir"]%string)
    as [Hload Hnone].
  - discriminate.
  - reflexivity.
  - cbn [skipn]. apply List.Forall_cons; [by left|].
    apply List.Forall_cons; [right; left; reflexivity|]. apply List.Forall_nil.
  - split; [exact Hload|]. apply (Hnone (mkdate 2026 12 25)).
Defined.

End EdgeFacts.

(** ** The system: generating, uploading and versioning *)

Module SystemFacts.

Import ScheduleManagementSystem.

Section System.
Context {num : Type}.
Variable to_numeric_str : string -> option num.
Variable num_zero : num.
Variable num_add : num -> num -> num.
Variable num_leb : num -> num -> bool.
Variable num_eqb : num -> num -> bool.
Variable num_int : num -> outcome Z.
Variable timestamp_at : nat -> string.
Variable isoformat_at : nat -> string.
Variable upper : string -> string.
Variable title : string -> string.
Variable read_csv : string -> option (@ScheduleManager.frame num).
Variable makedirs : string -> outcome unit.
Variable ODF_AVAILABLE : bool.
Variable generate_ods : string -> string -> string -> string -> bool.
Variable generate_pdf : string -> string -> bool.
Variable path_exists : string -> bool.
Variable OUTPUT_DIR : string.
Variable NOTIFICATION_CONTACTS : option (PyDict.dict (list (PyDict.dict string))).

(** A step of the iterator on a dictionary whose size has changed. *)
Lemma upload_loop_size_changed (remaining i used : nat) (course year : string)
    (files : PyDict.dict (@file_entry num))
    (history : list (PyDict.dict (pyval num))) (clock : nat) :
  length files <> used ->
  upload_loop timestamp_at isoformat_at title path_exists remaining i used
    course year files history clock = Raise "RuntimeError".
Proof using Type.
  intros Hne. apply Nat.eqb_neq in Hne.
  destruct remaining; cbn [upload_loop]; by rewrite Hne.
Qed.

(** The loop does not survive an upload: the key it adds is new, so the
    next step of the iterator finds the dictionary grown. *)
Lemma upload_loop_raises (course year : string)
    (files : PyDict.dict (@file_entry num)) (j : nat)
    (file_type file_path : string) :
  files !! j = Some (file_type, Path file_path) ->
  path_exists file_path = true ->
  Forall (fun '(k, entry) =>
            (exists p, entry = Path p) /\
            PyDict.contains (k +:+ "_drive") files = false) files ->
  forall (remaining i : nat) (history : list (PyDict.dict (pyval num)))
         (clock : nat),
    (i + remaining = length files)%nat -> (i <= j)%nat ->
    upload_loop timestamp_at isoformat_at title path_exists remaining i
      (length files) course year files history clock = Raise "RuntimeError".
Proof using Type.
  intros Hj Hexists Hfresh.
  induction remaining as [|remaining IH]; intros i history clock Hlen Hij.
  - apply lookup_lt_Some in Hj. lia.
  - cbn [upload_loop]. rewrite Nat.eqb_refl. cbn [negb].
    destruct (lookup_lt_is_Some_2 files i) as [[k entry] Hi]; [lia|].
    unfold PyDict.dict in *. rewrite Hi. rewrite Forall_lookup in Hfresh.
    destruct (Hfresh i (k, entry) Hi) as [[p ->] Hnew].
    destruct (path_exists p) eqn:Hp.
    + cbn [GoogleDriveManager.upload_file].
      apply upload_loop_size_changed.
      rewrite KeyFacts.set_fresh by done. rewrite length_app. cbn. lia.
    + apply IH; [lia|].
      destruct (Nat.eq_dec i j) as [->|Hne]; [|lia].
      rewrite Hj in Hi. injection Hi as <- <-. congruence.
Qed.

(** The files [generate_complete_schedule] lists are paths under keys
    that no upload key collides with. *)
Lemma generated_files_fresh (course year : string)
    (schedule_data calendar_data : PyDict.dict (pyval num))
    (output_dir : string) (generated : PyDict.dict string) :
  generate_complete_schedule makedirs ODF_AVAILABLE generate_ods generate_pdf
    course year schedule_data calendar_data output_dir = Ok generated ->
  makedirs output_dir = Ok tt /\
  Forall (fun '(k, entry) =>
            (exists p, entry = @Path num p) /\
            PyDict.contains (k +:+ "_drive")
              (map (fun '(file_type, file_path) => (file_type, @Path num file_path))
                 generated) = false)
    (map (fun '(file_type, file_path) => (file_type, @Path num file_path))
       generated).
Proof using Type.
  unfold generate_complete_schedule.
  destruct (makedirs output_dir) as [[]| |]; cbn [mbind outcome_bind obind];
    [|done..].
  destruct ODF_AVAILABLE; cbn [negb]; [|done].
  cbv zeta.
  repeat match goal with
         | |- context [generate_ods ?a ?b ?c ?d] =>
             destruct (generate_ods a b c d)
         end;
    repeat match goal with
           | |- context [generate_pdf ?a ?b] => destruct (generate_pdf a b)
           end;
    intros [= <-]; (split; [reflexivity|]);
    repeat (apply List.Forall_cons; [split; [by eexists | reflexivity]|]);
    apply List.Forall_nil.
Qed.

(** X27. When a spreadsheet that [generate_complete_schedule] lists is
    found on disk, [generate_schedules] does not return: its upload loop
    adds the key of the upload to the dictionary it is iterating over, and
    the next step of the iteration raises RuntimeError.
    [update_and_notify] then raises too, before it creates a version. *)
Theorem generate_schedules_fails_after_an_upload (self : @ScheduleManagementSystem.t num)
    (course year changes : string)
    (schedule_results : PyDict.dict (pyval num))
    (generated : PyDict.dict string) (file_type file_path : string) :
  ScheduleManager.process to_numeric_str num_zero num_add num_leb num_eqb
    num_int course year
    (isoformat_at (S (WhatsAppBot.clock (whatsapp_bot self)))) read_csv
    ("CAL_" +:+ year +:+ "_Calendario.csv")
    ("DIST_" +:+ year +:+ "_" +:+ title course +:+ ".csv")
    = Ok schedule_results ->
  generate_complete_schedule makedirs ODF_AVAILABLE generate_ods generate_pdf
    course year schedule_results
    (HolidayLoader.get_holidays_summary (holiday_manager self)) OUTPUT_DIR
    = Ok generated ->
  In (file_type, file_path) generated ->
  path_exists file_path = true ->
  generate_schedules to_numeric_str num_zero num_add num_leb num_eqb num_int
    timestamp_at isoformat_at upper title read_csv makedirs ODF_AVAILABLE
    generate_ods generate_pdf path_exists OUTPUT_DIR NOTIFICATION_CONTACTS
    self course year = Raise "RuntimeError" /\
  update_and_notify to_numeric_str num_zero num_add num_leb num_eqb num_int
    timestamp_at isoformat_at upper title read_csv makedirs ODF_AVAILABLE
    generate_ods generate_pdf path_exists OUTPUT_DIR NOTIFICATION_CONTACTS
    self course year changes = Raise "RuntimeError".
Proof using Type.
  intros Hprocess Hgenerated Hin Hexists.
  assert (Hraise :
    generate_schedules to_numeric_str num_zero num_add num_leb num_eqb num_int
      timestamp_at isoformat_at upper title read_csv makedirs ODF_AVAILABLE
      generate_ods generate_pdf path_exists OUTPUT_DIR NOTIFICATION_CONTACTS
      self course year = Raise "RuntimeError").
  { unfold generate_schedules. rewrite Hprocess.
    cbn [mbind outcome_bind obind].
    destruct (generated_files_fresh _ _ _ _ _ _ Hgenerated) as [-> Hfresh].
    cbn [mbind outcome_bind obind]. rewrite Hgenerated.
    cbn [mbind outcome_bind obind].
    set (files := map (fun '(k, p) => (k, @Path num p)) generated) in *.
    assert (Hin' : In (file_type, @Path num file_path) files).
    { apply in_map_iff. by exists (file_type, file_path). }
    apply list_elem_of_In, list_elem_of_lookup_1 in Hin' as [j Hj].
    destruct files as [|entry files'] eqn:E; [done|]. cbn [PyDict.is_empty].
    rewrite <- E in *.
    rewrite (upload_loop_raises course year files j file_type file_path
               Hj Hexists Hfresh); [done|lia|lia]. }
  split; [exact Hraise|]. unfold update_and_notify. by rewrite Hraise.
Qed.

(** X11. Whenever [update_and_notify] returns, the version it has made,
    with a [VersionManager] of its own, is number 1: it holds the results
    of this run, the description of the changes as its notes and a file
    name that ends in "_v1.json", however many updates came before. *)
Theorem update_creates_version_1 (self self' : @ScheduleManagementSystem.t num)
    (course year changes : string) (results : PyDict.dict (pyval num))
    (version : @VersionManager.version_info num) :
  update_and_notify to_numeric_str num_zero num_add num_leb num_eqb num_int
    timestamp_at isoformat_at upper title read_csv makedirs ODF_AVAILABLE
    generate_ods generate_pdf path_exists OUTPUT_DIR NOTIFICATION_CONTACTS
    self course year changes = Ok (self', results, version) ->
  VersionManager.version version = 1 /\
  VersionManager.file_name version
    = (course +:+ "_" +:+ year +:+ "_v1.json")%string /\
  VersionManager.notes version = PStr changes /\
  VersionManager.data version = PDict results /\
  VersionManager.course version = course /\
  VersionManager.year version = year.
Proof using Type.
  unfold update_and_notify.
  destruct (generate_schedules _ _ _ _ _ _ _ _ _ _ _ _ _ _ _ _ _ _ _ _ _)
    as [[self1 results1]| |]; cbn [mbind outcome_bind obind]; [|done..].
  unfold VersionManager.create_schedule_version, VersionManager.init.
  cbn [PyDict.contains PyDict.get PyDict.set].
  rewrite String.eqb_refl. cbn [default length].
  intros [= <- <- <-]. by repeat split.
Qed.

End System.

Lemma update_creates_version_1_witness :
  exists self' results version,
    SystemSamples.update_and_notify false "Troca de sala"
      = Ok (self', results, version) /\
    VersionManager.version version = 1.
Proof.
  destruct (SystemSamples.update_and_notify false "Troca de sala")
    as [[[self' results] version]| |] eqn:E;
    [|vm_compute in E; discriminate E..].
  exists self', results, version. split; [reflexivity|].
  exact (proj1 (update_creates_version_1 _ _ _ _ _ _ _ _ _ _ _ _ _ _ _ _ _ _
                  _ _ _ _ _ _ _ E)).
Defined.

Lemma generate_schedules_fails_after_an_upload_witness :
  SystemSamples.update_and_notify true "Troca de sala" = Raise "RuntimeError".
Proof.
  destruct (ScheduleManager.process Samples.int_of_string 0 Z.add Z.leb Z.eqb Ok
              "criminologia" "2026-2027"
              (ExtraSamples.isoformat_at
                 (S (WhatsAppBot.clock (whatsapp_bot SystemSamples.system0))))
              Samples.read_csv "CAL_2026-2027_Calendario.csv"
              "DIST_2026-2027_Criminologia.csv")
    as [schedule_results| |] eqn:E; [|vm_compute in E; discriminate E..].
  refine (proj2 (generate_schedules_fails_after_an_upload
                   Samples.int_of_string 0 Z.add Z.leb Z.eqb Ok
                   ExtraSamples.timestamp_at ExtraSamples.isoformat_at id
                   SystemSamples.title Samples.read_csv (fun _ => Ok tt) true
                   (fun _ _ _ _ => true) (fun _ _ => false) (fun _ => true)
                   "output" (Some SystemSamples.contacts)
                   SystemSamples.system0 "criminologia" "2026-2027"
                   "Troca de sala" schedule_results
                   [("weekly_ods", "output/criminologia_2026-2027_semanal.ods");
                    ("biweekly_ods",
                     "output/criminologia_2026-2027_quinzenal.ods")]%string
                   "weekly_ods" "output/criminologia_2026-2027_semanal.ods"
                   E eq_refl (or_introl eq_refl) eq_refl)).
Defined.

End SystemFacts.
